(** * The pybullet connection registry

    A shallow embedding of the client table of [examples/pybullet/pybullet.c]:
    the three globals [sPhysicsClients1], [sPhysicsClientsGUI] and
    [sNumPhysicsClients], the lookup [getPhysicsClient], and the Python entry
    points [connect], [disconnect], [isConnected], [getConnectionInfo],
    [stepSimulation], [syncBodyInfo] and [syncUserData], and the exit handler
    [b3pybulletExitFunc].

    The Bullet C API that these functions call ([b3CanSubmitCommand],
    [b3DisconnectSharedMemory], the transport constructors and
    [b3SubmitClientCommandAndWaitStatus]) is not part of the file; it is taken
    as an interface, and every theorem holds for every implementation of it. *)

From Stdlib Require Import ZArith Lia.
From stdpp Require Import base list strings.

Local Open Scope Z_scope.

(** ** Constants and external declarations *)

(** [#define MAX_PHYSICS_CLIENTS 1024] *)
Definition MAX_PHYSICS_CLIENTS : Z := 1024.

(** A [b3PhysicsClientHandle] is a pointer; [0] is the null handle. *)
Abbreviation b3PhysicsClientHandle := Z (only parsing).

(** The enumerators of [SharedMemoryPublic.h] that the file uses.  The header
    is not part of the sources at hand, so the values are parameters. *)
Class SharedMemoryPublic : Type := {
  eCONNECT_GUI : Z;
  eCONNECT_DIRECT : Z;
  eCONNECT_SHARED_MEMORY : Z;
  eCONNECT_UDP : Z;
  eCONNECT_TCP : Z;
  eCONNECT_GUI_SERVER : Z;
  eCONNECT_GUI_MAIN_THREAD : Z;
  eCONNECT_SHARED_MEMORY_SERVER : Z;
  eCONNECT_DART : Z;
  eCONNECT_MUJOCO : Z;
  eCONNECT_GRPC : Z;
  eCONNECT_PHYSX : Z;
  eCONNECT_SHARED_MEMORY_GUI : Z;
  SHARED_MEMORY_KEY : Z;
  CMD_SYNC_BODY_INFO_COMPLETED : Z;
  CMD_SYNC_USER_DATA_COMPLETED : Z;
  CMD_STEP_FORWARD_SIMULATION_COMPLETED : Z
}.

(** The preprocessor symbols that select code in [connect]. *)
Class BuildFlags : Type := {
  __APPLE__ : bool;
  BT_ENABLE_ENET : bool;
  BT_ENABLE_CLSOCKET : bool;
  BT_ENABLE_GRPC : bool;
  BT_ENABLE_DART : bool;
  BT_ENABLE_PHYSX : bool;
  BT_ENABLE_MUJOCO : bool
}.

(** The transport constructors called from the [switch] of [connect], with
    the arguments each one is given. *)
Inductive transport_ctor : Type :=
  | b3CreateInProcessPhysicsServerAndConnect (argv : list string)
  | b3CreateInProcessPhysicsServerAndConnectMainThread (argv : list string)
  | b3CreateInProcessPhysicsServerAndConnectSharedMemory (argv : list string)
  | b3CreateInProcessPhysicsServerAndConnectMainThreadSharedMemory (argv : list string)
  | b3CreateInProcessPhysicsServerFromExistingExampleBrowserAndConnect3 (key : Z)
  | b3CreateInProcessPhysicsServerFromExistingExampleBrowserAndConnect4 (key : Z)
  | b3ConnectPhysicsDirect
  | b3ConnectPhysicsDART
  | b3ConnectPhysX (argv : list string)
  | b3ConnectPhysicsMuJoCo
  | b3ConnectPhysicsGRPC (hostName : string) (port : Z)
  | b3ConnectSharedMemory (key : Z)
  | b3ConnectPhysicsUDP (hostName : string) (port : Z)
  | b3ConnectPhysicsTCP (hostName : string) (port : Z).

(** The commands this part of the file builds: [b3InitSyncBodyInfoCommand],
    [b3InitSyncUserDataCommand], [b3InitStepSimulationCommand]. *)
Inductive command : Type :=
  | SyncBodyInfoCommand
  | SyncUserDataCommand
  | StepSimulationCommand.

(** A C [double], carried through untouched (its bit pattern). *)
Definition double : Type := Z.

(** One entry of [b3ForwardDynamicsAnalyticsArgs.m_islandData]. *)
Record b3ForwardDynamicsAnalyticsIslandData : Type := {
  m_islandId : Z;
  m_numBodies : Z;
  m_numIterationsUsed : Z;
  m_remainingLeastSquaresResidual : double
}.

(** What a [b3SharedMemoryStatusHandle] gives access to here; the fields are
    named after the accessor functions. *)
Record b3SharedMemoryStatus : Type := {
  b3GetStatusType : Z;
  b3GetStatusForwardDynamicsAnalyticsData : list b3ForwardDynamicsAnalyticsIslandData
}.

(** The Bullet C API, over an arbitrary state [W] of everything outside the
    registry (the transports and the servers behind them).  A constructor
    returns the null handle when it fails. *)
Class PhysicsClientC_API (W : Type) : Type := {
  b3Connect : transport_ctor -> W -> b3PhysicsClientHandle * W;
  b3CanSubmitCommand : b3PhysicsClientHandle -> W -> bool * W;
  b3DisconnectSharedMemory : b3PhysicsClientHandle -> W -> W;
  b3SubmitClientCommandAndWaitStatus :
    b3PhysicsClientHandle -> command -> W -> b3SharedMemoryStatus * W;
  urdfStrSplit : string -> list string
}.

(** ** Python values and results *)

(** The values the modelled entry points build ([PyInt_FromLong],
    [Py_BuildValue], [PyTuple_New], [Py_None]). *)
#[local] Unset Elimination Schemes.
Inductive PyObject : Type :=
  | PyInt (z : Z)
  | PyFloat (d : double)
  | Py_None
  | PyTuple (items : list PyObject)
  | PyDict (items : list (string * PyObject)).
#[local] Set Elimination Schemes.

(** The two exception types of the module ([static PyObject* BulletError],
    [BulletNotConnectedError]) with the message given to [PyErr_SetString],
    and the [OverflowError] that [PyArg_ParseTupleAndKeywords] sets when a
    Python integer does not fit the C [int] of an ["i"] argument. *)
Inductive PyException : Type :=
  | BulletError (msg : string)
  | BulletNotConnectedError (msg : string)
  | PyExc_OverflowError.

(** How an entry point ends: a value, [NULL] with an exception set, or (one
    path of [connect]) a value returned while an exception is set. *)
Inductive PyResult : Type :=
  | PyReturn (v : PyObject)
  | PyRaise (e : PyException)
  | PyReturnWithErrorSet (v : PyObject) (e : PyException).

(** The bounds of a C [int]. *)
Definition INT_MIN : Z := - 2 ^ 31.
Definition INT_MAX : Z := 2 ^ 31 - 1.

(** [PyArg_ParseTupleAndKeywords(args, keywds, "|i", kwlist,
    &physicsClientId)], given the Python integer [arg] the caller passed
    (a call without the argument is the call with [0], the initial value of
    [physicsClientId]): the [int] it stores, or [None] when it fails (it
    has then set [OverflowError], and the entry point returns [NULL]). *)
Definition parse_int (arg : Z) : option Z :=
  if (INT_MIN <=? arg) && (arg <=? INT_MAX) then Some arg else None.

(** ** The registry *)

(** The three globals.  The arrays are lists of length
    [MAX_PHYSICS_CLIENTS]; [sNumPhysicsClients] is a C [int], kept in [Z]
    (it moves by one per call and stays far from the [int] bounds). *)
Record Registry : Type := {
  sPhysicsClients1 : list b3PhysicsClientHandle;
  sPhysicsClientsGUI : list Z;
  sNumPhysicsClients : Z
}.

(** [= {0}] and [= 0] *)
Definition initial_registry : Registry :=
  {| sPhysicsClients1 := replicate (Z.to_nat MAX_PHYSICS_CLIENTS) 0;
     sPhysicsClientsGUI := replicate (Z.to_nat MAX_PHYSICS_CLIENTS) 0;
     sNumPhysicsClients := 0 |}.

(** [a[i]] and [a[i] = v] on a C array of [Z]. *)
Definition aget (a : list Z) (i : Z) : Z := default 0 (a !! Z.to_nat i).
Definition aset (a : list Z) (i : Z) (v : Z) : list Z := <[Z.to_nat i := v]> a.

(** A call of the C API, as recorded in the trace of a run. *)
Inductive api_event : Type :=
  | EvConnect (c : transport_ctor) (sm : b3PhysicsClientHandle)
  | EvCanSubmit (sm : b3PhysicsClientHandle) (ok : bool)
  | EvDisconnect (sm : b3PhysicsClientHandle)
  | EvSubmit (sm : b3PhysicsClientHandle) (c : command) (statusType : Z).

(** The whole system: the registry, the outside world, and the trace of the
    C API calls made so far (the trace is bookkeeping of the model, the code
    has no such variable). *)
Record System (W : Type) : Type := {
  reg : Registry;
  world : W;
  calls : list api_event
}.
Arguments reg {W} _.
Arguments world {W} _.
Arguments calls {W} _.

(** ** A state monad over [System] *)

Definition M (W A : Type) : Type := System W -> A * System W.

Definition ret {W A : Type} (a : A) : M W A := fun s => (a, s).

Definition bind {W A B : Type} (m : M W A) (k : A -> M W B) : M W B :=
  fun s => let (a, s') := m s in k a s'.

Notation "'do' x <- m ; k" := (bind m (fun x => k))
  (at level 10, x name, m at level 100, k at level 200).
Notation "'do_' m ; k" := (bind m (fun _ => k))
  (at level 10, m at level 100, k at level 200).

Section Registry.

Context {W : Type} `{SharedMemoryPublic} `{BuildFlags} `{PhysicsClientC_API W}.

Definition get_reg : M W Registry := fun s => (reg s, s).

Definition put_reg (r : Registry) : M W unit :=
  fun s => (tt, {| reg := r; world := world s; calls := calls s |}).

(** The C API calls, threading the world and recording the call. *)
Definition call_b3Connect (c : transport_ctor) : M W b3PhysicsClientHandle :=
  fun s => let (sm, w) := b3Connect c (world s) in
           (sm, {| reg := reg s; world := w; calls := calls s ++ [EvConnect c sm] |}).

Definition call_b3CanSubmitCommand (sm : b3PhysicsClientHandle) : M W bool :=
  fun s => let (ok, w) := b3CanSubmitCommand sm (world s) in
           (ok, {| reg := reg s; world := w; calls := calls s ++ [EvCanSubmit sm ok] |}).

Definition call_b3DisconnectSharedMemory (sm : b3PhysicsClientHandle) : M W unit :=
  fun s => (tt, {| reg := reg s; world := b3DisconnectSharedMemory sm (world s);
                   calls := calls s ++ [EvDisconnect sm] |}).

Definition call_b3SubmitClientCommandAndWaitStatus
    (sm : b3PhysicsClientHandle) (c : command) : M W b3SharedMemoryStatus :=
  fun s => let (st, w) := b3SubmitClientCommandAndWaitStatus sm c (world s) in
           (st, {| reg := reg s; world := w;
                   calls := calls s ++ [EvSubmit sm c (b3GetStatusType st)] |}).

(** [sPhysicsClients1[i] = 0; sPhysicsClientsGUI[i] = 0;] and the change
    [d] that the code then applies to [sNumPhysicsClients]. *)
Definition clear_slot (i : Z) (d : Z) (r : Registry) : Registry :=
  {| sPhysicsClients1 := aset (sPhysicsClients1 r) i 0;
     sPhysicsClientsGUI := aset (sPhysicsClientsGUI r) i 0;
     sNumPhysicsClients := sNumPhysicsClients r + d |}.

(** [sPhysicsClients1[i] = sm; sPhysicsClientsGUI[i] = method;
    sNumPhysicsClients++;] *)
Definition store_client (i : Z) (sm : b3PhysicsClientHandle) (method : Z)
    (r : Registry) : Registry :=
  {| sPhysicsClients1 := aset (sPhysicsClients1 r) i sm;
     sPhysicsClientsGUI := aset (sPhysicsClientsGUI r) i method;
     sNumPhysicsClients := sNumPhysicsClients r + 1 |}.

(** [b3PhysicsClientHandle getPhysicsClient(int physicsClientId)] *)
Definition getPhysicsClient (physicsClientId : Z) : M W b3PhysicsClientHandle :=
  do r <- get_reg;
  if (physicsClientId <? 0) || (physicsClientId >=? MAX_PHYSICS_CLIENTS)
     || (0 =? aget (sPhysicsClients1 r) physicsClientId)
  then ret 0
  else
    let sm := aget (sPhysicsClients1 r) physicsClientId in
    if sm =? 0 then ret 0
    else
      do ok <- call_b3CanSubmitCommand sm;
      if ok then ret sm
      else
        (* broken connection? *)
        do_ call_b3DisconnectSharedMemory sm;
        do r' <- get_reg;
        do_ put_reg (clear_slot physicsClientId (-1) r');
        ret 0.

(** [for (i = 0; i < MAX_PHYSICS_CLIENTS; i++) if (p(a[i])) { ...; break; }]:
    the index of the first of the [MAX_PHYSICS_CLIENTS] entries of the array
    [a] at which [p] holds.  Both scans of [connect] have this shape (one
    breaks, the other returns, at the first hit). *)
Fixpoint first_index_from (p : Z -> bool) (a : list Z) (i : Z) : option Z :=
  match a with
  | [] => None
  | x :: a' => if p x then Some i else first_index_from p a' (i + 1)
  end.

Definition first_index (p : Z -> bool) (a : list Z) : option Z :=
  first_index_from p (take (Z.to_nat MAX_PHYSICS_CLIENTS) a) 0.

(** The parsed arguments of [connect]: [PyArg_ParseTupleAndKeywords] is tried
    with ["i|is"] (method, key, options) and, when that fails, with
    ["i|sis"] (method, hostName, port, options).  [None] is an optional
    argument that was not given. *)
Inductive connect_args : Type :=
  | ByKey (method : Z) (key : option Z) (options : option string)
  | ByHost (method : Z) (hostName : option string) (port : option Z)
           (options : option string).

Definition args_method (a : connect_args) : Z :=
  match a with ByKey m _ _ => m | ByHost m _ _ _ => m end.

Definition args_options (a : connect_args) : option string :=
  match a with ByKey _ _ o => o | ByHost _ _ _ o => o end.

(** [int key = SHARED_MEMORY_KEY;] unless the first parse set it. *)
Definition args_key (a : connect_args) : Z :=
  match a with ByKey _ (Some k) _ => k | _ => SHARED_MEMORY_KEY end.

Definition args_hostName (a : connect_args) : string :=
  match a with ByHost _ (Some h) _ _ => h | _ => "localhost"%string end.

(** [udpPort], [tcpPort], [grpcPort]: the default [d] unless the second
    parse gave a [port >= 0]. *)
Definition args_port (d : Z) (a : connect_args) : Z :=
  match a with
  | ByHost _ _ (Some p) _ => if p >=? 0 then p else d
  | _ => d
  end.

(** What the [switch (method)] of [connect] does. *)
Inductive selection : Type :=
  | Construct (c : transport_ctor)         (* [sm = b3...(...); break;] *)
  | ErrorSetOnly (e : PyException)         (* [PyErr_SetString(...); break;] *)
  | ReturnNULL (e : PyException).          (* [PyErr_SetString(...); return NULL;] *)

Definition unexpected_argument : selection :=
  ReturnNULL (BulletError "connectPhysicsServer unexpected argument").

Definition select_transport (a : connect_args) (argv : list string) : selection :=
  let method := args_method a in
  let key := args_key a in
  let hostName := args_hostName a in
  if method =? eCONNECT_GUI then
    Construct (if __APPLE__
               then b3CreateInProcessPhysicsServerAndConnectMainThread argv
               else b3CreateInProcessPhysicsServerAndConnect argv)
  else if method =? eCONNECT_GUI_MAIN_THREAD then
    Construct (b3CreateInProcessPhysicsServerAndConnectMainThread argv)
  else if method =? eCONNECT_GUI_SERVER then
    Construct (if __APPLE__
               then b3CreateInProcessPhysicsServerAndConnectMainThreadSharedMemory argv
               else b3CreateInProcessPhysicsServerAndConnectSharedMemory argv)
  else if method =? eCONNECT_SHARED_MEMORY_SERVER then
    Construct (b3CreateInProcessPhysicsServerFromExistingExampleBrowserAndConnect3 key)
  else if method =? eCONNECT_SHARED_MEMORY_GUI then
    Construct (b3CreateInProcessPhysicsServerFromExistingExampleBrowserAndConnect4 key)
  else if method =? eCONNECT_DIRECT then
    Construct b3ConnectPhysicsDirect
  else if BT_ENABLE_DART && (method =? eCONNECT_DART) then
    Construct b3ConnectPhysicsDART
  else if BT_ENABLE_PHYSX && (method =? eCONNECT_PHYSX) then
    Construct (b3ConnectPhysX argv)
  else if BT_ENABLE_MUJOCO && (method =? eCONNECT_MUJOCO) then
    Construct b3ConnectPhysicsMuJoCo
  else if method =? eCONNECT_GRPC then
    if BT_ENABLE_GRPC
    then Construct (b3ConnectPhysicsGRPC hostName (args_port (-1) a))
    else ErrorSetOnly (BulletError "GRPC is not enabled in this pybullet build")
  else if method =? eCONNECT_SHARED_MEMORY then
    Construct (b3ConnectSharedMemory key)
  else if method =? eCONNECT_UDP then
    if BT_ENABLE_ENET
    then Construct (b3ConnectPhysicsUDP hostName (args_port 1234 a))
    else ReturnNULL (BulletError "UDP is not enabled in this pybullet build")
  else if method =? eCONNECT_TCP then
    if BT_ENABLE_CLSOCKET
    then Construct (b3ConnectPhysicsTCP hostName (args_port 6667 a))
    else ReturnNULL (BulletError "TCP is not enabled in this pybullet build")
  else unexpected_argument.

Definition capacity_message : string :=
  "Exceeding maximum number of physics connections.".

Definition exclusivity_message : string :=
  "Only one local in-process GUI/GUI_SERVER connection allowed. Use DIRECT connection mode or start a separate GUI physics server (ExampleBrowser, App_SharedMemoryPhysics_GUI, App_SharedMemoryPhysics_VR) and connect over SHARED_MEMORY, UDP or TCP instead.".

Definition not_connected : PyException :=
  BulletNotConnectedError "Not connected to physics server.".

(** The test of the exclusivity scan on one table entry. *)
Definition is_gui_entry (g : Z) : bool :=
  (g =? eCONNECT_GUI) || (g =? eCONNECT_GUI_SERVER).

(** [return PyInt_FromLong(v)], with the exception a [break] of the switch
    may have left set. *)
Definition return_int (pending : option PyException) (v : Z) : PyResult :=
  match pending with
  | None => PyReturn (PyInt v)
  | Some e => PyReturnWithErrorSet (PyInt v) e
  end.

(** The two identical blocks taken when a handshake status is not the
    expected one: disconnect, clear the slot, [sNumPhysicsClients++],
    [return PyInt_FromLong(-1)]. *)
Definition handshake_failed (sm : b3PhysicsClientHandle) (freeIndex : Z) : M W PyResult :=
  do_ call_b3DisconnectSharedMemory sm;
  do r <- get_reg;
  do_ put_reg (clear_slot freeIndex 1 r);
  ret (PyReturn (PyInt (-1))).

(** The part of [connect] under [if (sm)]. *)
Definition register_client (method : Z) (sm : b3PhysicsClientHandle) : M W PyResult :=
  do ok <- call_b3CanSubmitCommand sm;
  if ok then
    do r <- get_reg;
    let freeIndex :=
      default (-1) (first_index (fun x => x =? 0) (sPhysicsClients1 r)) in
    if freeIndex >=? 0 then
      do_ put_reg (store_client freeIndex sm method r);
      do st <- call_b3SubmitClientCommandAndWaitStatus sm SyncBodyInfoCommand;
      if negb (b3GetStatusType st =? CMD_SYNC_BODY_INFO_COMPLETED)
      then handshake_failed sm freeIndex
      else
        do st' <- call_b3SubmitClientCommandAndWaitStatus sm SyncUserDataCommand;
        if negb (b3GetStatusType st' =? CMD_SYNC_USER_DATA_COMPLETED)
        then handshake_failed sm freeIndex
        else ret (PyReturn (PyInt freeIndex))
    else ret (PyReturn (PyInt freeIndex))
  else
    do_ call_b3DisconnectSharedMemory sm;
    ret (PyReturn (PyInt (-1))).

(** [pybullet_connectPhysicsServer], after argument parsing. *)
Definition pybullet_connectPhysicsServer (a : connect_args) : M W PyResult :=
  do r <- get_reg;
  if sNumPhysicsClients r >=? MAX_PHYSICS_CLIENTS
  then ret (PyRaise (BulletError capacity_message))
  else
    let method := args_method a in
    (* Only one local in-process GUI connection allowed. *)
    if (method =? eCONNECT_GUI)
       && bool_decide (is_Some (first_index is_gui_entry (sPhysicsClientsGUI r)))
    then ret (PyRaise (BulletError exclusivity_message))
    else
      let argv := match args_options a with
                  | Some o => urdfStrSplit o
                  | None => []
                  end in
      match select_transport a argv with
      | ReturnNULL e => ret (PyRaise e)
      | ErrorSetOnly e => ret (return_int (Some e) (-1))
      | Construct c =>
          do sm <- call_b3Connect c;
          if sm =? 0 then ret (PyReturn (PyInt (-1)))
          else register_client method sm
      end.

(** [void b3pybulletExitFunc(void)], registered with [Py_AtExit]: when the
    interpreter exits it disconnects every transport still in the table.
    [exit_loop i n] is the loop from index [i] for [n] more rounds. *)
Fixpoint exit_loop (i : Z) (n : nat) : M W unit :=
  match n with
  | O => ret tt
  | S n' =>
      do r <- get_reg;
      do_ (if negb (aget (sPhysicsClients1 r) i =? 0) then
             do_ call_b3DisconnectSharedMemory (aget (sPhysicsClients1 r) i);
             put_reg {| sPhysicsClients1 := aset (sPhysicsClients1 r) i 0;
                        sPhysicsClientsGUI := sPhysicsClientsGUI r;
                        sNumPhysicsClients := sNumPhysicsClients r - 1 |}
           else ret tt);
      exit_loop (i + 1) n'
  end.

Definition b3pybulletExitFunc : M W unit :=
  exit_loop 0 (Z.to_nat MAX_PHYSICS_CLIENTS).

(** The opening of every per-connection entry point:
    [sm = getPhysicsClient(physicsClientId); if (sm == 0) {
       PyErr_SetString(BulletNotConnectedError, ...); return NULL; }] *)
Definition with_client (physicsClientId : Z)
    (body : b3PhysicsClientHandle -> M W PyResult) : M W PyResult :=
  do sm <- getPhysicsClient physicsClientId;
  if sm =? 0 then ret (PyRaise not_connected) else body sm.

(** [pybullet_disconnectPhysicsServer] *)
Definition pybullet_disconnectPhysicsServer (physicsClientId : Z) : M W PyResult :=
  with_client physicsClientId (fun sm =>
    do_ call_b3DisconnectSharedMemory sm;
    do r <- get_reg;
    do_ put_reg (clear_slot physicsClientId (-1) r);
    ret (PyReturn Py_None)).

(** The introspection shared by [isConnected] and [getConnectionInfo]: the
    pair [(isConnected, method)] both compute. *)
Definition connection_state (physicsClientId : Z) : M W (Z * Z) :=
  do sm <- getPhysicsClient physicsClientId;
  if negb (sm =? 0) then
    do ok <- call_b3CanSubmitCommand sm;
    if ok then
      do r <- get_reg;
      ret (1, aget (sPhysicsClientsGUI r) physicsClientId)
    else ret (0, 0)
  else ret (0, 0).

(** [pybullet_isConnected], called with the Python integer [arg]. *)
Definition pybullet_isConnected (arg : Z) : M W PyResult :=
  match parse_int arg with
  | None => ret (PyRaise PyExc_OverflowError)            (* [return NULL;] *)
  | Some physicsClientId =>
      do cm <- connection_state physicsClientId;
      ret (PyReturn (PyInt (fst cm)))
  end.

(** [pybullet_getConnectionInfo], called with the Python integer [arg]. *)
Definition pybullet_getConnectionInfo (arg : Z) : M W PyResult :=
  match parse_int arg with
  | None => ret (PyRaise PyExc_OverflowError)            (* [return NULL;] *)
  | Some physicsClientId =>
      do cm <- connection_state physicsClientId;
      ret (PyReturn (PyDict [("isConnected"%string, PyInt (fst cm));
                             ("connectionMethod"%string, PyInt (snd cm))]))
  end.

(** The dictionary built per island by [stepSimulation]. *)
Definition island_dict (d : b3ForwardDynamicsAnalyticsIslandData) : PyObject :=
  PyDict [("islandId"%string, PyInt (m_islandId d));
          ("numBodies"%string, PyInt (m_numBodies d));
          ("numIterationsUsed"%string, PyInt (m_numIterationsUsed d));
          ("remainingResidual"%string, PyFloat (m_remainingLeastSquaresResidual d))].

(** [pybullet_stepSimulation] *)
Definition pybullet_stepSimulation (physicsClientId : Z) : M W PyResult :=
  with_client physicsClientId (fun sm =>
    do ok <- call_b3CanSubmitCommand sm;
    if ok then
      do st <- call_b3SubmitClientCommandAndWaitStatus sm StepSimulationCommand;
      if b3GetStatusType st =? CMD_STEP_FORWARD_SIMULATION_COMPLETED
      then ret (PyReturn (PyTuple
                  (island_dict <$> b3GetStatusForwardDynamicsAnalyticsData st)))
      else ret (PyReturn Py_None)
    else ret (PyReturn Py_None)).

(** [pybullet_syncBodyInfo] *)
Definition pybullet_syncBodyInfo (physicsClientId : Z) : M W PyResult :=
  with_client physicsClientId (fun sm =>
    do st <- call_b3SubmitClientCommandAndWaitStatus sm SyncBodyInfoCommand;
    if negb (b3GetStatusType st =? CMD_SYNC_BODY_INFO_COMPLETED)
    then ret (PyRaise (BulletError "Error in syncBodyzInfo command."))
    else ret (PyReturn Py_None)).

(** [pybullet_syncUserData] *)
Definition pybullet_syncUserData (physicsClientId : Z) : M W PyResult :=
  with_client physicsClientId (fun sm =>
    do st <- call_b3SubmitClientCommandAndWaitStatus sm SyncUserDataCommand;
    if negb (b3GetStatusType st =? CMD_SYNC_USER_DATA_COMPLETED)
    then ret (PyRaise (BulletError "Error in syncUserInfo command."))
    else ret (PyReturn Py_None)).

End Registry.

(** ** Runs of the module *)

(** The entry points a Python caller can invoke.  The arguments are the
    parsed ones, except for the two introspection calls, which are given
    the Python integer and parse it themselves. *)
Inductive api_call : Type :=
  | Connect (a : connect_args)
  | Disconnect (physicsClientId : Z)
  | IsConnected (physicsClientId : Z)
  | GetConnectionInfo (physicsClientId : Z)
  | StepSimulation (physicsClientId : Z)
  | SyncBodyInfo (physicsClientId : Z)
  | SyncUserData (physicsClientId : Z).

(** The client id an entry point is called with, if it takes one. *)
Definition call_id (c : api_call) : option Z :=
  match c with
  | Connect _ => None
  | Disconnect i | IsConnected i | GetConnectionInfo i
  | StepSimulation i | SyncBodyInfo i | SyncUserData i => Some i
  end.

Definition initial_system {W : Type} (w : W) : System W :=
  {| reg := initial_registry; world := w; calls := [] |}.

(** The outside world moves on its own between two calls. *)
Definition set_world {W : Type} (w : W) (s : System W) : System W :=
  {| reg := reg s; world := w; calls := calls s |}.

Section Runs.

Context {W : Type} `{SharedMemoryPublic} `{BuildFlags} `{PhysicsClientC_API W}.

Definition run_call (c : api_call) : M W PyResult :=
  match c with
  | Connect a => pybullet_connectPhysicsServer a
  | Disconnect i => pybullet_disconnectPhysicsServer i
  | IsConnected i => pybullet_isConnected i
  | GetConnectionInfo i => pybullet_getConnectionInfo i
  | StepSimulation i => pybullet_stepSimulation i
  | SyncBodyInfo i => pybullet_syncBodyInfo i
  | SyncUserData i => pybullet_syncUserData i
  end.

(** The state after a sequence of calls, and the results they gave. *)
Fixpoint run_calls (cs : list api_call) (s : System W) : list PyResult * System W :=
  match cs with
  | [] => ([], s)
  | c :: cs' =>
      let (x, s1) := run_call c s in
      let (xs, s2) := run_calls cs' s1 in
      (x :: xs, s2)
  end.

(** The states the module can be in: it starts from the zeroed globals, and
    then entry points are called and the world changes, in any order. *)
Inductive reachable : System W -> Prop :=
  | reachable_init (w : W) : reachable (initial_system w)
  | reachable_call (c : api_call) (s : System W) :
      reachable s -> reachable (snd (run_call c s))
  | reachable_env (w : W) (s : System W) :
      reachable s -> reachable (set_world w s).

(** A client id is valid when the lookup yields a transport for it. *)
Definition valid_id (physicsClientId : Z) (s : System W) : Prop :=
  fst (getPhysicsClient physicsClientId s) <> 0.

(** The number of occupied slots of the client table. *)
Definition occupied (a : list b3PhysicsClientHandle) : Z :=
  Z.of_nat (length (filter (fun sm => sm <> 0) a)).

(** Every slot of the client table holds a transport. *)
Definition registry_full (r : Registry) : Prop :=
  forall i, 0 <= i < MAX_PHYSICS_CLIENTS -> aget (sPhysicsClients1 r) i <> 0.

End Runs.

(** ** A scripted world, for the examples *)

Module Example.

(** Sample values for the enumerators: non-zero and pairwise distinct within
    each enumeration, as C enumerators used as [case] labels are.  Nothing
    below depends on the particular numbers. *)
#[export] Instance constants : SharedMemoryPublic := {|
  eCONNECT_GUI := 1;
  eCONNECT_DIRECT := 2;
  eCONNECT_SHARED_MEMORY := 3;
  eCONNECT_UDP := 4;
  eCONNECT_TCP := 5;
  eCONNECT_GUI_SERVER := 7;
  eCONNECT_GUI_MAIN_THREAD := 8;
  eCONNECT_SHARED_MEMORY_SERVER := 9;
  eCONNECT_DART := 10;
  eCONNECT_MUJOCO := 11;
  eCONNECT_GRPC := 12;
  eCONNECT_PHYSX := 13;
  eCONNECT_SHARED_MEMORY_GUI := 14;
  SHARED_MEMORY_KEY := 12347;
  CMD_SYNC_BODY_INFO_COMPLETED := 101;
  CMD_SYNC_USER_DATA_COMPLETED := 102;
  CMD_STEP_FORWARD_SIMULATION_COMPLETED := 103
|}.

(** A Linux build without the optional transports. *)
#[export] Instance flags : BuildFlags := {|
  __APPLE__ := false;
  BT_ENABLE_ENET := false;
  BT_ENABLE_CLSOCKET := false;
  BT_ENABLE_GRPC := false;
  BT_ENABLE_DART := false;
  BT_ENABLE_PHYSX := false;
  BT_ENABLE_MUJOCO := false
|}.

(** The world: the next handle to hand out, the handles that no longer
    accept commands, and a script of status types for the coming round trips
    (when the script is empty every command completes). *)
Record Sim : Type := {
  next_handle : Z;
  closed : list Z;
  script : list Z
}.

Definition completed (c : command) : Z :=
  match c with
  | SyncBodyInfoCommand => CMD_SYNC_BODY_INFO_COMPLETED
  | SyncUserDataCommand => CMD_SYNC_USER_DATA_COMPLETED
  | StepSimulationCommand => CMD_STEP_FORWARD_SIMULATION_COMPLETED
  end.

#[export] Instance sim_api : PhysicsClientC_API Sim := {|
  b3Connect := fun _ w =>
    (next_handle w,
     {| next_handle := next_handle w + 1; closed := closed w; script := script w |});
  b3CanSubmitCommand := fun sm w =>
    (negb (bool_decide (sm ∈ closed w)), w);
  b3DisconnectSharedMemory := fun sm w =>
    {| next_handle := next_handle w; closed := sm :: closed w; script := script w |};
  b3SubmitClientCommandAndWaitStatus := fun sm c w =>
    match script w with
    | [] => ({| b3GetStatusType := completed c;
                b3GetStatusForwardDynamicsAnalyticsData := [] |}, w)
    | t :: ts =>
        ({| b3GetStatusType := t; b3GetStatusForwardDynamicsAnalyticsData := [] |},
         {| next_handle := next_handle w; closed := closed w; script := ts |})
    end;
  urdfStrSplit := fun o => [o]
|}.

(** A fresh process: handles start at 1000, nothing closed, nothing scripted. *)
Definition fresh : Sim := {| next_handle := 1000; closed := []; script := [] |}.

(** A fresh process whose coming round trips answer with the given types. *)
Definition scripted (ts : list Z) : Sim :=
  {| next_handle := 1000; closed := []; script := ts |}.

Definition connect_direct : api_call := Connect (ByKey eCONNECT_DIRECT None None).
Definition connect_gui : api_call := Connect (ByKey eCONNECT_GUI None None).
Definition connect_gui_server : api_call := Connect (ByKey eCONNECT_GUI_SERVER None None).

(** A fresh process after [connect(DIRECT)]: client 0 is open. *)
Definition connected : System Sim :=
  snd (run_call connect_direct (initial_system fresh)).

(** ... and after [disconnect(0)]. *)
Definition disconnected : System Sim :=
  snd (run_call (Disconnect 0) connected).

(** Client 0 is open, but its transport has stopped accepting commands. *)
Definition server_lost : System Sim :=
  set_world {| next_handle := 1001; closed := [1000]; script := [] |} connected.

(** A fresh process after three [connect(DIRECT)] and then [disconnect(1)]:
    clients 0 and 2 are open, slot 1 is free again. *)
Definition middle_freed : System Sim :=
  snd (run_calls [connect_direct; connect_direct; connect_direct; Disconnect 1]
                 (initial_system fresh)).

(** A fresh process after two [connect(DIRECT)]. *)
Definition two_clients : System Sim :=
  snd (run_calls [connect_direct; connect_direct] (initial_system fresh)).

(** A fresh process after [MAX_PHYSICS_CLIENTS] calls of [connect(DIRECT)]. *)
Definition filled : System Sim :=
  snd (run_calls (replicate (Z.to_nat MAX_PHYSICS_CLIENTS) connect_direct)
                 (initial_system fresh)).

(** A fresh process after [connect(GUI)] and then [connect(GUI_SERVER)]. *)
Definition gui_then_gui_server : list PyResult * System Sim :=
  run_calls [connect_gui; connect_gui_server] (initial_system fresh).

End Example.

(** ** Outcomes and invariants *)

(** The contribution of one slot to [occupied]. *)
Definition occ1 (x : Z) : Z := if decide (x <> 0) then 1 else 0.

(** What holds of the globals in every state the module can reach. *)
Record registry_inv (r : Registry) : Prop := {
  inv_clients_length : length (sPhysicsClients1 r) = Z.to_nat MAX_PHYSICS_CLIENTS;
  inv_gui_length : length (sPhysicsClientsGUI r) = Z.to_nat MAX_PHYSICS_CLIENTS;
  inv_count : occupied (sPhysicsClients1 r) <= sNumPhysicsClients r;
  inv_gui_zero : forall n, sPhysicsClients1 r !! n = Some 0 ->
                           sPhysicsClientsGUI r !! n = Some 0
}.

Section Outcomes.

Context {W : Type} `{SharedMemoryPublic} `{BuildFlags} `{PhysicsClientC_API W}.

(** The three ways [getPhysicsClient] ends. *)
Inductive lookup_outcome (physicsClientId : Z) (s : System W) :
    b3PhysicsClientHandle * System W -> Prop :=
  | lookup_miss :
      physicsClientId < 0 \/ MAX_PHYSICS_CLIENTS <= physicsClientId \/
        aget (sPhysicsClients1 (reg s)) physicsClientId = 0 ->
      lookup_outcome physicsClientId s (0, s)
  | lookup_hit (w : W) :
      let sm := aget (sPhysicsClients1 (reg s)) physicsClientId in
      0 <= physicsClientId < MAX_PHYSICS_CLIENTS -> sm <> 0 ->
      b3CanSubmitCommand sm (world s) = (true, w) ->
      lookup_outcome physicsClientId s
        (sm, {| reg := reg s; world := w; calls := calls s ++ [EvCanSubmit sm true] |})
  | lookup_evict (w : W) :
      let sm := aget (sPhysicsClients1 (reg s)) physicsClientId in
      0 <= physicsClientId < MAX_PHYSICS_CLIENTS -> sm <> 0 ->
      b3CanSubmitCommand sm (world s) = (false, w) ->
      lookup_outcome physicsClientId s
        (0, {| reg := clear_slot physicsClientId (-1) (reg s);
               world := b3DisconnectSharedMemory sm w;
               calls := (calls s ++ [EvCanSubmit sm false]) ++ [EvDisconnect sm] |}).

(** The ways the part of [connect] under [if (sm)] ends, for a transport
    [sm] that was just constructed. *)
Inductive register_outcome (method : Z) (sm : b3PhysicsClientHandle) (s : System W) :
    PyResult * System W -> Prop :=
  | register_probe_failed (w : W) :
      b3CanSubmitCommand sm (world s) = (false, w) ->
      register_outcome method sm s
        (PyReturn (PyInt (-1)),
         {| reg := reg s; world := b3DisconnectSharedMemory sm w;
            calls := (calls s ++ [EvCanSubmit sm false]) ++ [EvDisconnect sm] |})
  | register_no_free_slot (w : W) :
      b3CanSubmitCommand sm (world s) = (true, w) ->
      first_index (fun x => x =? 0) (sPhysicsClients1 (reg s)) = None ->
      register_outcome method sm s
        (PyReturn (PyInt (-1)),
         {| reg := reg s; world := w; calls := calls s ++ [EvCanSubmit sm true] |})
  | register_body_info_failed (w w1 : W) (i : Z) (st : b3SharedMemoryStatus) :
      b3CanSubmitCommand sm (world s) = (true, w) ->
      first_index (fun x => x =? 0) (sPhysicsClients1 (reg s)) = Some i ->
      b3SubmitClientCommandAndWaitStatus sm SyncBodyInfoCommand w = (st, w1) ->
      b3GetStatusType st <> CMD_SYNC_BODY_INFO_COMPLETED ->
      register_outcome method sm s
        (PyReturn (PyInt (-1)),
         {| reg := clear_slot i 1 (store_client i sm method (reg s));
            world := b3DisconnectSharedMemory sm w1;
            calls := ((calls s ++ [EvCanSubmit sm true])
                        ++ [EvSubmit sm SyncBodyInfoCommand (b3GetStatusType st)])
                        ++ [EvDisconnect sm] |})
  | register_user_data_failed (w w1 w2 : W) (i : Z) (st st' : b3SharedMemoryStatus) :
      b3CanSubmitCommand sm (world s) = (true, w) ->
      first_index (fun x => x =? 0) (sPhysicsClients1 (reg s)) = Some i ->
      b3SubmitClientCommandAndWaitStatus sm SyncBodyInfoCommand w = (st, w1) ->
      b3GetStatusType st = CMD_SYNC_BODY_INFO_COMPLETED ->
      b3SubmitClientCommandAndWaitStatus sm SyncUserDataCommand w1 = (st', w2) ->
      b3GetStatusType st' <> CMD_SYNC_USER_DATA_COMPLETED ->
      register_outcome method sm s
        (PyReturn (PyInt (-1)),
         {| reg := clear_slot i 1 (store_client i sm method (reg s));
            world := b3DisconnectSharedMemory sm w2;
            calls := (((calls s ++ [EvCanSubmit sm true])
                         ++ [EvSubmit sm SyncBodyInfoCommand (b3GetStatusType st)])
                         ++ [EvSubmit sm SyncUserDataCommand (b3GetStatusType st')])
                         ++ [EvDisconnect sm] |})
  | register_success (w w1 w2 : W) (i : Z) (st st' : b3SharedMemoryStatus) :
      b3CanSubmitCommand sm (world s) = (true, w) ->
      first_index (fun x => x =? 0) (sPhysicsClients1 (reg s)) = Some i ->
      b3SubmitClientCommandAndWaitStatus sm SyncBodyInfoCommand w = (st, w1) ->
      b3GetStatusType st = CMD_SYNC_BODY_INFO_COMPLETED ->
      b3SubmitClientCommandAndWaitStatus sm SyncUserDataCommand w1 = (st', w2) ->
      b3GetStatusType st' = CMD_SYNC_USER_DATA_COMPLETED ->
      register_outcome method sm s
        (PyReturn (PyInt i),
         {| reg := store_client i sm method (reg s);
            world := w2;
            calls := ((calls s ++ [EvCanSubmit sm true])
                        ++ [EvSubmit sm SyncBodyInfoCommand (b3GetStatusType st)])
                        ++ [EvSubmit sm SyncUserDataCommand (b3GetStatusType st')] |}).

(** The ways [connect] ends. *)
Inductive connect_outcome (a : connect_args) (s : System W) :
    PyResult * System W -> Prop :=
  | connect_capacity :
      MAX_PHYSICS_CLIENTS <= sNumPhysicsClients (reg s) ->
      connect_outcome a s (PyRaise (BulletError capacity_message), s)
  | connect_exclusivity :
      sNumPhysicsClients (reg s) < MAX_PHYSICS_CLIENTS ->
      args_method a = eCONNECT_GUI ->
      is_Some (first_index is_gui_entry (sPhysicsClientsGUI (reg s))) ->
      connect_outcome a s (PyRaise (BulletError exclusivity_message), s)
  | connect_refused (x : PyResult) :
      sNumPhysicsClients (reg s) < MAX_PHYSICS_CLIENTS ->
      (forall v, x <> PyReturn v) ->
      connect_outcome a s (x, s)
  | connect_no_transport (c : transport_ctor) (w : W) :
      sNumPhysicsClients (reg s) < MAX_PHYSICS_CLIENTS ->
      b3Connect c (world s) = (0, w) ->
      connect_outcome a s
        (PyReturn (PyInt (-1)),
         {| reg := reg s; world := w; calls := calls s ++ [EvConnect c 0] |})
  | connect_transport (c : transport_ctor) (sm : b3PhysicsClientHandle) (w : W)
        (x : PyResult * System W) :
      sNumPhysicsClients (reg s) < MAX_PHYSICS_CLIENTS ->
      (args_method a = eCONNECT_GUI ->
       first_index is_gui_entry (sPhysicsClientsGUI (reg s)) = None) ->
      b3Connect c (world s) = (sm, w) -> sm <> 0 ->
      register_outcome (args_method a) sm
        {| reg := reg s; world := w; calls := calls s ++ [EvConnect c sm] |} x ->
      connect_outcome a s x.

(** What one call of an entry point does to the globals. *)
Inductive call_effect (c : api_call) (s : System W) : Registry -> Prop :=
  | effect_none : call_effect c s (reg s)
  | effect_evict (i : Z) :
      call_id c = Some i -> 0 <= i < MAX_PHYSICS_CLIENTS ->
      aget (sPhysicsClients1 (reg s)) i <> 0 ->
      fst (b3CanSubmitCommand (aget (sPhysicsClients1 (reg s)) i) (world s)) = false ->
      call_effect c s (clear_slot i (-1) (reg s))
  | effect_disconnect (i : Z) :
      c = Disconnect i -> 0 <= i < MAX_PHYSICS_CLIENTS ->
      aget (sPhysicsClients1 (reg s)) i <> 0 ->
      fst (b3CanSubmitCommand (aget (sPhysicsClients1 (reg s)) i) (world s)) = true ->
      call_effect c s (clear_slot i (-1) (reg s))
  | effect_store (a : connect_args) (i : Z) (sm : b3PhysicsClientHandle) :
      c = Connect a ->
      first_index (fun x => x =? 0) (sPhysicsClients1 (reg s)) = Some i -> sm <> 0 ->
      call_effect c s (store_client i sm (args_method a) (reg s))
  | effect_handshake_failed (a : connect_args) (i : Z) (sm : b3PhysicsClientHandle) :
      c = Connect a ->
      first_index (fun x => x =? 0) (sPhysicsClients1 (reg s)) = Some i -> sm <> 0 ->
      call_effect c s (clear_slot i 1 (store_client i sm (args_method a) (reg s))).

End Outcomes.

(** ** The labels of the switch *)

Section Labels.

Context `{SharedMemoryPublic} `{BuildFlags}.

(** The [case] labels of the [switch (method)] of [connect] that a build
    compiles in: the labels under [#ifdef BT_ENABLE_DART], [BT_ENABLE_PHYSX]
    and [BT_ENABLE_MUJOCO] exist only when the symbol is defined. *)
Definition case_labels : list Z :=
  [eCONNECT_GUI; eCONNECT_GUI_MAIN_THREAD; eCONNECT_GUI_SERVER;
   eCONNECT_SHARED_MEMORY_SERVER; eCONNECT_SHARED_MEMORY_GUI; eCONNECT_DIRECT]
  ++ (if BT_ENABLE_DART then [eCONNECT_DART] else [])
  ++ (if BT_ENABLE_PHYSX then [eCONNECT_PHYSX] else [])
  ++ (if BT_ENABLE_MUJOCO then [eCONNECT_MUJOCO] else [])
  ++ [eCONNECT_GRPC; eCONNECT_SHARED_MEMORY; eCONNECT_UDP; eCONNECT_TCP].

End Labels.


(** ** Sequence arguments *)

(** The value an [int] variable takes when a wider integer is assigned to
    it (two's complement, 32 bits). *)
Definition to_int (z : Z) : Z := (z + 2 ^ 31) mod 2 ^ 32 - 2 ^ 31.

(** The CPython calls the sequence helpers make, over an arbitrary type
    [Obj] of Python objects.  An instance gives the answers of the
    interpreter while one call of a helper runs; between two calls the
    objects may have changed, and the answers with them.

    [None] is a [NULL] result; a call that fails leaves an exception set:
    [PySequence_Fast] and [PySequence_GetItem] when they return [NULL],
    [PySequence_Size] when it returns [-1], [PyFloat_AsDouble] and
    [PyLong_AsLong] when they fail (written [None] here; the C value is
    then [-1.0], resp. [-1]).

    [PyList_GET_ITEM] and [PyTuple_GET_ITEM] are macros that read the item
    array of a list or tuple without any check; [None] is a read outside
    that array.  What [PySequence_Size] answers for an object and how many
    items its [PySequence_Fast] copy holds are unrelated here, as they are
    for an object with its own [__len__] and [__iter__].

    The two laws are what CPython documents: [PySequence_Size] returns a
    length or [-1], and the object [PySequence_Fast] returns is a list or a
    tuple, whose own [PySequence_Size] is the number of its items. *)
Class PythonC_API (Obj : Type) : Type := {
  PySequence_Fast : Obj -> option Obj;
  PySequence_Size : Obj -> Z;
  PyList_Check : Obj -> bool;
  PyList_GET_ITEM : Obj -> Z -> option Obj;
  PyTuple_GET_ITEM : Obj -> Z -> option Obj;
  PySequence_GetItem : Obj -> Z -> option Obj;
  PyFloat_AsDouble : Obj -> option double;
  PyLong_AsLong : Obj -> option Z;
  minus_one : double;
  PySequence_Size_lower : forall o, -1 <= PySequence_Size o;
  PySequence_Fast_items : forall o seq i,
    PySequence_Fast o = Some seq -> 0 <= i < PySequence_Size seq ->
    (if PyList_Check seq then PyList_GET_ITEM seq i else PyTuple_GET_ITEM seq i)
    <> None
}.

(** The limits of [SharedMemoryPublic.h] used by the mesh helpers, and
    whether [assert] is compiled out. *)
Class MeshLimits : Type := {
  B3_MAX_NUM_VERTICES : Z;
  B3_MAX_NUM_INDICES : Z;
  NDEBUG : bool
}.

(** The Python error indicator: clear, set by a CPython call, or set by
    [PyErr_SetString] of this file. *)
Inductive error_indicator : Type :=
  | NoException
  | PythonException
  | Raised (e : PyException).

(** How a helper ends: a failed [assert] aborts the process; an access
    outside an array (a write outside the buffer it was given, a read
    outside the items of a list or tuple) is undefined behaviour; otherwise
    it returns. *)
Inductive exec (A : Type) : Type :=
  | Abort
  | OutOfBounds
  | Done (a : A).
Arguments Abort {A}.
Arguments OutOfBounds {A}.
Arguments Done {A} _.

(** [buf[i] = v] on a caller-allocated buffer. *)
Definition store {A : Type} (buf : list A) (i : Z) (v : A) : option (list A) :=
  if (0 <=? i) && (i <? Z.of_nat (length buf))
  then Some (<[Z.to_nat i := v]> buf)
  else None.

Section Sequences.

Context {Obj : Type} {py : PythonC_API Obj} {limits : MeshLimits}.

(** The exception state after [PySequence_Size] returned [size]. *)
Definition after_size (size : Z) (e : error_indicator) : error_indicator :=
  if size =? -1 then PythonException else e.

(** [PyList_Check(seq) ? PyList_GET_ITEM(seq, index)
                       : PyTuple_GET_ITEM(seq, index)] *)
Definition sequence_item (seq : Obj) (index : Z) : option Obj :=
  if PyList_Check seq then PyList_GET_ITEM seq index
  else PyTuple_GET_ITEM seq index.

(** [static double getFloatFromSequence(PyObject* seq, int index)] *)
Definition getFloatFromSequence (seq : Obj) (index : Z) (e : error_indicator)
    : exec (double * error_indicator) :=
  match sequence_item seq index with
  | None => OutOfBounds
  | Some item =>
      match PyFloat_AsDouble item with
      | Some v => Done (v, e)
      | None => Done (minus_one, PythonException)
      end
  end.

(** [static int getIntFromSequence(PyObject* seq, int index)] *)
Definition getIntFromSequence (seq : Obj) (index : Z) (e : error_indicator)
    : exec (Z * error_indicator) :=
  match sequence_item seq index with
  | None => OutOfBounds
  | Some item =>
      match PyLong_AsLong item with
      | Some v => Done (to_int v, e)
      | None => Done (to_int (-1), PythonException)
      end
  end.

(** [for (i = 0; i < len; i++) vector[i] = getFloatFromSequence(seq, i);]
    from index [i], for [n] more rounds. *)
Fixpoint fill_vector (seq : Obj) (i : Z) (n : nat) (vector : list double)
    (e : error_indicator) : exec (list double * error_indicator) :=
  match n with
  | O => Done (vector, e)
  | S n' =>
      match getFloatFromSequence seq i e with
      | Done (v, e1) => fill_vector seq (i + 1) n' (<[Z.to_nat i := v]> vector) e1
      | Abort => Abort
      | OutOfBounds => OutOfBounds
      end
  end.

(** The common body of [setVector2d], [setVector3d] and [setVector4d],
    which differ in the length [N] they expect and in whether they
    [assert(len == N)].  The result is the returned [int], the array
    [vector] and the error indicator. *)
Definition setVectorNd (N : Z) (asserts : bool) (obVec : option Obj)
    (vector : list double) (e : error_indicator)
    : exec (Z * list double * error_indicator) :=
  match obVec with
  | None => Done (0, vector, e)
  | Some o =>
      match PySequence_Fast o with
      | Some seq =>
          let len := to_int (PySequence_Size o) in
          let e1 := after_size (PySequence_Size o) e in
          if asserts && negb NDEBUG && negb (len =? N) then Abort
          else if len =? N then
            match fill_vector seq 0 (Z.to_nat len) vector e1 with
            | Done (vector', e2) => Done (1, vector', e2)
            | Abort => Abort
            | OutOfBounds => OutOfBounds
            end
          else Done (0, vector, NoException)   (* [PyErr_Clear()] *)
      | None => Done (0, vector, NoException)  (* [PyErr_Clear()] *)
      end
  end.

(** [static int setVector2d(PyObject* obVec, double vector[2])] *)
Definition setVector2d := setVectorNd 2 true.

(** [static int setVector3d(PyObject* obVec, double vector[3])] *)
Definition setVector3d := setVectorNd 3 true.

(** [static int setVector4d(PyObject* obVec, double vector[4])] *)
Definition setVector4d := setVectorNd 4 false.

(** [buf[base + 0] = v[0]; ... buf[base + k - 1] = v[k - 1];] with the
    index computed in [int]. *)
Fixpoint store_all (buf : list double) (base : Z) (k : Z) (v : list double)
    : option (list double) :=
  match v with
  | [] => Some buf
  | x :: v' =>
      match store buf (to_int (base + k)) x with
      | Some buf' => store_all buf' base (k + 1) v'
      | None => None
      end
  end.

(** The loop shared by [extractVertices] ([dim = 3], [setVector3d]) and
    [extractUVs] ([dim = 2], [setVector2d]): from source index [i], for
    [n] more rounds, with [numOut] entries extracted so far.  The local
    array an entry is read into is uninitialised in C; it is only used when
    the read succeeded, which overwrites all of it. *)
Fixpoint extract_loop (dim : Z) (seq : Obj) (i : Z) (n : nat) (numOut : Z)
    (out : option (list double)) (e : error_indicator)
    : exec (Z * option (list double) * error_indicator) :=
  match n with
  | O => Done (numOut, out, e)
  | S n' =>
      let vertexObj := PySequence_GetItem seq i in
      let e1 := match vertexObj with Some _ => e | None => PythonException end in
      match setVectorNd dim true vertexObj (replicate (Z.to_nat dim) 0) e1 with
      | Abort => Abort
      | OutOfBounds => OutOfBounds
      | Done (ok, vertex, e2) =>
          if ok =? 0 then extract_loop dim seq (i + 1) n' numOut out e2
          else
            match out with
            | None => extract_loop dim seq (i + 1) n' (to_int (numOut + 1)) None e2
            | Some buf =>
                match store_all buf (to_int (numOut * dim)) 0 vertex with
                | Some buf' =>
                    extract_loop dim seq (i + 1) n' (to_int (numOut + 1)) (Some buf') e2
                | None => OutOfBounds
                end
            end
      end
  end.

(** The common body of [extractVertices] and [extractUVs]. *)
Definition extract_vectors (dim : Z) (message : string) (obj : option Obj)
    (out : option (list double)) (e : error_indicator)
    : exec (Z * option (list double) * error_indicator) :=
  match obj with
  | None => Done (0, out, e)
  | Some o =>
      match PySequence_Fast o with
      | None => Done (0, out, PythonException)
      | Some seq =>
          let numSrc := to_int (PySequence_Size seq) in
          let e1 := after_size (PySequence_Size seq) e in
          if numSrc >? B3_MAX_NUM_VERTICES
          then Done (0, out, Raised (BulletError message))
          else extract_loop dim seq 0 (Z.to_nat numSrc) 0 out e1
      end
  end.

(** [static int extractVertices(PyObject* verticesObj, double* vertices,
    int maxNumVertices)]; [None] for [vertices] is the null pointer. *)
Definition extractVertices (verticesObj : option Obj) (vertices : option (list double))
    (maxNumVertices : Z) (e : error_indicator) :=
  extract_vectors 3 "Number of vertices exceeds the maximum." verticesObj vertices e.

(** [static int extractUVs(PyObject* uvsObj, double* uvs, int maxNumVertices)] *)
Definition extractUVs (uvsObj : option Obj) (uvs : option (list double))
    (maxNumVertices : Z) (e : error_indicator) :=
  extract_vectors 2 "Number of uvs exceeds the maximum." uvsObj uvs e.

(** The loop of [extractIndices]. *)
Fixpoint indices_loop (seq : Obj) (i : Z) (n : nat) (numOut : Z)
    (out : option (list Z)) (e : error_indicator)
    : exec (Z * option (list Z) * error_indicator) :=
  match n with
  | O => Done (numOut, out, e)
  | S n' =>
      match getIntFromSequence seq i e with
      | Abort => Abort
      | OutOfBounds => OutOfBounds
      | Done (index, e1) =>
          match out with
          | None => indices_loop seq (i + 1) n' (to_int (numOut + 1)) None e1
          | Some buf =>
              match store buf numOut index with
              | Some buf' =>
                  indices_loop seq (i + 1) n' (to_int (numOut + 1)) (Some buf') e1
              | None => OutOfBounds
              end
          end
      end
  end.

(** [static int extractIndices(PyObject* indicesObj, int* indices,
    int maxNumIndices)] *)
Definition extractIndices (indicesObj : option Obj) (indices : option (list Z))
    (maxNumIndices : Z) (e : error_indicator)
    : exec (Z * option (list Z) * error_indicator) :=
  match indicesObj with
  | None => Done (0, indices, e)
  | Some o =>
      match PySequence_Fast o with
      | None => Done (0, indices, PythonException)
      | Some seq =>
          let numSrc := to_int (PySequence_Size seq) in
          let e1 := after_size (PySequence_Size seq) e in
          if numSrc >? B3_MAX_NUM_INDICES
          then Done (0, indices,
                     Raised (BulletError "Number of indices exceeds the maximum."))
          else indices_loop seq 0 (Z.to_nat numSrc) 0 indices e1
      end
  end.

End Sequences.

(** Sample Python objects for the examples: integers, floats, lists, tuples
    and [None]. *)
Module ExampleSeq.

#[local] Unset Elimination Schemes.
Inductive pyval : Type :=
  | VInt (z : Z)
  | VFloat (d : double)
  | VList (items : list pyval)
  | VTuple (items : list pyval)
  | VNone.
#[local] Set Elimination Schemes.

Definition items_of (o : pyval) : option (list pyval) :=
  match o with
  | VList l | VTuple l => Some l
  | _ => None
  end.

(** [ob_item[i]] of a list of items. *)
Definition item (l : list pyval) (i : Z) : option pyval :=
  if i <? 0 then None else l !! Z.to_nat i.

(** The interpreter with plain lists and tuples.  [when] stands for the
    moment of the call: it is added to what a float converts to, so that the
    same objects can hold other numbers at a later call. *)
Definition python_at (when : Z) : PythonC_API pyval.
Proof.
  refine {|
    PySequence_Fast := fun o =>
      match items_of o with Some _ => Some o | None => None end;
    PySequence_Size := fun o =>
      match items_of o with Some l => Z.of_nat (length l) | None => -1 end;
    PyList_Check := fun o => match o with VList _ => true | _ => false end;
    PyList_GET_ITEM := fun o i => match o with VList l => item l i | _ => None end;
    PyTuple_GET_ITEM := fun o i => match o with VTuple l => item l i | _ => None end;
    PySequence_GetItem := fun o i => item (default [] (items_of o)) i;
    PyFloat_AsDouble := fun o =>
      match o with
      | VFloat d => Some (d + when)
      | VInt z => Some z
      | _ => None
      end;
    PyLong_AsLong := fun o =>
      match o with
      | VInt z => if (- 2 ^ 63 <=? z) && (z <? 2 ^ 63) then Some z else None
      | _ => None
      end;
    minus_one := -1
  |}.
  - intros o. destruct (items_of o); lia.
  - intros o seq i Hfast Hi.
    assert (forall l : list pyval, 0 <= i < Z.of_nat (length l) -> item l i <> None)
      as Hwithin.
    { intros l Hl. unfold item.
      replace (i <? 0) with false by (symmetry; apply Z.ltb_ge; lia).
      destruct (lookup_lt_is_Some_2 l (Z.to_nat i) ltac:(lia)) as [x ->].
      discriminate. }
    destruct o as [z|d|l|l|]; try discriminate;
      injection Hfast as <-; cbn [items_of] in Hi; apply Hwithin; exact Hi.
Defined.

#[export] Instance python : PythonC_API pyval := python_at 0.

(** Small limits, with [assert] compiled out. *)
#[export] Instance limits : MeshLimits := {|
  B3_MAX_NUM_VERTICES := 4;
  B3_MAX_NUM_INDICES := 4;
  NDEBUG := true
|}.

(** The same limits in a build that keeps [assert]. *)
Definition debug_limits : MeshLimits := {|
  B3_MAX_NUM_VERTICES := 4;
  B3_MAX_NUM_INDICES := 4;
  NDEBUG := false
|}.

(** Three entries, the middle one malformed (two coordinates). *)
Definition vertices3 : pyval :=
  VList [VTuple [VFloat 1; VFloat 2; VFloat 3];
         VTuple [VFloat 4; VFloat 5];
         VList [VFloat 7; VFloat 8; VFloat 9]].

Definition indices3 : pyval := VTuple [VInt 0; VInt 2; VInt 1].

Definition too_many : pyval := VList (replicate 5 (VInt 0)).

End ExampleSeq.

(** ** What the sequence helpers read *)

Section SequenceReads.

Context {Obj : Type} {py : PythonC_API Obj} {limits : MeshLimits}.

(** Index [i] lies within the item array of [seq]; so do the [n] indices
    from [i]. *)
Definition has_item (seq : Obj) (i : Z) : bool :=
  match sequence_item seq i with Some _ => true | None => false end.

Definition has_items (seq : Obj) (i n : Z) : bool :=
  forallb (has_item seq) (seqZ i n).

(** The values [getFloatFromSequence] and [getIntFromSequence] return for
    entry [i] of [seq], and whether the conversion of that entry fails. *)
Definition float_at (seq : Obj) (i : Z) : double :=
  match getFloatFromSequence seq i NoException with
  | Done (v, _) => v
  | _ => minus_one
  end.

Definition int_at (seq : Obj) (i : Z) : Z :=
  match getIntFromSequence seq i NoException with
  | Done (v, _) => v
  | _ => to_int (-1)
  end.

Definition float_error (seq : Obj) (i : Z) : bool :=
  match getFloatFromSequence seq i NoException with
  | Done (_, NoException) => false
  | _ => true
  end.

(** [obVec] is an object that [PySequence_Fast] accepts and whose
    [PySequence_Size], as an [int], is [N]. *)
Definition well_formed (N : Z) (obVec : option Obj) : bool :=
  match obVec with
  | Some o =>
      match PySequence_Fast o with
      | Some _ => to_int (PySequence_Size o) =? N
      | None => false
      end
  | None => false
  end.

(** Entry [i] of [seq] can be fetched and is well formed. *)
Definition entry_ok (N : Z) (seq : Obj) (i : Z) : bool :=
  well_formed N (PySequence_GetItem seq i).

(** Entry [i] of [seq] is a sequence of another length than [N], in a build
    that keeps [assert]. *)
Definition entry_aborts (N : Z) (seq : Obj) (i : Z) : bool :=
  negb NDEBUG &&
  match PySequence_GetItem seq i with
  | Some it =>
      match PySequence_Fast it with
      | Some _ => negb (to_int (PySequence_Size it) =? N)
      | None => false
      end
  | None => false
  end.

(** Entry [i] of [seq], when it is well formed, holds the [N] items its
    size announces: its [PySequence_Fast] copy is not shorter. *)
Definition entry_reads (N : Z) (seq : Obj) (i : Z) : bool :=
  match PySequence_GetItem seq i with
  | Some it =>
      match PySequence_Fast it with
      | Some s =>
          if to_int (PySequence_Size it) =? N then has_items s 0 N else true
      | None => true
      end
  | None => true
  end.

(** The coordinates of entry [i] of [seq], none when the entry is not well
    formed. *)
Definition entry_values (N : Z) (seq : Obj) (i : Z) : list double :=
  match PySequence_GetItem seq i with
  | Some it =>
      match PySequence_Fast it with
      | Some s =>
          if to_int (PySequence_Size it) =? N
          then float_at s <$> seqZ 0 N
          else []
      | None => []
      end
  | None => []
  end.

(** The coordinates of the well-formed entries among the [n] entries of
    [seq] from index [i], in order, and how many such entries there are. *)
Definition extracted (N : Z) (seq : Obj) (i n : Z) : list double :=
  concat (entry_values N seq <$> seqZ i n).

Definition accepted (N : Z) (seq : Obj) (i n : Z) : Z :=
  Z.of_nat (length (List.filter (entry_ok N seq) (seqZ i n))).

(** What the loop of [extractVertices] and [extractUVs] does with entry
    [i]: it aborts, it reads outside an item array, it takes the entry
    ([true]) or it skips it ([false]). *)
Definition entry_status (N : Z) (seq : Obj) (i : Z) : exec bool :=
  if entry_aborts N seq i then Abort
  else if entry_ok N seq i then
    if entry_reads N seq i then Done true else OutOfBounds
  else Done false.

(** ... and with the entries [l], in this order: the first failure, or the
    number of entries taken. *)
Fixpoint entries_outcome (N : Z) (seq : Obj) (l : list Z) : exec Z :=
  match l with
  | [] => Done 0
  | i :: l' =>
      match entry_status N seq i with
      | Abort => Abort
      | OutOfBounds => OutOfBounds
      | Done b =>
          match entries_outcome N seq l' with
          | Done c => Done ((if b then 1 else 0) + c)
          | Abort => Abort
          | OutOfBounds => OutOfBounds
          end
      end
  end.

End SequenceReads.

(** Two moments at which every object answers alike as a sequence: the same
    [PySequence_Fast], [PySequence_Size] and [PySequence_GetItem], and the
    same items present.  What the items convert to may differ. *)
Record same_sequences {Obj : Type} (py1 py2 : PythonC_API Obj) : Prop := {
  same_Fast : forall o, @PySequence_Fast Obj py1 o = @PySequence_Fast Obj py2 o;
  same_Size : forall o, @PySequence_Size Obj py1 o = @PySequence_Size Obj py2 o;
  same_GetItem : forall o i,
    @PySequence_GetItem Obj py1 o i = @PySequence_GetItem Obj py2 o i;
  same_items : forall seq i, @has_item Obj py1 seq i = @has_item Obj py2 seq i
}.

(** ** Arrays *)

Section Arrays.

Implicit Types (a : list Z) (i j v x : Z) (n : nat).

Lemma aget_lookup a i x : a !! Z.to_nat i = Some x -> aget a i = x.
Proof. unfold aget. intros ->. reflexivity. Qed.

Lemma aget_nonzero_lookup a i :
  aget a i <> 0 -> a !! Z.to_nat i = Some (aget a i).
Proof.
  unfold aget. destruct (a !! Z.to_nat i) as [x|]; simpl; [reflexivity|].
  intros Hne. contradiction Hne. reflexivity.
Qed.

Lemma aget_nonzero_lt a i : aget a i <> 0 -> (Z.to_nat i < length a)%nat.
Proof.
  intros Hne. apply lookup_lt_is_Some. rewrite (aget_nonzero_lookup a i Hne). eauto.
Qed.

Lemma length_aset a i v : length (aset a i v) = length a.
Proof. apply length_insert. Qed.

Lemma aget_aset_eq a i v : (Z.to_nat i < length a)%nat -> aget (aset a i v) i = v.
Proof.
  intros Hlt. unfold aget, aset. rewrite list_lookup_insert_eq by exact Hlt. reflexivity.
Qed.

Lemma aget_aset_ne a i j v : Z.to_nat i <> Z.to_nat j -> aget (aset a i v) j = aget a j.
Proof.
  intros Hne. unfold aget, aset. rewrite list_lookup_insert_ne by exact Hne. reflexivity.
Qed.

(** Writing [0] over an entry that reads [0] changes nothing. *)
Lemma aset_zero_id a i : aget a i = 0 -> aset a i 0 = a.
Proof.
  unfold aget, aset. intros Hz. apply list_insert_id'. intros Hlt.
  destruct (a !! Z.to_nat i) as [x|] eqn:E; simpl in Hz.
  - congruence.
  - apply lookup_ge_None in E. lia.
Qed.

(** A slot that is written and then cleared reads [0]. *)
Lemma aget_aset_zero a i : aget (aset a i 0) i = 0.
Proof.
  destruct (decide (Z.to_nat i < length a)%nat) as [Hlt|Hge].
  - apply aget_aset_eq, Hlt.
  - unfold aget, aset. rewrite list_insert_ge by lia.
    rewrite (proj2 (lookup_ge_None a (Z.to_nat i))) by lia. reflexivity.
Qed.

Lemma aset_aset a i v x : aset (aset a i v) i x = aset a i x.
Proof. apply list_insert_insert_eq. Qed.

(** ** Counting occupied slots *)

Lemma occupied_nil : occupied [] = 0.
Proof. reflexivity. Qed.

Lemma occupied_cons x a : occupied (x :: a) = occ1 x + occupied a.
Proof.
  unfold occupied, occ1. rewrite filter_cons.
  destruct (decide (x <> 0)); simpl length; lia.
Qed.

Lemma occupied_insert a n x v :
  a !! n = Some x -> occupied (<[n:=v]> a) = occupied a - occ1 x + occ1 v.
Proof.
  revert n. induction a as [|y a IH]; intros [|n] Hn; simpl in Hn; try discriminate.
  - injection Hn as ->. simpl. rewrite !occupied_cons. lia.
  - simpl. rewrite !occupied_cons. rewrite (IH n Hn). lia.
Qed.

Lemma occupied_le_length a : occupied a <= Z.of_nat (length a).
Proof. unfold occupied. pose proof (length_filter (fun sm => sm <> 0) a). lia. Qed.

Lemma occupied_replicate_zero n : occupied (replicate n 0) = 0.
Proof.
  induction n as [|n IH]; [reflexivity|].
  simpl. rewrite occupied_cons, IH. reflexivity.
Qed.

(** ** The scan *)

Lemma first_index_from_Some (p : Z -> bool) a i k :
  first_index_from p a i = Some k ->
  exists n x, k = i + Z.of_nat n /\ a !! n = Some x /\ p x = true /\
              forall m y, (m < n)%nat -> a !! m = Some y -> p y = false.
Proof.
  revert i. induction a as [|x a IH]; intros i Hk; simpl in Hk; [discriminate|].
  destruct (p x) eqn:Hp.
  - injection Hk as <-. exists 0%nat, x. repeat split; [lia|exact Hp|].
    intros m y Hm. lia.
  - destruct (IH _ Hk) as (n & y & -> & Hn & Hy & Hbefore).
    exists (S n), y. repeat split; [lia|exact Hn|exact Hy|].
    intros [|m] z Hm Hz; simpl in Hz.
    + injection Hz as <-. exact Hp.
    + apply (Hbefore m z); [lia|exact Hz].
Qed.

Lemma first_index_from_None (p : Z -> bool) a i :
  first_index_from p a i = None -> forall n x, a !! n = Some x -> p x = false.
Proof.
  revert i. induction a as [|y a IH]; intros i Hk n x Hn; [discriminate|].
  simpl in Hk. destruct (p y) eqn:Hp; [discriminate|].
  destruct n as [|n]; simpl in Hn.
  - injection Hn as <-. exact Hp.
  - exact (IH _ Hk n x Hn).
Qed.

(** What the scan returns: an index below [MAX_PHYSICS_CLIENTS] at which
    [p] holds, with [p] false at every smaller index. *)
Lemma first_index_Some (p : Z -> bool) a k :
  first_index p a = Some k ->
  0 <= k < MAX_PHYSICS_CLIENTS /\ a !! Z.to_nat k = Some (aget a k) /\
  p (aget a k) = true /\
  forall j, 0 <= j < k -> a !! Z.to_nat j <> None /\ p (aget a j) = false.
Proof.
  unfold first_index. intros Hk.
  destruct (first_index_from_Some _ _ _ _ Hk) as (n & x & -> & Hn & Hx & Hbefore).
  apply lookup_take_Some in Hn as [Hn Hlt].
  rewrite Z.add_0_l, Nat2Z.id. unfold MAX_PHYSICS_CLIENTS in *.
  assert (aget a (Z.of_nat n) = x) as Hget.
  { apply aget_lookup. rewrite Nat2Z.id. exact Hn. }
  rewrite Hget. repeat split; [lia|lia|exact Hn|exact Hx|..].
  - intros Hnone. assert (Z.to_nat j < n)%nat as Hj by lia.
    apply lookup_ge_None in Hnone. apply lookup_lt_Some in Hn. lia.
  - assert (Z.to_nat j < n)%nat as Hj by lia.
    destruct (a !! Z.to_nat j) as [y|] eqn:E.
    + rewrite (aget_lookup _ _ _ E). apply (Hbefore (Z.to_nat j) y Hj).
      apply lookup_take_Some. split; [exact E|lia].
    + apply lookup_ge_None in E. apply lookup_lt_Some in Hn. lia.
Qed.

(** The scan finds an entry when there is one among the first
    [MAX_PHYSICS_CLIENTS]. *)
Lemma first_index_is_Some (p : Z -> bool) a j :
  0 <= j < MAX_PHYSICS_CLIENTS -> (Z.to_nat j < length a)%nat ->
  p (aget a j) = true -> is_Some (first_index p a).
Proof.
  intros Hj Hlt Hp. destruct (first_index p a) as [k|] eqn:E; [eauto|].
  unfold first_index in E.
  destruct (lookup_lt_is_Some_2 a (Z.to_nat j) Hlt) as [x Hx].
  rewrite (aget_lookup _ _ _ Hx) in Hp.
  assert (take (Z.to_nat MAX_PHYSICS_CLIENTS) a !! Z.to_nat j = Some x) as Hin.
  { apply lookup_take_Some. split; [exact Hx|]. unfold MAX_PHYSICS_CLIENTS in *. lia. }
  rewrite (first_index_from_None _ _ _ E _ _ Hin) in Hp. discriminate.
Qed.

End Arrays.

(** ** The lookup *)

Section Lookup.

Context {W : Type} `{SharedMemoryPublic} `{BuildFlags} `{PhysicsClientC_API W}.

Implicit Types (s : System W) (r : Registry).

(** The guard of [getPhysicsClient], as a proposition. *)
Lemma lookup_guard_true physicsClientId (a : list Z) :
  (physicsClientId <? 0) || (physicsClientId >=? MAX_PHYSICS_CLIENTS)
    || (0 =? aget a physicsClientId) = true <->
  physicsClientId < 0 \/ MAX_PHYSICS_CLIENTS <= physicsClientId \/
    aget a physicsClientId = 0.
Proof. rewrite !Bool.orb_true_iff. lia. Qed.

Lemma lookup_guard_false physicsClientId (a : list Z) :
  (physicsClientId <? 0) || (physicsClientId >=? MAX_PHYSICS_CLIENTS)
    || (0 =? aget a physicsClientId) = false <->
  0 <= physicsClientId < MAX_PHYSICS_CLIENTS /\ aget a physicsClientId <> 0.
Proof. rewrite !Bool.orb_false_iff. lia. Qed.

Lemma getPhysicsClient_outcome physicsClientId s :
  lookup_outcome physicsClientId s (getPhysicsClient physicsClientId s).
Proof.
  unfold getPhysicsClient, bind, get_reg, ret.
  destruct (_ || _ || _) eqn:Hguard.
  { apply lookup_miss. apply lookup_guard_true. exact Hguard. }
  apply lookup_guard_false in Hguard as [Hrange Hsm].
  destruct (aget (sPhysicsClients1 (reg s)) physicsClientId =? 0) eqn:Hz; [lia|].
  unfold call_b3CanSubmitCommand.
  destruct (b3CanSubmitCommand _ (world s)) as [[|] w] eqn:Hprobe.
  - apply lookup_hit; [exact Hrange|exact Hsm|exact Hprobe].
  - unfold call_b3DisconnectSharedMemory, put_reg. cbn [reg world calls].
    apply lookup_evict; [exact Hrange|exact Hsm|exact Hprobe].
Qed.

Lemma getPhysicsClient_miss physicsClientId s :
  physicsClientId < 0 \/ MAX_PHYSICS_CLIENTS <= physicsClientId \/
    aget (sPhysicsClients1 (reg s)) physicsClientId = 0 ->
  getPhysicsClient physicsClientId s = (0, s).
Proof.
  intros Hmiss. unfold getPhysicsClient, bind, get_reg, ret.
  rewrite (proj2 (lookup_guard_true _ _) Hmiss). reflexivity.
Qed.

(** An entry point that opens with the lookup raises [NotConnectedError],
    and does nothing else, when the slot of its id is empty or the id is out
    of range. *)
Lemma with_client_miss physicsClientId body s :
  physicsClientId < 0 \/ MAX_PHYSICS_CLIENTS <= physicsClientId \/
    aget (sPhysicsClients1 (reg s)) physicsClientId = 0 ->
  with_client physicsClientId body s = (PyRaise not_connected, s).
Proof.
  intros Hmiss. unfold with_client, bind.
  rewrite (getPhysicsClient_miss _ _ Hmiss). reflexivity.
Qed.

(** The same for the introspection, which reports it as a value. *)
Lemma connection_state_miss physicsClientId s :
  physicsClientId < 0 \/ MAX_PHYSICS_CLIENTS <= physicsClientId \/
    aget (sPhysicsClients1 (reg s)) physicsClientId = 0 ->
  connection_state physicsClientId s = ((0, 0), s).
Proof.
  intros Hmiss. unfold connection_state, bind.
  rewrite (getPhysicsClient_miss _ _ Hmiss). reflexivity.
Qed.

(** The parser accepts exactly the integers that fit an [int]. *)
Lemma parse_int_Some arg : INT_MIN <= arg <= INT_MAX -> parse_int arg = Some arg.
Proof.
  intros Hint. unfold parse_int.
  replace (INT_MIN <=? arg) with true by (symmetry; apply Z.leb_le; lia).
  replace (arg <=? INT_MAX) with true by (symmetry; apply Z.leb_le; lia).
  reflexivity.
Qed.

Lemma parse_int_None arg : arg < INT_MIN \/ INT_MAX < arg -> parse_int arg = None.
Proof.
  intros Hout. unfold parse_int.
  destruct (INT_MIN <=? arg) eqn:Hlo; [|reflexivity].
  destruct (arg <=? INT_MAX) eqn:Hhi; [|reflexivity].
  apply Z.leb_le in Hlo, Hhi. lia.
Qed.

Lemma parse_int_inv arg i :
  parse_int arg = Some i -> i = arg /\ INT_MIN <= arg <= INT_MAX.
Proof.
  unfold parse_int.
  destruct (INT_MIN <=? arg) eqn:Hlo; [|discriminate].
  destruct (arg <=? INT_MAX) eqn:Hhi; [|discriminate].
  apply Z.leb_le in Hlo, Hhi. intros [= <-]. lia.
Qed.

(** Every index of the tables fits an [int]. *)
Lemma table_index_is_int i :
  0 <= i < MAX_PHYSICS_CLIENTS -> INT_MIN <= i <= INT_MAX.
Proof. unfold MAX_PHYSICS_CLIENTS, INT_MIN, INT_MAX. lia. Qed.

(** The introspection calls on an integer the parser accepts. *)
Lemma pybullet_isConnected_parsed arg s :
  INT_MIN <= arg <= INT_MAX ->
  pybullet_isConnected arg s
  = (do cm <- connection_state arg; ret (PyReturn (PyInt (fst cm)))) s.
Proof. intros Hint. unfold pybullet_isConnected. rewrite parse_int_Some by exact Hint. reflexivity. Qed.

Lemma pybullet_getConnectionInfo_parsed arg s :
  INT_MIN <= arg <= INT_MAX ->
  pybullet_getConnectionInfo arg s
  = (do cm <- connection_state arg;
     ret (PyReturn (PyDict [("isConnected"%string, PyInt (fst cm));
                            ("connectionMethod"%string, PyInt (snd cm))]))) s.
Proof.
  intros Hint. unfold pybullet_getConnectionInfo.
  rewrite parse_int_Some by exact Hint. reflexivity.
Qed.

(** ... and on one it refuses: [OverflowError], and nothing is done. *)
Lemma introspection_overflow arg s :
  arg < INT_MIN \/ INT_MAX < arg ->
  pybullet_isConnected arg s = (PyRaise PyExc_OverflowError, s) /\
  pybullet_getConnectionInfo arg s = (PyRaise PyExc_OverflowError, s).
Proof.
  intros Hout. unfold pybullet_isConnected, pybullet_getConnectionInfo.
  rewrite parse_int_None by exact Hout. split; reflexivity.
Qed.

End Lookup.

(** ** Connecting *)

Section Connect.

Context {W : Type} `{SharedMemoryPublic} `{BuildFlags} `{PhysicsClientC_API W}.

Implicit Types (s : System W) (r : Registry).

Lemma register_client_outcome method sm s :
  register_outcome method sm s (register_client method sm s).
Proof.
  unfold register_client, bind, call_b3CanSubmitCommand.
  destruct (b3CanSubmitCommand sm (world s)) as [[|] w] eqn:Hprobe.
  2:{ unfold call_b3DisconnectSharedMemory, ret. cbn [reg world calls].
      apply register_probe_failed. exact Hprobe. }
  unfold get_reg. cbn [reg world calls].
  destruct (first_index _ (sPhysicsClients1 (reg s))) as [i|] eqn:Hscan; cbn [from_option id].
  2:{ change (-1 >=? 0) with false. cbv beta iota. unfold ret.
      apply (register_no_free_slot _ _ _ w); assumption. }
  pose proof (first_index_Some _ _ _ Hscan) as ([Hi _] & _).
  destruct (i >=? 0) eqn:Hge; [|lia].
  unfold put_reg, call_b3SubmitClientCommandAndWaitStatus. cbn [reg world calls].
  destruct (b3SubmitClientCommandAndWaitStatus sm SyncBodyInfoCommand w)
    as [st w1] eqn:Hbody.
  destruct (b3GetStatusType st =? CMD_SYNC_BODY_INFO_COMPLETED) eqn:Ht; cbn [negb].
  2:{ unfold handshake_failed, bind, call_b3DisconnectSharedMemory, get_reg, put_reg, ret.
      cbn [reg world calls].
      apply (register_body_info_failed _ _ _ w w1 i st); try assumption. lia. }
  cbn [reg world calls].
  destruct (b3SubmitClientCommandAndWaitStatus sm SyncUserDataCommand w1)
    as [st' w2] eqn:Huser.
  destruct (b3GetStatusType st' =? CMD_SYNC_USER_DATA_COMPLETED) eqn:Ht'; cbn [negb].
  2:{ unfold handshake_failed, bind, call_b3DisconnectSharedMemory, get_reg, put_reg, ret.
      cbn [reg world calls].
      apply (register_user_data_failed _ _ _ w w1 w2 i st st'); try assumption; lia. }
  unfold ret.
  apply (register_success _ _ _ w w1 w2 i st st'); try assumption; lia.
Qed.

Lemma pybullet_connectPhysicsServer_outcome a s :
  connect_outcome a s (pybullet_connectPhysicsServer a s).
Proof.
  unfold pybullet_connectPhysicsServer, bind, get_reg, ret.
  destruct (sNumPhysicsClients (reg s) >=? MAX_PHYSICS_CLIENTS) eqn:Hcap.
  { apply connect_capacity. lia. }
  assert (sNumPhysicsClients (reg s) < MAX_PHYSICS_CLIENTS) as Hroom by lia.
  destruct (args_method a =? eCONNECT_GUI) eqn:Hgui; cbn [andb].
  - destruct (bool_decide _) eqn:Hscan.
    { apply connect_exclusivity; [exact Hroom|lia|].
      apply bool_decide_eq_true in Hscan. exact Hscan. }
    apply bool_decide_eq_false in Hscan.
    destruct (select_transport a _) as [c|e|e].
    + unfold call_b3Connect.
      destruct (b3Connect c (world s)) as [sm w] eqn:Hopen.
      destruct (sm =? 0) eqn:Hsm.
      * assert (sm = 0) as -> by lia. apply connect_no_transport; assumption.
      * apply (connect_transport _ _ c sm w); [exact Hroom| |exact Hopen|lia|].
        { intros _. destruct (first_index _ _); [|reflexivity].
          contradiction Hscan. eauto. }
        apply register_client_outcome.
    + apply connect_refused; [exact Hroom|]. intros v. discriminate.
    + apply connect_refused; [exact Hroom|]. intros v. discriminate.
  - destruct (select_transport a _) as [c|e|e].
    + unfold call_b3Connect.
      destruct (b3Connect c (world s)) as [sm w] eqn:Hopen.
      destruct (sm =? 0) eqn:Hsm.
      * assert (sm = 0) as -> by lia. apply connect_no_transport; assumption.
      * apply (connect_transport _ _ c sm w); [exact Hroom|lia|exact Hopen|lia|].
        apply register_client_outcome.
    + apply connect_refused; [exact Hroom|]. intros v. discriminate.
    + apply connect_refused; [exact Hroom|]. intros v. discriminate.
Qed.

End Connect.

(** ** The invariant of the globals *)

Section Invariant.

Context {W : Type} `{SharedMemoryPublic} `{BuildFlags} `{PhysicsClientC_API W}.

Implicit Types (s : System W) (r : Registry).

(** Project the fields of a registry that is given by its constructor. *)
Ltac reg_simpl :=
  unfold initial_registry, clear_slot, store_client;
  cbn [sPhysicsClients1 sPhysicsClientsGUI sNumPhysicsClients].

Lemma occ1_zero : occ1 0 = 0.
Proof. reflexivity. Qed.

Lemma occ1_nonzero x : x <> 0 -> occ1 x = 1.
Proof. intros Hx. unfold occ1. destruct (decide (x <> 0)); [reflexivity|contradiction]. Qed.

Lemma occ1_bounds x : 0 <= occ1 x <= 1.
Proof. unfold occ1. destruct (decide (x <> 0)); lia. Qed.

Lemma initial_registry_inv : registry_inv initial_registry.
Proof.
  split; reg_simpl.
  - apply length_replicate.
  - apply length_replicate.
  - rewrite occupied_replicate_zero. lia.
  - intros n Hn. apply lookup_replicate in Hn as [_ Hn].
    apply lookup_replicate_2. exact Hn.
Qed.

(** The free slot the scan of [connect] finds holds [0]. *)
Lemma free_slot_lookup (a : list Z) i :
  first_index (fun x => x =? 0) a = Some i ->
  0 <= i < MAX_PHYSICS_CLIENTS /\ a !! Z.to_nat i = Some 0 /\
  forall j, 0 <= j < i -> aget a j <> 0.
Proof.
  intros Hscan. destruct (first_index_Some _ _ _ Hscan) as (Hi & Hlook & Hz & Hbefore).
  apply Z.eqb_eq in Hz. rewrite Hz in Hlook. repeat split; try lia; [exact Hlook|].
  intros j Hj. destruct (Hbefore j Hj) as [_ Hp]. lia.
Qed.

Lemma clear_slot_inv r i :
  registry_inv r -> aget (sPhysicsClients1 r) i <> 0 ->
  registry_inv (clear_slot i (-1) r).
Proof.
  intros [Hlen1 Hlen2 Hcount Hgui] Hsm.
  pose proof (aget_nonzero_lookup _ _ Hsm) as Hlook.
  split; reg_simpl.
  - rewrite length_aset. exact Hlen1.
  - rewrite length_aset. exact Hlen2.
  - unfold aset. rewrite (occupied_insert _ _ _ _ Hlook).
    rewrite occ1_zero, (occ1_nonzero _ Hsm). lia.
  - intros n Hn. unfold aset in *.
    destruct (decide (Z.to_nat i = n)) as [<-|Hne].
    + apply list_lookup_insert_eq. apply lookup_lt_Some in Hlook. lia.
    + rewrite list_lookup_insert_ne in Hn by exact Hne.
      rewrite list_lookup_insert_ne by exact Hne. apply Hgui, Hn.
Qed.

Lemma store_client_inv r i sm method :
  registry_inv r -> sPhysicsClients1 r !! Z.to_nat i = Some 0 -> sm <> 0 ->
  registry_inv (store_client i sm method r).
Proof.
  intros [Hlen1 Hlen2 Hcount Hgui] Hfree Hsm.
  split; reg_simpl.
  - rewrite length_aset. exact Hlen1.
  - rewrite length_aset. exact Hlen2.
  - unfold aset. rewrite (occupied_insert _ _ _ _ Hfree).
    rewrite occ1_zero. pose proof (occ1_bounds sm). lia.
  - intros n Hn. unfold aset in *.
    destruct (decide (Z.to_nat i = n)) as [<-|Hne].
    + rewrite list_lookup_insert_eq in Hn by (apply lookup_lt_Some in Hfree; exact Hfree).
      congruence.
    + rewrite list_lookup_insert_ne in Hn by exact Hne.
      rewrite list_lookup_insert_ne by exact Hne. apply Hgui, Hn.
Qed.

(** The two failure blocks of the handshake put both tables back as they
    were, and leave [sNumPhysicsClients] two above its value before the
    call: one for the increment made when the slot was taken, one for the
    [sNumPhysicsClients++] of the failure block. *)
Lemma handshake_failed_registry r i sm method :
  registry_inv r -> sPhysicsClients1 r !! Z.to_nat i = Some 0 ->
  clear_slot i 1 (store_client i sm method r) =
  {| sPhysicsClients1 := sPhysicsClients1 r;
     sPhysicsClientsGUI := sPhysicsClientsGUI r;
     sNumPhysicsClients := sNumPhysicsClients r + 2 |}.
Proof.
  intros [Hlen1 Hlen2 Hcount Hgui] Hfree.
  reg_simpl. rewrite !aset_aset.
  unfold aset. rewrite (list_insert_id _ _ _ Hfree).
  rewrite (list_insert_id _ _ _ (Hgui _ Hfree)).
  f_equal. lia.
Qed.

Lemma call_effect_inv c s r' :
  registry_inv (reg s) -> call_effect c s r' -> registry_inv r'.
Proof.
  intros Hinv Heff. destruct Heff as [|i _ _ Hsm _|i _ _ Hsm _|a i sm _ Hscan Hsm|a i sm _ Hscan Hsm].
  - exact Hinv.
  - apply clear_slot_inv; assumption.
  - apply clear_slot_inv; assumption.
  - apply free_slot_lookup in Hscan as (_ & Hfree & _).
    apply store_client_inv; assumption.
  - apply free_slot_lookup in Hscan as (_ & Hfree & _).
    rewrite (handshake_failed_registry _ _ _ _ Hinv Hfree).
    destruct Hinv as [Hlen1 Hlen2 Hcount Hgui]. split; reg_simpl; try assumption. lia.
Qed.

(** Entry points whose body only talks to the transport. *)
Lemma with_client_effect c physicsClientId body s :
  call_id c = Some physicsClientId ->
  (forall sm s1, reg (snd (body sm s1)) = reg s1) ->
  call_effect c s (reg (snd (with_client physicsClientId body s))).
Proof.
  intros Hid Hbody. unfold with_client, bind.
  destruct (getPhysicsClient_outcome physicsClientId s) as [Hmiss|w sm Hrange Hsm Hprobe|w sm Hrange Hsm Hprobe].
  - apply effect_none.
  - destruct (sm =? 0) eqn:Hz; [lia|]. rewrite Hbody. cbn [reg]. apply effect_none.
  - apply (effect_evict _ _ physicsClientId); try assumption.
    fold sm. rewrite Hprobe. reflexivity.
Qed.

Lemma run_call_effect c s : call_effect c s (reg (snd (run_call c s))).
Proof.
  destruct c as [a|i|i|i|i|i|i]; simpl run_call.
  - destruct (pybullet_connectPhysicsServer_outcome a s)
      as [| | |c w|c sm w x Hroom Hgui Hopen Hsm Hreg]; cbn [snd reg];
      try apply effect_none.
    destruct Hreg; cbn [snd reg]; try apply effect_none.
    + eapply effect_handshake_failed; [reflexivity|eassumption|exact Hsm].
    + eapply effect_handshake_failed; [reflexivity|eassumption|exact Hsm].
    + eapply effect_store; [reflexivity|eassumption|exact Hsm].
  - unfold pybullet_disconnectPhysicsServer, with_client, bind.
    destruct (getPhysicsClient_outcome i s) as [Hmiss|w sm Hrange Hsm Hprobe|w sm Hrange Hsm Hprobe].
    + apply effect_none.
    + destruct (sm =? 0) eqn:Hz; [lia|].
      unfold call_b3DisconnectSharedMemory, get_reg, put_reg, ret. cbn [snd reg].
      apply (effect_disconnect _ _ i); try assumption; [reflexivity|].
      fold sm. rewrite Hprobe. reflexivity.
    + apply (effect_evict _ _ i); try assumption; [reflexivity|].
      fold sm. rewrite Hprobe. reflexivity.
  - unfold pybullet_isConnected.
    destruct (parse_int i) as [j|] eqn:Hparse; [|apply effect_none].
    apply parse_int_inv in Hparse as [-> _]. unfold connection_state, bind.
    destruct (getPhysicsClient_outcome i s) as [Hmiss|w sm Hrange Hsm Hprobe|w sm Hrange Hsm Hprobe].
    + apply effect_none.
    + destruct (sm =? 0) eqn:Hz; [lia|]. cbn [negb]. unfold call_b3CanSubmitCommand.
      cbn [world]. destruct (b3CanSubmitCommand sm w) as [[|] w1];
        unfold get_reg, ret; cbn [snd reg]; apply effect_none.
    + apply (effect_evict _ _ i); try assumption; [reflexivity|].
      fold sm. rewrite Hprobe. reflexivity.
  - unfold pybullet_getConnectionInfo.
    destruct (parse_int i) as [j|] eqn:Hparse; [|apply effect_none].
    apply parse_int_inv in Hparse as [-> _]. unfold connection_state, bind.
    destruct (getPhysicsClient_outcome i s) as [Hmiss|w sm Hrange Hsm Hprobe|w sm Hrange Hsm Hprobe].
    + apply effect_none.
    + destruct (sm =? 0) eqn:Hz; [lia|]. cbn [negb]. unfold call_b3CanSubmitCommand.
      cbn [world]. destruct (b3CanSubmitCommand sm w) as [[|] w1];
        unfold get_reg, ret; cbn [snd reg]; apply effect_none.
    + apply (effect_evict _ _ i); try assumption; [reflexivity|].
      fold sm. rewrite Hprobe. reflexivity.
  - apply with_client_effect; [reflexivity|]. intros sm s1.
    unfold bind, call_b3CanSubmitCommand, call_b3SubmitClientCommandAndWaitStatus.
    destruct (b3CanSubmitCommand sm (world s1)) as [[|] w1]; [|reflexivity].
    cbn [world]. destruct (b3SubmitClientCommandAndWaitStatus _ _ w1) as [st w2].
    destruct (_ =? _); reflexivity.
  - apply with_client_effect; [reflexivity|]. intros sm s1.
    unfold bind, call_b3SubmitClientCommandAndWaitStatus.
    destruct (b3SubmitClientCommandAndWaitStatus _ _ _) as [st w2].
    destruct (negb _); reflexivity.
  - apply with_client_effect; [reflexivity|]. intros sm s1.
    unfold bind, call_b3SubmitClientCommandAndWaitStatus.
    destruct (b3SubmitClientCommandAndWaitStatus _ _ _) as [st w2].
    destruct (negb _); reflexivity.
Qed.

Lemma reachable_inv s : reachable s -> registry_inv (reg s).
Proof.
  induction 1 as [w|c s _ IH|w s _ IH].
  - apply initial_registry_inv.
  - apply (call_effect_inv c s); [exact IH|apply run_call_effect].
  - exact IH.
Qed.

Lemma reachable_run_calls cs s : reachable s -> reachable (snd (run_calls cs s)).
Proof.
  revert s. induction cs as [|c cs IH]; intros s Hs; [exact Hs|].
  simpl. destruct (run_call c s) as [x s1] eqn:E1.
  destruct (run_calls cs s1) as [xs s2] eqn:E2. simpl.
  change s2 with (snd (xs, s2)). rewrite <- E2. apply IH.
  change s1 with (snd (x, s1)). rewrite <- E1. apply reachable_call, Hs.
Qed.

End Invariant.

(** ** The lookup and the eviction *)

Section Claims.

Context {W : Type} `{SharedMemoryPublic} `{BuildFlags} `{PhysicsClientC_API W}.

Implicit Types (s : System W) (r : Registry).

(** An occupied slot other than the one just written stays as it was. *)
Lemma occupied_slot_aset (a : list Z) i j v :
  0 <= i -> 0 <= j -> aget a j <> 0 -> aget (aset a i v) j = 0 -> i = j.
Proof.
  intros Hi Hj Hocc Hz. destruct (decide (Z.to_nat i = Z.to_nat j)) as [Heq|Hne]; [lia|].
  rewrite aget_aset_ne in Hz by exact Hne. contradiction.
Qed.

(** C7: [getPhysicsClient] returns a transport exactly when the id is in
    range, the slot is occupied and [b3CanSubmitCommand] on the stored
    transport succeeds, and it is then the stored transport; when the slot is
    occupied and the probe fails it disconnects the transport, zeroes the
    slot in both tables, decrements [sNumPhysicsClients] and returns null;
    and no call of an entry point empties an occupied slot other than a
    disconnect of that very id or a lookup of that very id whose probe
    fails: no entry point sweeps the table (the only loop that does,
    [b3pybulletExitFunc], runs when the interpreter exits). *)
Theorem getPhysicsClient_resolves physicsClientId s :
  (fst (getPhysicsClient physicsClientId s) <> 0 <->
     0 <= physicsClientId < MAX_PHYSICS_CLIENTS /\
     aget (sPhysicsClients1 (reg s)) physicsClientId <> 0 /\
     fst (b3CanSubmitCommand (aget (sPhysicsClients1 (reg s)) physicsClientId)
            (world s)) = true) /\
  (fst (getPhysicsClient physicsClientId s) <> 0 ->
     fst (getPhysicsClient physicsClientId s)
       = aget (sPhysicsClients1 (reg s)) physicsClientId /\
     reg (snd (getPhysicsClient physicsClientId s)) = reg s) /\
  (0 <= physicsClientId < MAX_PHYSICS_CLIENTS ->
   aget (sPhysicsClients1 (reg s)) physicsClientId <> 0 ->
   fst (b3CanSubmitCommand (aget (sPhysicsClients1 (reg s)) physicsClientId)
          (world s)) = false ->
     let sm := aget (sPhysicsClients1 (reg s)) physicsClientId in
     let s' := snd (getPhysicsClient physicsClientId s) in
     fst (getPhysicsClient physicsClientId s) = 0 /\
     calls s' = calls s ++ [EvCanSubmit sm false; EvDisconnect sm] /\
     world s' = b3DisconnectSharedMemory sm (snd (b3CanSubmitCommand sm (world s))) /\
     reg s' = clear_slot physicsClientId (-1) (reg s) /\
     aget (sPhysicsClients1 (reg s')) physicsClientId = 0 /\
     aget (sPhysicsClientsGUI (reg s')) physicsClientId = 0 /\
     sNumPhysicsClients (reg s') = sNumPhysicsClients (reg s) - 1) /\
  (forall c j,
     0 <= j -> aget (sPhysicsClients1 (reg s)) j <> 0 ->
     aget (sPhysicsClients1 (reg (snd (run_call c s)))) j = 0 ->
     call_id c = Some j /\
     (c = Disconnect j \/
      fst (b3CanSubmitCommand (aget (sPhysicsClients1 (reg s)) j) (world s)) = false)).
Proof.
  split; [|split; [|split]].
  - destruct (getPhysicsClient_outcome physicsClientId s)
      as [Hmiss|w sm Hrange Hsm Hprobe|w sm Hrange Hsm Hprobe]; cbn [fst].
    + split; [intros Hne; contradiction|intros (Hrange & Hsm & _); lia].
    + subst sm. rewrite Hprobe. split; intros _; [repeat split; try lia|]; exact Hsm.
    + subst sm. rewrite Hprobe. split; [intros Hne; contradiction|].
      intros (_ & _ & Hp). discriminate.
  - destruct (getPhysicsClient_outcome physicsClientId s)
      as [Hmiss|w sm Hrange Hsm Hprobe|w sm Hrange Hsm Hprobe]; cbn [fst snd reg];
      intros Hne; try contradiction. split; reflexivity.
  - intros Hrange Hsm Hprobe.
    destruct (getPhysicsClient_outcome physicsClientId s)
      as [Hmiss|w sm' _ _ Hprobe'|w sm' _ _ Hprobe']; try subst sm'; [lia| |].
    + rewrite Hprobe' in Hprobe. discriminate.
    + cbv zeta. cbn [fst snd reg world calls]. rewrite Hprobe'. cbn [snd].
      rewrite <- app_assoc. repeat split; apply aget_aset_zero.
  - intros c j Hj Hocc Hz.
    destruct (run_call_effect c s)
      as [|i Hid Hi Hsm Hprobe|i Hc Hi Hsm Hprobe|a i sm Hc Hscan Hsm|a i sm Hc Hscan Hsm].
    + contradiction.
    + cbn [clear_slot sPhysicsClients1] in Hz.
      assert (i = j) as -> by (eapply occupied_slot_aset; eauto; lia).
      split; [exact Hid|right; exact Hprobe].
    + cbn [clear_slot sPhysicsClients1] in Hz.
      assert (i = j) as -> by (eapply occupied_slot_aset; eauto; lia).
      rewrite Hc. split; [reflexivity|left; reflexivity].
    + exfalso. apply free_slot_lookup in Hscan as (Hi & Hfree & _).
      cbn [store_client sPhysicsClients1] in Hz.
      assert (i = j) as -> by (eapply occupied_slot_aset; eauto; lia).
      rewrite (aget_lookup _ _ _ Hfree) in Hocc. contradiction.
    + exfalso. apply free_slot_lookup in Hscan as (Hi & Hfree & _).
      cbn [clear_slot store_client sPhysicsClients1] in Hz.
      rewrite aset_aset in Hz.
      assert (i = j) as -> by (eapply occupied_slot_aset; eauto; lia).
      rewrite (aget_lookup _ _ _ Hfree) in Hocc. contradiction.
Qed.

(** ** Successful connects *)

(** What a [connect] that returns an id has done. *)
Lemma connect_success a s i s' :
  pybullet_connectPhysicsServer a s = (PyReturn (PyInt i), s') -> 0 <= i ->
  exists c sm w,
    b3Connect c (world s) = (sm, w) /\ sm <> 0 /\
    first_index (fun x => x =? 0) (sPhysicsClients1 (reg s)) = Some i /\
    reg s' = store_client i sm (args_method a) (reg s) /\
    calls s' = calls s ++
      [EvConnect c sm; EvCanSubmit sm true;
       EvSubmit sm SyncBodyInfoCommand CMD_SYNC_BODY_INFO_COMPLETED;
       EvSubmit sm SyncUserDataCommand CMD_SYNC_USER_DATA_COMPLETED].
Proof.
  intros Hcall Hi.
  pose proof (pybullet_connectPhysicsServer_outcome a s) as Ho. rewrite Hcall in Ho.
  inversion Ho as [| |x Hroom Hx|c w Hroom Hopen|c sm w x Hroom Hgui Hopen Hsm Hreg]; subst.
  - contradiction (Hx (PyInt i)). reflexivity.
  - lia.
  - inversion Hreg as [| | | |w0 w1 w2 i' st st' Hprobe Hscan Hbody Ht Huser Ht']; subst;
      try lia.
    exists c, sm, w. cbn [reg world calls] in *.
    repeat split; try assumption.
    rewrite Ht, Ht', <- !app_assoc. reflexivity.
Qed.

(** C8: a [connect] that returns an id has, after the transport constructor
    and the probe, made exactly two round trips on the new transport and
    nothing else: first the sync-body-info command, answered with
    [CMD_SYNC_BODY_INFO_COMPLETED], then the sync-user-data command, answered
    with [CMD_SYNC_USER_DATA_COMPLETED]; the id it returns is the slot that
    holds this transport. *)
Theorem connect_handshake_trace a s i s' :
  pybullet_connectPhysicsServer a s = (PyReturn (PyInt i), s') -> 0 <= i ->
  exists c sm,
    sm <> 0 /\
    calls s' = calls s ++
      [EvConnect c sm; EvCanSubmit sm true;
       EvSubmit sm SyncBodyInfoCommand CMD_SYNC_BODY_INFO_COMPLETED;
       EvSubmit sm SyncUserDataCommand CMD_SYNC_USER_DATA_COMPLETED] /\
    aget (sPhysicsClients1 (reg s')) i = sm.
Proof.
  intros Hcall Hi.
  destruct (connect_success a s i s' Hcall Hi) as (c & sm & w & _ & Hsm & Hscan & Hreg & Htrace).
  exists c, sm. repeat split; [exact Hsm|exact Htrace|].
  rewrite Hreg. cbn [store_client sPhysicsClients1].
  apply free_slot_lookup in Hscan as (_ & Hfree & _).
  apply aget_aset_eq. apply lookup_lt_Some in Hfree. exact Hfree.
Qed.

(** C9: the id a [connect] returns is the smallest index whose slot was
    empty when it was called; on the zeroed table it is [0]; and when the
    table is as a successful [disconnect(j)] left it, the id is at most [j]
    (the freed slot is taken again unless a smaller one is free). *)
Theorem connect_returns_smallest_free a s i s' :
  pybullet_connectPhysicsServer a s = (PyReturn (PyInt i), s') -> 0 <= i ->
  (i < MAX_PHYSICS_CLIENTS /\
   aget (sPhysicsClients1 (reg s)) i = 0 /\
   forall j, 0 <= j < i -> aget (sPhysicsClients1 (reg s)) j <> 0) /\
  (reg s = initial_registry -> i = 0) /\
  (forall j s0 s1,
     pybullet_disconnectPhysicsServer j s0 = (PyReturn Py_None, s1) ->
     reg s = reg s1 -> i <= j).
Proof.
  intros Hcall Hi.
  destruct (connect_success a s i s' Hcall Hi) as (c & sm & w & _ & _ & Hscan & _).
  apply free_slot_lookup in Hscan as (Hrange & Hfree & Hbefore).
  split; [|split].
  - repeat split; [lia|apply aget_lookup; exact Hfree|exact Hbefore].
  - intros Hinit. destruct (decide (i = 0)) as [|Hne]; [assumption|].
    contradiction (Hbefore 0); [lia|]. rewrite Hinit. reflexivity.
  - intros j s0 s1 Hdis Hsame.
    unfold pybullet_disconnectPhysicsServer, with_client, bind in Hdis.
    destruct (getPhysicsClient_outcome j s0) as [Hmiss|w0 sm0 Hj Hsm0 Hprobe|w0 sm0 Hj Hsm0 Hprobe];
      try discriminate.
    destruct (sm0 =? 0); [discriminate|].
    unfold call_b3DisconnectSharedMemory, get_reg, put_reg, ret in Hdis.
    cbn [reg world calls] in Hdis. injection Hdis as <-.
    destruct (decide (i <= j)) as [|Hgt]; [assumption|].
    contradiction (Hbefore j); [lia|]. rewrite Hsame. cbn [reg clear_slot sPhysicsClients1].
    apply aget_aset_zero.
Qed.

(** ** Introspection *)

(** The dictionary [getConnectionInfo] builds. *)
Lemma connection_state_results physicsClientId s :
  INT_MIN <= physicsClientId <= INT_MAX ->
  fst (pybullet_isConnected physicsClientId s)
    = PyReturn (PyInt (fst (fst (connection_state physicsClientId s)))) /\
  fst (pybullet_getConnectionInfo physicsClientId s)
    = PyReturn (PyDict
        [("isConnected"%string, PyInt (fst (fst (connection_state physicsClientId s))));
         ("connectionMethod"%string,
          PyInt (snd (fst (connection_state physicsClientId s))))]).
Proof.
  intros Hint.
  rewrite pybullet_isConnected_parsed, pybullet_getConnectionInfo_parsed by exact Hint.
  unfold bind, ret.
  destruct (connection_state physicsClientId s) as [[b m] s1]. split; reflexivity.
Qed.

Lemma connection_state_flag physicsClientId s :
  fst (fst (connection_state physicsClientId s)) = 0 \/
  fst (fst (connection_state physicsClientId s)) = 1.
Proof.
  unfold connection_state, bind.
  destruct (getPhysicsClient physicsClientId s) as [sm s1].
  destruct (negb (sm =? 0)); [|left; reflexivity].
  unfold call_b3CanSubmitCommand.
  destruct (b3CanSubmitCommand sm (world s1)) as [[|] w]; [right|left]; reflexivity.
Qed.

Lemma connection_state_not_found physicsClientId s :
  fst (getPhysicsClient physicsClientId s) = 0 ->
  fst (connection_state physicsClientId s) = (0, 0).
Proof.
  intros Hnull. unfold connection_state, bind.
  destruct (getPhysicsClient physicsClientId s) as [sm s1]. cbn [fst] in Hnull.
  subst sm. reflexivity.
Qed.

(** C10, as the code has it: [isConnected] and [getConnectionInfo] return
    a value, and do not raise, for every integer id that fits a C [int];
    the flag is [0] or [1]; for a negative id, an id at or beyond
    [MAX_PHYSICS_CLIENTS], or an id for which the lookup finds no live
    transport, [isConnected] returns [0] and [getConnectionInfo] returns
    flag [0] with method [0], where [stepSimulation] raises
    [NotConnectedError]. *)
Theorem introspection_total physicsClientId s :
  INT_MIN <= physicsClientId <= INT_MAX ->
  (exists b m,
     (b = 0 \/ b = 1) /\
     fst (pybullet_isConnected physicsClientId s) = PyReturn (PyInt b) /\
     fst (pybullet_getConnectionInfo physicsClientId s)
       = PyReturn (PyDict [("isConnected"%string, PyInt b);
                           ("connectionMethod"%string, PyInt m)])) /\
  (physicsClientId < 0 \/ MAX_PHYSICS_CLIENTS <= physicsClientId \/
     fst (getPhysicsClient physicsClientId s) = 0 ->
   fst (pybullet_isConnected physicsClientId s) = PyReturn (PyInt 0) /\
   fst (pybullet_getConnectionInfo physicsClientId s)
     = PyReturn (PyDict [("isConnected"%string, PyInt 0);
                         ("connectionMethod"%string, PyInt 0)]) /\
   fst (pybullet_stepSimulation physicsClientId s) = PyRaise not_connected).
Proof.
  intros Hint.
  destruct (connection_state_results physicsClientId s Hint) as [Hflag Hinfo].
  split.
  - eexists _, _. split; [apply (connection_state_flag physicsClientId s)|].
    split; [exact Hflag|exact Hinfo].
  - intros Hdead.
    assert (fst (getPhysicsClient physicsClientId s) = 0) as Hnull.
    { destruct Hdead as [Hlo|[Hhi|Hnull]]; [| |exact Hnull];
        rewrite getPhysicsClient_miss by auto; reflexivity. }
    rewrite Hflag, Hinfo, (connection_state_not_found _ _ Hnull).
    repeat split.
    unfold pybullet_stepSimulation, with_client, bind.
    destruct (getPhysicsClient physicsClientId s) as [sm s1]. cbn [fst] in Hnull.
    subst sm. reflexivity.
Qed.

(** ** Disconnecting *)

(** After [disconnect(id)], however it ended, the lookup of [id] misses. *)
Lemma disconnect_frees physicsClientId s :
  physicsClientId < 0 \/ MAX_PHYSICS_CLIENTS <= physicsClientId \/
  aget (sPhysicsClients1
          (reg (snd (pybullet_disconnectPhysicsServer physicsClientId s))))
       physicsClientId = 0.
Proof.
  unfold pybullet_disconnectPhysicsServer, with_client, bind.
  destruct (getPhysicsClient_outcome physicsClientId s)
    as [Hmiss|w sm Hrange Hsm Hprobe|w sm Hrange Hsm Hprobe].
  - exact Hmiss.
  - destruct (sm =? 0) eqn:Hz; [lia|]. right. right.
    unfold call_b3DisconnectSharedMemory, get_reg, put_reg, ret.
    cbn [snd reg clear_slot sPhysicsClients1]. apply aget_aset_zero.
  - right. right. cbn [snd reg clear_slot sPhysicsClients1]. apply aget_aset_zero.
Qed.

Lemma disconnect_result physicsClientId s :
  fst (pybullet_disconnectPhysicsServer physicsClientId s) = PyReturn Py_None \/
  fst (pybullet_disconnectPhysicsServer physicsClientId s) = PyRaise not_connected.
Proof.
  unfold pybullet_disconnectPhysicsServer, with_client, bind.
  destruct (getPhysicsClient physicsClientId s) as [sm s1].
  destruct (sm =? 0); [right|left]; reflexivity.
Qed.

(** C3, as the code has it: a [disconnect(id)] that directly follows a
    [disconnect(id)] raises [NotConnectedError] and changes nothing (neither
    the globals, nor the world, nor the trace of C API calls); so the
    registry after two calls is the registry after one, while the caller
    sees an error from the second. *)
Theorem disconnect_twice physicsClientId s :
  (fst (pybullet_disconnectPhysicsServer physicsClientId s) = PyReturn Py_None \/
   fst (pybullet_disconnectPhysicsServer physicsClientId s) = PyRaise not_connected) /\
  pybullet_disconnectPhysicsServer physicsClientId
      (snd (pybullet_disconnectPhysicsServer physicsClientId s))
    = (PyRaise not_connected,
       snd (pybullet_disconnectPhysicsServer physicsClientId s)).
Proof.
  split; [apply disconnect_result|].
  apply with_client_miss, disconnect_frees.
Qed.

(** An empty slot stays empty under every entry point but [connect]. *)
Lemma free_slot_stays_free c s physicsClientId :
  (forall a, c <> Connect a) ->
  aget (sPhysicsClients1 (reg s)) physicsClientId = 0 ->
  aget (sPhysicsClients1 (reg (snd (run_call c s)))) physicsClientId = 0.
Proof.
  intros Hc Hfree.
  destruct (run_call_effect c s)
    as [|i _ _ _ _|i _ _ _ _|a i sm Hconn _ _|a i sm Hconn _ _];
    try (contradiction (Hc a Hconn)); [exact Hfree| |];
    cbn [clear_slot sPhysicsClients1];
    (destruct (decide (Z.to_nat i = Z.to_nat physicsClientId)) as [Heq|Hne];
     [unfold aget, aset in *; rewrite <- Heq; apply aget_aset_zero
     |rewrite aget_aset_ne by exact Hne; exact Hfree]).
Qed.

(** C6, as the code has it: once [disconnect(id)] has succeeded, and for as
    long as the slot of [id] stays as it left it (in the state [s1] right
    after it, and in any later state [s2] in which no [connect] has taken
    the slot again), the lookup of [id] yields nothing; every entry point
    that opens with the lookup guard, [stepSimulation], [syncBodyInfo],
    [syncUserData], [disconnect] itself, and any other body under the same
    guard, raises [NotConnectedError] without calling the C API or touching
    the globals; [isConnected] and [getConnectionInfo] do not raise but
    return [0] and [(0, 0)]. *)
Theorem after_disconnect_not_connected physicsClientId s s1 s2 :
  pybullet_disconnectPhysicsServer physicsClientId s = (PyReturn Py_None, s1) ->
  aget (sPhysicsClients1 (reg s2)) physicsClientId
    = aget (sPhysicsClients1 (reg s1)) physicsClientId ->
  getPhysicsClient physicsClientId s2 = (0, s2) /\
  (forall body, with_client physicsClientId body s2 = (PyRaise not_connected, s2)) /\
  pybullet_stepSimulation physicsClientId s2 = (PyRaise not_connected, s2) /\
  pybullet_syncBodyInfo physicsClientId s2 = (PyRaise not_connected, s2) /\
  pybullet_syncUserData physicsClientId s2 = (PyRaise not_connected, s2) /\
  pybullet_disconnectPhysicsServer physicsClientId s2 = (PyRaise not_connected, s2) /\
  pybullet_isConnected physicsClientId s2 = (PyReturn (PyInt 0), s2) /\
  pybullet_getConnectionInfo physicsClientId s2
    = (PyReturn (PyDict [("isConnected"%string, PyInt 0);
                         ("connectionMethod"%string, PyInt 0)]), s2).
Proof.
  intros Hdis Hsame.
  pose proof (disconnect_frees physicsClientId s) as Hfree.
  rewrite Hdis in Hfree. cbn [snd] in Hfree. rewrite <- Hsame in Hfree.
  split; [apply getPhysicsClient_miss, Hfree|].
  split; [intros body; apply with_client_miss, Hfree|].
  assert (INT_MIN <= physicsClientId <= INT_MAX) as Hint.
  { apply table_index_is_int.
    unfold pybullet_disconnectPhysicsServer, with_client, bind in Hdis.
    destruct (getPhysicsClient_outcome physicsClientId s)
      as [Hmiss|w sm Hrange _ _|w sm Hrange _ _]; [discriminate|exact Hrange|exact Hrange]. }
  repeat split; try (apply with_client_miss, Hfree).
  - rewrite pybullet_isConnected_parsed by exact Hint.
    unfold bind. rewrite (connection_state_miss _ _ Hfree). reflexivity.
  - rewrite pybullet_getConnectionInfo_parsed by exact Hint.
    unfold bind. rewrite (connection_state_miss _ _ Hfree). reflexivity.
Qed.

(** ** Capacity *)

Lemma valid_id_range physicsClientId s :
  valid_id physicsClientId s -> 0 <= physicsClientId < MAX_PHYSICS_CLIENTS.
Proof.
  unfold valid_id. intros Hvalid.
  destruct (getPhysicsClient_outcome physicsClientId s)
    as [Hmiss|w sm Hrange Hsm Hprobe|w sm Hrange Hsm Hprobe]; cbn [fst] in Hvalid;
    [contradiction|exact Hrange|contradiction].
Qed.

(** C4: in every state the module can reach, any collection of distinct
    valid client ids has at most [MAX_PHYSICS_CLIENTS] = 1024 members, and
    the client table has at most that many occupied slots. *)
Theorem valid_ids_bounded s (ids : list Z) :
  reachable s -> NoDup ids -> (forall i, i ∈ ids -> valid_id i s) ->
  Z.of_nat (length ids) <= MAX_PHYSICS_CLIENTS /\
  occupied (sPhysicsClients1 (reg s)) <= MAX_PHYSICS_CLIENTS /\
  MAX_PHYSICS_CLIENTS = 1024.
Proof.
  intros Hreach Hnodup Hvalid. split; [|split; [|reflexivity]].
  - assert (ids ⊆+ seqZ 0 MAX_PHYSICS_CLIENTS) as Hsub.
    { apply NoDup_submseteq; [exact Hnodup|]. intros i Hi.
      apply elem_of_seqZ. pose proof (valid_id_range i s (Hvalid i Hi)). lia. }
    apply submseteq_length in Hsub. rewrite length_seqZ in Hsub.
    unfold MAX_PHYSICS_CLIENTS in *. lia.
  - destruct (reachable_inv s Hreach) as [Hlen _ _ _].
    pose proof (occupied_le_length (sPhysicsClients1 (reg s))) as Hle.
    rewrite Hlen in Hle. unfold MAX_PHYSICS_CLIENTS in *. lia.
Qed.

(** When every entry of a list is non-zero, all of it counts as occupied. *)
Lemma occupied_all (a : list Z) :
  Forall (fun sm => sm <> 0) a -> occupied a = Z.of_nat (length a).
Proof.
  induction 1 as [|x a Hx _ IH]; [reflexivity|].
  rewrite occupied_cons, IH, (occ1_nonzero x Hx). simpl length. lia.
Qed.

Lemma registry_full_occupied r :
  registry_inv r -> registry_full r ->
  occupied (sPhysicsClients1 r) = MAX_PHYSICS_CLIENTS.
Proof.
  intros [Hlen _ _ _] Hfull. rewrite occupied_all.
  - rewrite Hlen. unfold MAX_PHYSICS_CLIENTS. reflexivity.
  - apply Forall_lookup. intros n x Hn.
    assert (Z.to_nat (Z.of_nat n) = n) as Hnat by apply Nat2Z.id.
    specialize (Hfull (Z.of_nat n)).
    rewrite (aget_lookup _ (Z.of_nat n) x) in Hfull by (rewrite Hnat; exact Hn).
    apply Hfull. apply lookup_lt_Some in Hn. unfold MAX_PHYSICS_CLIENTS in *. lia.
Qed.

(** C5, as the code has it: in a reachable state in which all
    [MAX_PHYSICS_CLIENTS] slots are occupied, [connect], whatever its
    arguments, raises [BulletError] with the message "Exceeding maximum
    number of physics connections." (it returns [NULL]: no id, valid or
    invalid, reaches the caller) and changes nothing: the globals, the world
    and the trace of C API calls are as before. *)
Theorem connect_capacity_exceeded a s :
  reachable s -> registry_full (reg s) ->
  pybullet_connectPhysicsServer a s = (PyRaise (BulletError capacity_message), s).
Proof.
  intros Hreach Hfull. pose proof (reachable_inv s Hreach) as Hinv.
  pose proof (registry_full_occupied _ Hinv Hfull) as Hocc.
  destruct Hinv as [_ _ Hcount _].
  unfold pybullet_connectPhysicsServer, bind, get_reg, ret.
  destruct (sNumPhysicsClients (reg s) >=? MAX_PHYSICS_CLIENTS) eqn:Hcap; [reflexivity|].
  lia.
Qed.

(** ** The exclusivity gate and the handshake failure *)

(** A request for [eCONNECT_GUI] is refused while some slot records
    [eCONNECT_GUI] or [eCONNECT_GUI_SERVER]; nothing changes. *)
Lemma connect_gui_refused a s j :
  registry_inv (reg s) -> sNumPhysicsClients (reg s) < MAX_PHYSICS_CLIENTS ->
  args_method a = eCONNECT_GUI ->
  0 <= j < MAX_PHYSICS_CLIENTS ->
  is_gui_entry (aget (sPhysicsClientsGUI (reg s)) j) = true ->
  pybullet_connectPhysicsServer a s = (PyRaise (BulletError exclusivity_message), s).
Proof.
  intros [_ Hlen _ _] Hroom Hmethod Hj Hgui.
  unfold pybullet_connectPhysicsServer, bind, get_reg, ret.
  destruct (sNumPhysicsClients (reg s) >=? MAX_PHYSICS_CLIENTS) eqn:Hcap; [lia|].
  rewrite Hmethod, Z.eqb_refl. cbn [andb].
  rewrite bool_decide_eq_true_2; [reflexivity|].
  apply (first_index_is_Some _ _ j Hj); [|exact Hgui].
  rewrite Hlen. unfold MAX_PHYSICS_CLIENTS in *. lia.
Qed.

(** The [switch] never raises the exclusivity error. *)
Lemma select_transport_not_exclusivity a argv :
  select_transport a argv <> ReturnNULL (BulletError exclusivity_message).
Proof.
  unfold select_transport, unexpected_argument.
  repeat match goal with
         | |- context [if ?b then _ else _] => destruct b
         end; discriminate.
Qed.

Lemma register_client_returns method sm s :
  exists v, fst (register_client method sm s) = PyReturn v.
Proof.
  destruct (register_client_outcome method sm s); cbn [fst]; eauto.
Qed.

(** Only a request for [eCONNECT_GUI] is ever refused by the exclusivity
    gate: a request for any other method, [eCONNECT_GUI_SERVER] included,
    goes on to construct its transport whatever the table records. *)
Lemma connect_exclusivity_only_gui a s :
  fst (pybullet_connectPhysicsServer a s) = PyRaise (BulletError exclusivity_message) ->
  args_method a = eCONNECT_GUI.
Proof.
  unfold pybullet_connectPhysicsServer, bind, get_reg, ret.
  destruct (sNumPhysicsClients (reg s) >=? MAX_PHYSICS_CLIENTS); [discriminate|].
  destruct (args_method a =? eCONNECT_GUI) eqn:Hgui; [lia|]. cbn [andb].
  pose proof (select_transport_not_exclusivity a
    (match args_options a with Some o => urdfStrSplit o | None => [] end)) as Hsel.
  destruct (select_transport a _) as [c|e|e]; cbn [fst].
  - unfold call_b3Connect. destruct (b3Connect c (world s)) as [sm w].
    destruct (sm =? 0); [discriminate|].
    destruct (register_client_returns (args_method a) sm
                {| reg := reg s; world := w; calls := calls s ++ [EvConnect c sm] |})
      as [v Hv].
    rewrite Hv. discriminate.
  - discriminate.
  - intros Heq. injection Heq as ->. contradiction.
Qed.

(** When the first handshake round trip fails in a state that satisfies the
    invariant, [connect] returns [-1] after disconnecting the transport; both
    tables are as before the call and [sNumPhysicsClients] is two higher. *)
Lemma register_client_body_info_failure method sm s w w1 i st :
  registry_inv (reg s) ->
  b3CanSubmitCommand sm (world s) = (true, w) ->
  first_index (fun x => x =? 0) (sPhysicsClients1 (reg s)) = Some i ->
  b3SubmitClientCommandAndWaitStatus sm SyncBodyInfoCommand w = (st, w1) ->
  b3GetStatusType st <> CMD_SYNC_BODY_INFO_COMPLETED ->
  register_client method sm s =
  (PyReturn (PyInt (-1)),
   {| reg := {| sPhysicsClients1 := sPhysicsClients1 (reg s);
                sPhysicsClientsGUI := sPhysicsClientsGUI (reg s);
                sNumPhysicsClients := sNumPhysicsClients (reg s) + 2 |};
      world := b3DisconnectSharedMemory sm w1;
      calls := calls s ++ [EvCanSubmit sm true;
                           EvSubmit sm SyncBodyInfoCommand (b3GetStatusType st);
                           EvDisconnect sm] |}).
Proof.
  intros Hinv Hprobe Hscan Hbody Ht.
  pose proof (register_client_outcome method sm s) as Ho.
  inversion Ho as [w' Hp Hres|w' Hp Hs Hres|w' w1' i' st0 Hp Hs Hb Ht0 Hres
                  |w' w1' w2' i' st0 st1 Hp Hs Hb Ht0 Hu Ht1 Hres
                  |w' w1' w2' i' st0 st1 Hp Hs Hb Ht0 Hu Ht1 Hres];
    rewrite Hprobe in Hp; try discriminate; injection Hp as <-;
    rewrite Hscan in Hs; try discriminate; injection Hs as <-;
    rewrite Hbody in Hb; injection Hb as <- <-; try contradiction.
  apply free_slot_lookup in Hscan as (_ & Hfree & _).
  rewrite (handshake_failed_registry _ _ _ _ Hinv Hfree), <- !app_assoc. reflexivity.
Qed.

(** The same when the second round trip fails. *)
Lemma register_client_user_data_failure method sm s w w1 w2 i st st' :
  registry_inv (reg s) ->
  b3CanSubmitCommand sm (world s) = (true, w) ->
  first_index (fun x => x =? 0) (sPhysicsClients1 (reg s)) = Some i ->
  b3SubmitClientCommandAndWaitStatus sm SyncBodyInfoCommand w = (st, w1) ->
  b3GetStatusType st = CMD_SYNC_BODY_INFO_COMPLETED ->
  b3SubmitClientCommandAndWaitStatus sm SyncUserDataCommand w1 = (st', w2) ->
  b3GetStatusType st' <> CMD_SYNC_USER_DATA_COMPLETED ->
  register_client method sm s =
  (PyReturn (PyInt (-1)),
   {| reg := {| sPhysicsClients1 := sPhysicsClients1 (reg s);
                sPhysicsClientsGUI := sPhysicsClientsGUI (reg s);
                sNumPhysicsClients := sNumPhysicsClients (reg s) + 2 |};
      world := b3DisconnectSharedMemory sm w2;
      calls := calls s ++ [EvCanSubmit sm true;
                           EvSubmit sm SyncBodyInfoCommand (b3GetStatusType st);
                           EvSubmit sm SyncUserDataCommand (b3GetStatusType st');
                           EvDisconnect sm] |}).
Proof.
  intros Hinv Hprobe Hscan Hbody Ht Huser Ht'.
  pose proof (register_client_outcome method sm s) as Ho.
  inversion Ho as [w' Hp Hres|w' Hp Hs Hres|w' w1' i' st0 Hp Hs Hb Ht0 Hres
                  |w' w1' w2' i' st0 st1 Hp Hs Hb Ht0 Hu Ht1 Hres
                  |w' w1' w2' i' st0 st1 Hp Hs Hb Ht0 Hu Ht1 Hres];
    rewrite Hprobe in Hp; try discriminate; injection Hp as <-;
    rewrite Hscan in Hs; try discriminate; injection Hs as <-;
    rewrite Hbody in Hb; injection Hb as <- <-; try contradiction;
    rewrite Huser in Hu; injection Hu as <- <-; try contradiction.
  apply free_slot_lookup in Hscan as (_ & Hfree & _).
  rewrite (handshake_failed_registry _ _ _ _ Hinv Hfree), <- !app_assoc. reflexivity.
Qed.

End Claims.

(** ** Further properties of the registry *)

Section Extras.

Context {W : Type} `{SharedMemoryPublic} `{BuildFlags} `{PhysicsClientC_API W}.

Implicit Types (s : System W) (r : Registry).

(** X1: in every state the module can reach, both tables have
    [MAX_PHYSICS_CLIENTS] = 1024 entries, [sNumPhysicsClients] is at least
    the number of occupied slots (so it is never negative), and an empty
    slot of the client table has method [0] in the method table. *)
Theorem reachable_registry_invariant s :
  reachable s ->
  length (sPhysicsClients1 (reg s)) = 1024%nat /\
  length (sPhysicsClientsGUI (reg s)) = 1024%nat /\
  0 <= occupied (sPhysicsClients1 (reg s)) <= sNumPhysicsClients (reg s) /\
  (forall i, 0 <= i < MAX_PHYSICS_CLIENTS ->
     aget (sPhysicsClients1 (reg s)) i = 0 ->
     aget (sPhysicsClientsGUI (reg s)) i = 0).
Proof.
  intros Hreach. destruct (reachable_inv s Hreach) as [Hlen1 Hlen2 Hcount Hgui].
  split; [exact Hlen1|]. split; [exact Hlen2|]. split.
  - split; [|exact Hcount]. unfold occupied. lia.
  - intros i Hi Hz.
    destruct (lookup_lt_is_Some_2 (sPhysicsClients1 (reg s)) (Z.to_nat i)) as [x Hx].
    { rewrite Hlen1. unfold MAX_PHYSICS_CLIENTS in *. lia. }
    rewrite (aget_lookup _ _ _ Hx) in Hz. subst x.
    apply aget_lookup. apply Hgui. exact Hx.
Qed.

(** The occupied count when an occupied slot is zeroed, and when an empty
    slot is filled. *)
Lemma occupied_aset_clear (a : list Z) i :
  aget a i <> 0 -> occupied (aset a i 0) = occupied a - 1.
Proof.
  intros Hsm. unfold aset.
  rewrite (occupied_insert _ _ _ _ (aget_nonzero_lookup _ _ Hsm)).
  rewrite occ1_zero, (occ1_nonzero _ Hsm). lia.
Qed.

Lemma occupied_aset_fill (a : list Z) i sm :
  a !! Z.to_nat i = Some 0 -> sm <> 0 -> occupied (aset a i sm) = occupied a + 1.
Proof.
  intros Hfree Hsm. unfold aset. rewrite (occupied_insert _ _ _ _ Hfree).
  rewrite occ1_zero, (occ1_nonzero _ Hsm). lia.
Qed.

(** X2: the surplus of [sNumPhysicsClients] over the number of occupied
    slots is never reduced: every call of an entry point leaves it as it
    was, except a [connect] that returns [-1] after a failed handshake,
    which raises it by two. *)
Theorem counter_surplus_never_shrinks c s :
  reachable s ->
  sNumPhysicsClients (reg (snd (run_call c s)))
    - occupied (sPhysicsClients1 (reg (snd (run_call c s))))
  = sNumPhysicsClients (reg s) - occupied (sPhysicsClients1 (reg s))
  \/
  (sNumPhysicsClients (reg (snd (run_call c s)))
     - occupied (sPhysicsClients1 (reg (snd (run_call c s))))
   = sNumPhysicsClients (reg s) - occupied (sPhysicsClients1 (reg s)) + 2 /\
   (exists a, c = Connect a) /\
   fst (run_call c s) = PyReturn (PyInt (-1))).
Proof.
  intros Hreach. pose proof (reachable_inv s Hreach) as Hinv.
  destruct c as [a|i|i|i|i|i|i].
  - simpl run_call.
    destruct (pybullet_connectPhysicsServer_outcome a s)
      as [| | |c w|c sm w x Hroom Hgui Hopen Hsm Hreg]; cbn [fst snd reg];
      try (left; reflexivity).
    destruct Hreg as [|w0 Hp Hs|w0 w1 i st Hp Hs Hb Ht|w0 w1 w2 i st st' Hp Hs Hb Ht Hu Ht'
                     |w0 w1 w2 i st st' Hp Hs Hb Ht Hu Ht'];
      cbn [fst snd reg world calls] in *; try (left; reflexivity).
    + right. apply free_slot_lookup in Hs as (_ & Hfree & _).
      rewrite (handshake_failed_registry _ _ _ _ Hinv Hfree). cbn.
      split; [lia|]. split; [eauto|reflexivity].
    + right. apply free_slot_lookup in Hs as (_ & Hfree & _).
      rewrite (handshake_failed_registry _ _ _ _ Hinv Hfree). cbn.
      split; [lia|]. split; [eauto|reflexivity].
    + left. apply free_slot_lookup in Hs as (_ & Hfree & _).
      cbn [store_client sPhysicsClients1 sNumPhysicsClients].
      rewrite (occupied_aset_fill _ _ _ Hfree Hsm). lia.
  - left. destruct (run_call_effect (Disconnect i) s)
      as [|j _ _ Hsm _|j _ _ Hsm _|a j sm Hc _ _|a j sm Hc _ _]; try discriminate;
      [reflexivity| |];
      cbn [clear_slot sPhysicsClients1 sNumPhysicsClients];
      rewrite (occupied_aset_clear _ _ Hsm); lia.
  - left. destruct (run_call_effect (IsConnected i) s)
      as [|j _ _ Hsm _|j _ _ Hsm _|a j sm Hc _ _|a j sm Hc _ _]; try discriminate;
      [reflexivity| |];
      cbn [clear_slot sPhysicsClients1 sNumPhysicsClients];
      rewrite (occupied_aset_clear _ _ Hsm); lia.
  - left. destruct (run_call_effect (GetConnectionInfo i) s)
      as [|j _ _ Hsm _|j _ _ Hsm _|a j sm Hc _ _|a j sm Hc _ _]; try discriminate;
      [reflexivity| |];
      cbn [clear_slot sPhysicsClients1 sNumPhysicsClients];
      rewrite (occupied_aset_clear _ _ Hsm); lia.
  - left. destruct (run_call_effect (StepSimulation i) s)
      as [|j _ _ Hsm _|j _ _ Hsm _|a j sm Hc _ _|a j sm Hc _ _]; try discriminate;
      [reflexivity| |];
      cbn [clear_slot sPhysicsClients1 sNumPhysicsClients];
      rewrite (occupied_aset_clear _ _ Hsm); lia.
  - left. destruct (run_call_effect (SyncBodyInfo i) s)
      as [|j _ _ Hsm _|j _ _ Hsm _|a j sm Hc _ _|a j sm Hc _ _]; try discriminate;
      [reflexivity| |];
      cbn [clear_slot sPhysicsClients1 sNumPhysicsClients];
      rewrite (occupied_aset_clear _ _ Hsm); lia.
  - left. destruct (run_call_effect (SyncUserData i) s)
      as [|j _ _ Hsm _|j _ _ Hsm _|a j sm Hc _ _|a j sm Hc _ _]; try discriminate;
      [reflexivity| |];
      cbn [clear_slot sPhysicsClients1 sNumPhysicsClients];
      rewrite (occupied_aset_clear _ _ Hsm); lia.
Qed.

(** The exceptions the [switch] of [connect] sets are all [BulletError]. *)
Lemma select_transport_errors a argv e :
  select_transport a argv = ReturnNULL e \/ select_transport a argv = ErrorSetOnly e ->
  exists msg, e = BulletError msg.
Proof.
  unfold select_transport, unexpected_argument.
  repeat match goal with
         | |- context [if ?b then _ else _] => destruct b
         end;
    intros [Heq|Heq]; try discriminate; injection Heq as <-; eauto.
Qed.

(** X3: whatever its arguments and the state, [connect] ends in one of
    three ways: it returns an integer [i] with [-1 <= i < 1024]; it returns
    [-1] with a [BulletError] set; or it raises a [BulletError].  It never
    raises [NotConnectedError] and never returns an id outside the table. *)
Theorem connect_result_range a s :
  (exists i, -1 <= i < MAX_PHYSICS_CLIENTS /\
             fst (pybullet_connectPhysicsServer a s) = PyReturn (PyInt i)) \/
  (exists msg, fst (pybullet_connectPhysicsServer a s)
                 = PyReturnWithErrorSet (PyInt (-1)) (BulletError msg)) \/
  (exists msg, fst (pybullet_connectPhysicsServer a s) = PyRaise (BulletError msg)).
Proof.
  unfold pybullet_connectPhysicsServer, bind, get_reg, ret.
  destruct (sNumPhysicsClients (reg s) >=? MAX_PHYSICS_CLIENTS).
  { right. right. eexists. reflexivity. }
  destruct (_ && _).
  { right. right. eexists. reflexivity. }
  destruct (select_transport a _) as [c|e|e] eqn:Hsel; cbn [fst].
  - left. unfold call_b3Connect. destruct (b3Connect c (world s)) as [sm w].
    destruct (sm =? 0).
    { exists (-1). split; [unfold MAX_PHYSICS_CLIENTS; lia|reflexivity]. }
    destruct (register_client_outcome (args_method a) sm
                {| reg := reg s; world := w; calls := calls s ++ [EvConnect c sm] |})
      as [| | | |w0 w1 w2 i st st' Hp Hs Hb Ht Hu Ht']; cbn [fst];
      try (exists (-1); split; [unfold MAX_PHYSICS_CLIENTS; lia|reflexivity]).
    exists i. split; [|reflexivity].
    apply free_slot_lookup in Hs as (Hi & _). lia.
  - right. left. destruct (select_transport_errors a _ e (or_intror Hsel)) as [msg ->].
    exists msg. reflexivity.
  - right. right. destruct (select_transport_errors a _ e (or_introl Hsel)) as [msg ->].
    exists msg. reflexivity.
Qed.

(** With room in the counter, a reachable table has a free slot. *)
Lemma free_slot_exists r :
  registry_inv r -> sNumPhysicsClients r < MAX_PHYSICS_CLIENTS ->
  is_Some (first_index (fun x => x =? 0) (sPhysicsClients1 r)).
Proof.
  intros [Hlen _ Hcount _] Hroom.
  destruct (first_index _ (sPhysicsClients1 r)) as [i|] eqn:Hscan; [eauto|].
  exfalso. unfold first_index in Hscan.
  rewrite take_ge in Hscan by lia.
  assert (Forall (fun sm => sm <> 0) (sPhysicsClients1 r)) as Hall.
  { apply Forall_lookup. intros n x Hn.
    pose proof (first_index_from_None _ _ _ Hscan n x Hn) as Hx. cbv beta in Hx.
    apply Z.eqb_neq in Hx. exact Hx. }
  rewrite (occupied_all _ Hall), Hlen in Hcount.
  unfold MAX_PHYSICS_CLIENTS in *. lia.
Qed.

(** X4: in a reachable state, a [connect] that does not return an id
    (it raises, or returns [-1]) leaves both tables exactly as they were. *)
Theorem connect_failure_keeps_tables a s x s' :
  reachable s ->
  pybullet_connectPhysicsServer a s = (x, s') ->
  (forall i, 0 <= i -> x <> PyReturn (PyInt i)) ->
  sPhysicsClients1 (reg s') = sPhysicsClients1 (reg s) /\
  sPhysicsClientsGUI (reg s') = sPhysicsClientsGUI (reg s).
Proof.
  intros Hreach Hcall Hfail. pose proof (reachable_inv s Hreach) as Hinv.
  pose proof (pybullet_connectPhysicsServer_outcome a s) as Ho. rewrite Hcall in Ho.
  inversion Ho as [| |x0 Hroom Hx|c w Hroom Hopen|c sm w x0 Hroom Hgui Hopen Hsm Hreg];
    subst; cbn [reg]; try (split; reflexivity).
  inversion Hreg as [| |w0 w1 i st Hp Hs Hb Ht|w0 w1 w2 i st st' Hp Hs Hb Ht Hu Ht'
                    |w0 w1 w2 i st st' Hp Hs Hb Ht Hu Ht'];
    subst; cbn [reg world calls] in *; try (split; reflexivity).
  - apply free_slot_lookup in Hs as (_ & Hfree & _).
    rewrite (handshake_failed_registry _ _ _ _ Hinv Hfree). split; reflexivity.
  - apply free_slot_lookup in Hs as (_ & Hfree & _).
    rewrite (handshake_failed_registry _ _ _ _ Hinv Hfree). split; reflexivity.
  - apply free_slot_lookup in Hs as (Hi & _).
    contradiction (Hfail i); [lia|reflexivity].
Qed.

(** X5: in a reachable state, a [connect] that returns id [i] has written
    slot [i] and nothing else: slot [i] now holds the new (non-null)
    transport and the requested method, every other slot of both tables is
    as before, and [sNumPhysicsClients] has gone up by one. *)
Theorem connect_success_frame a s i s' :
  reachable s ->
  pybullet_connectPhysicsServer a s = (PyReturn (PyInt i), s') -> 0 <= i ->
  aget (sPhysicsClients1 (reg s')) i <> 0 /\
  aget (sPhysicsClientsGUI (reg s')) i = args_method a /\
  sNumPhysicsClients (reg s') = sNumPhysicsClients (reg s) + 1 /\
  (forall j, 0 <= j -> j <> i ->
     aget (sPhysicsClients1 (reg s')) j = aget (sPhysicsClients1 (reg s)) j /\
     aget (sPhysicsClientsGUI (reg s')) j = aget (sPhysicsClientsGUI (reg s)) j).
Proof.
  intros Hreach Hcall Hi. destruct (reachable_inv s Hreach) as [Hlen1 Hlen2 _ _].
  destruct (connect_success a s i s' Hcall Hi) as (c & sm & w & _ & Hsm & Hscan & Hreg & _).
  apply free_slot_lookup in Hscan as (Hrange & Hfree & _).
  rewrite Hreg. cbn [store_client sPhysicsClients1 sPhysicsClientsGUI sNumPhysicsClients].
  apply lookup_lt_Some in Hfree.
  rewrite !aget_aset_eq by lia. repeat split; try assumption;
    apply aget_aset_ne; lia.
Qed.

(** X6: in a reachable state [connect] never loses a transport it has
    constructed.  Either it made no C API call at all (it was refused
    first); or the constructor returned null and nothing else was called; or
    the last C API call of the connect is the disconnect of the transport it
    constructed, and it returns [-1]; or it returns the id of the slot that
    now holds that transport. *)
Theorem connect_never_leaks a s x s' :
  reachable s ->
  pybullet_connectPhysicsServer a s = (x, s') ->
  (calls s' = calls s /\ reg s' = reg s /\ world s' = world s) \/
  (exists c, calls s' = calls s ++ [EvConnect c 0] /\ reg s' = reg s /\
             x = PyReturn (PyInt (-1))) \/
  (exists c sm mid, sm <> 0 /\
     calls s' = calls s ++ (EvConnect c sm :: mid ++ [EvDisconnect sm]) /\
     x = PyReturn (PyInt (-1))) \/
  (exists c sm mid i, sm <> 0 /\ 0 <= i < MAX_PHYSICS_CLIENTS /\
     calls s' = calls s ++ (EvConnect c sm :: mid) /\
     (EvDisconnect sm ∉ mid) /\
     x = PyReturn (PyInt i) /\ aget (sPhysicsClients1 (reg s')) i = sm).
Proof.
  intros Hreach Hcall. pose proof (reachable_inv s Hreach) as Hinv.
  pose proof (pybullet_connectPhysicsServer_outcome a s) as Ho. rewrite Hcall in Ho.
  inversion Ho as [| |x0 Hroom Hx|c w Hroom Hopen|c sm w x0 Hroom Hgui Hopen Hsm Hreg];
    subst; try (left; repeat split; reflexivity).
  { right. left. exists c. repeat split. }
  right. right.
  inversion Hreg as [w0 Hp|w0 Hp Hs|w0 w1 i st Hp Hs Hb Ht|w0 w1 w2 i st st' Hp Hs Hb Ht Hu Ht'
                    |w0 w1 w2 i st st' Hp Hs Hb Ht Hu Ht'];
    subst; cbn [reg world calls] in *.
  - left. exists c, sm, [EvCanSubmit sm false]. split; [exact Hsm|].
    rewrite <- !app_assoc. split; reflexivity.
  - destruct (free_slot_exists _ Hinv Hroom) as [i Hi]. congruence.
  - left. eexists c, sm, [_; _]. split; [exact Hsm|].
    rewrite <- !app_assoc. split; reflexivity.
  - left. eexists c, sm, [_; _; _]. split; [exact Hsm|].
    rewrite <- !app_assoc. split; reflexivity.
  - right. apply free_slot_lookup in Hs as (Hi & Hfree & _).
    eexists c, sm, [_; _; _], i. split; [exact Hsm|]. split; [lia|].
    rewrite <- !app_assoc. split; [reflexivity|]. split.
    { intros Hin. apply list_elem_of_In in Hin. simpl in Hin.
      destruct Hin as [Heq|[Heq|[Heq|[]]]]; discriminate. }
    split; [reflexivity|].
    cbn [store_client sPhysicsClients1]. apply aget_aset_eq.
    apply lookup_lt_Some in Hfree. exact Hfree.
Qed.

(** Clearing the slot a [connect] has just filled gives the registry back. *)
Lemma clear_store_registry r i sm method :
  registry_inv r -> sPhysicsClients1 r !! Z.to_nat i = Some 0 ->
  clear_slot i (-1) (store_client i sm method r) = r.
Proof.
  intros [Hlen1 Hlen2 Hcount Hgui] Hfree. destruct r as [cl gui n].
  unfold clear_slot, store_client. cbn [sPhysicsClients1 sPhysicsClientsGUI sNumPhysicsClients] in *.
  rewrite !aset_aset. unfold aset.
  rewrite (list_insert_id _ _ _ Hfree), (list_insert_id _ _ _ (Hgui _ Hfree)).
  f_equal. lia.
Qed.

(** X7: in a reachable state, when [connect] has returned id [i] and the
    new transport accepts commands, [getConnectionInfo(i)] reports connected
    with exactly the method that was requested, [isConnected(i)] returns
    [1], and neither changes the registry. *)
Theorem connect_then_getConnectionInfo a s i s1 :
  reachable s ->
  pybullet_connectPhysicsServer a s = (PyReturn (PyInt i), s1) -> 0 <= i ->
  fst (b3CanSubmitCommand (aget (sPhysicsClients1 (reg s1)) i) (world s1)) = true ->
  fst (b3CanSubmitCommand (aget (sPhysicsClients1 (reg s1)) i)
         (snd (b3CanSubmitCommand (aget (sPhysicsClients1 (reg s1)) i) (world s1))))
    = true ->
  fst (pybullet_getConnectionInfo i s1)
    = PyReturn (PyDict [("isConnected"%string, PyInt 1);
                        ("connectionMethod"%string, PyInt (args_method a))]) /\
  fst (pybullet_isConnected i s1) = PyReturn (PyInt 1) /\
  reg (snd (pybullet_getConnectionInfo i s1)) = reg s1 /\
  reg (snd (pybullet_isConnected i s1)) = reg s1.
Proof.
  intros Hreach Hcall Hi Hp1 Hp2.
  destruct (connect_success_frame a s i s1 Hreach Hcall Hi) as (Hsm & Hmethod & _ & _).
  assert (INT_MIN <= i <= INT_MAX) as Hint.
  { destruct (connect_success a s i s1 Hcall Hi) as (_ & _ & _ & _ & _ & Hscan & _).
    apply free_slot_lookup in Hscan as (Hrange & _).
    apply table_index_is_int. lia. }
  rewrite !pybullet_getConnectionInfo_parsed, !pybullet_isConnected_parsed by exact Hint.
  unfold connection_state, bind.
  destruct (getPhysicsClient_outcome i s1) as [Hmiss|w sm Hrange _ Hprobe|w sm _ _ Hprobe];
    try subst sm.
  - destruct (connect_success a s i s1 Hcall Hi) as (_ & _ & _ & _ & _ & Hscan & _).
    apply free_slot_lookup in Hscan as (Hrange & _). lia.
  - rewrite Hprobe in Hp2. cbn [snd] in Hp2.
    destruct (aget (sPhysicsClients1 (reg s1)) i =? 0) eqn:Hz; [lia|]. cbn [negb].
    unfold call_b3CanSubmitCommand. cbn [world reg calls].
    destruct (b3CanSubmitCommand _ w) as [ok w1]. cbn [fst] in Hp2. subst ok.
    unfold get_reg, ret. cbn [fst snd reg]. rewrite Hmethod. repeat split.
  - rewrite Hprobe in Hp1. discriminate.
Qed.

(** X8: in a reachable state, [connect] followed by [disconnect] of the id
    it returned (while the transport still accepts commands) returns [None]
    and puts the registry back exactly as it was before the connect: both
    tables and [sNumPhysicsClients]. *)
Theorem connect_then_disconnect a s i s1 :
  reachable s ->
  pybullet_connectPhysicsServer a s = (PyReturn (PyInt i), s1) -> 0 <= i ->
  fst (b3CanSubmitCommand (aget (sPhysicsClients1 (reg s1)) i) (world s1)) = true ->
  fst (pybullet_disconnectPhysicsServer i s1) = PyReturn Py_None /\
  reg (snd (pybullet_disconnectPhysicsServer i s1)) = reg s.
Proof.
  intros Hreach Hcall Hi Hp1. pose proof (reachable_inv s Hreach) as Hinv.
  destruct (connect_success_frame a s i s1 Hreach Hcall Hi) as (Hsm & _).
  destruct (connect_success a s i s1 Hcall Hi) as (c & sm0 & w0 & _ & _ & Hscan & Hreg & _).
  apply free_slot_lookup in Hscan as (Hrange & Hfree & _).
  unfold pybullet_disconnectPhysicsServer, with_client, bind.
  destruct (getPhysicsClient_outcome i s1) as [Hmiss|w sm _ _ Hprobe|w sm _ _ Hprobe];
    try subst sm.
  - lia.
  - destruct (aget (sPhysicsClients1 (reg s1)) i =? 0) eqn:Hz; [lia|].
    unfold call_b3DisconnectSharedMemory, get_reg, put_reg, ret. cbn [fst snd reg].
    split; [reflexivity|]. rewrite Hreg. apply clear_store_registry; assumption.
  - rewrite Hprobe in Hp1. discriminate.
Qed.

(** X9: in a reachable state with room in the counter, a request for
    [eCONNECT_GUI] is refused with the exclusivity error, and changes
    nothing, exactly when some slot of the method table records
    [eCONNECT_GUI] or [eCONNECT_GUI_SERVER]. *)
Theorem gui_request_refused_iff a s :
  reachable s -> sNumPhysicsClients (reg s) < MAX_PHYSICS_CLIENTS ->
  args_method a = eCONNECT_GUI ->
  (pybullet_connectPhysicsServer a s = (PyRaise (BulletError exclusivity_message), s) <->
   exists j, 0 <= j < MAX_PHYSICS_CLIENTS /\
     (aget (sPhysicsClientsGUI (reg s)) j = eCONNECT_GUI \/
      aget (sPhysicsClientsGUI (reg s)) j = eCONNECT_GUI_SERVER)).
Proof.
  intros Hreach Hroom Hmethod. pose proof (reachable_inv s Hreach) as Hinv. split.
  - unfold pybullet_connectPhysicsServer, bind, get_reg, ret.
    destruct (sNumPhysicsClients (reg s) >=? MAX_PHYSICS_CLIENTS); [discriminate|].
    rewrite Hmethod, Z.eqb_refl. cbn [andb].
    destruct (bool_decide _) eqn:Hscan.
    + intros _. apply bool_decide_eq_true in Hscan as [k Hk].
      destruct (first_index_Some _ _ _ Hk) as (Hrange & _ & Hp & _).
      exists k. split; [exact Hrange|]. unfold is_gui_entry in Hp.
      apply Bool.orb_true_iff in Hp. lia.
    + pose proof (select_transport_not_exclusivity a
        (match args_options a with Some o => urdfStrSplit o | None => [] end)) as Hsel.
      destruct (select_transport a _) as [c|e|e].
      * unfold call_b3Connect. destruct (b3Connect c (world s)) as [sm w].
        destruct (sm =? 0); [discriminate|].
        destruct (register_client_returns eCONNECT_GUI sm
                    {| reg := reg s; world := w; calls := calls s ++ [EvConnect c sm] |})
          as [v Hv].
        destruct (register_client _ _ _) as [x sx]. cbn [fst] in Hv. subst x. discriminate.
      * discriminate.
      * intros Heq. injection Heq as ->. contradiction.
  - intros (j & Hj & Hgui). apply (connect_gui_refused a s j Hinv Hroom Hmethod Hj).
    unfold is_gui_entry. apply Bool.orb_true_iff. lia.
Qed.

(** X10: calls on other ids do not touch a slot: an entry point called with
    client id [i] leaves slot [j] of both tables as it was, for every
    [j <> i]. *)
Theorem other_slots_untouched c s i j :
  call_id c = Some i -> 0 <= j -> j <> i ->
  aget (sPhysicsClients1 (reg (snd (run_call c s)))) j
    = aget (sPhysicsClients1 (reg s)) j /\
  aget (sPhysicsClientsGUI (reg (snd (run_call c s)))) j
    = aget (sPhysicsClientsGUI (reg s)) j.
Proof.
  intros Hid Hj Hne.
  destruct (run_call_effect c s)
    as [|k Hk Hrange _ _|k Hk Hrange _ _|a k sm Hc _ _|a k sm Hc _ _].
  - split; reflexivity.
  - rewrite Hid in Hk. injection Hk as <-.
    cbn [clear_slot sPhysicsClients1 sPhysicsClientsGUI]. split; apply aget_aset_ne; lia.
  - rewrite Hk in Hid. injection Hid as <-.
    cbn [clear_slot sPhysicsClients1 sPhysicsClientsGUI]. split; apply aget_aset_ne; lia.
  - rewrite Hc in Hid. discriminate.
  - rewrite Hc in Hid. discriminate.
Qed.

(** The scan finds nothing when [p] fails on every entry it looks at. *)
Lemma first_index_from_None_intro (p : Z -> bool) (a : list Z) i :
  (forall n x, a !! n = Some x -> p x = false) -> first_index_from p a i = None.
Proof.
  revert i. induction a as [|y a IH]; intros i Hall; [reflexivity|].
  simpl. rewrite (Hall 0%nat y eq_refl). apply IH.
  intros n x Hn. apply (Hall (S n) x Hn).
Qed.

Lemma first_index_None_intro (p : Z -> bool) (a : list Z) :
  (forall k, 0 <= k < MAX_PHYSICS_CLIENTS -> p (aget a k) = false) ->
  first_index p a = None.
Proof.
  intros Hall. unfold first_index. apply first_index_from_None_intro.
  intros n x Hn. apply lookup_take_Some in Hn as [Hn Hlt].
  rewrite <- (aget_lookup a (Z.of_nat n) x) by (rewrite Nat2Z.id; exact Hn).
  apply Hall. unfold MAX_PHYSICS_CLIENTS in *. lia.
Qed.

(** A request that gets past the exclusivity scan is not answered with the
    exclusivity error. *)
Lemma connect_gate_passed a s :
  first_index is_gui_entry (sPhysicsClientsGUI (reg s)) = None ->
  fst (pybullet_connectPhysicsServer a s) <> PyRaise (BulletError exclusivity_message).
Proof.
  intros Hscan. unfold pybullet_connectPhysicsServer, bind, get_reg, ret.
  destruct (sNumPhysicsClients (reg s) >=? MAX_PHYSICS_CLIENTS); [discriminate|].
  rewrite Hscan, bool_decide_eq_false_2 by (intros [k Hk]; discriminate).
  rewrite Bool.andb_false_r.
  pose proof (select_transport_not_exclusivity a
    (match args_options a with Some o => urdfStrSplit o | None => [] end)) as Hsel.
  destruct (select_transport a _) as [c|e|e]; cbn [fst].
  - unfold call_b3Connect. destruct (b3Connect c (world s)) as [sm w].
    destruct (sm =? 0); [discriminate|].
    destruct (register_client_returns (args_method a) sm
                {| reg := reg s; world := w; calls := calls s ++ [EvConnect c sm] |})
      as [v Hv].
    rewrite Hv. discriminate.
  - discriminate.
  - intros Heq. injection Heq as ->. contradiction.
Qed.

(** X11: the exclusivity ends with the disconnect.  When slot [j] is the
    only one that records [eCONNECT_GUI] or [eCONNECT_GUI_SERVER] and
    [disconnect(j)] succeeds, the next request for [eCONNECT_GUI] is no
    longer refused with the exclusivity error (the enumerators being
    non-zero, as a cleared entry is [0]). *)
Theorem gui_request_after_disconnect a s j s1 :
  eCONNECT_GUI <> 0 -> eCONNECT_GUI_SERVER <> 0 ->
  (forall k, 0 <= k < MAX_PHYSICS_CLIENTS -> k <> j ->
     is_gui_entry (aget (sPhysicsClientsGUI (reg s)) k) = false) ->
  pybullet_disconnectPhysicsServer j s = (PyReturn Py_None, s1) ->
  fst (pybullet_connectPhysicsServer a s1) <> PyRaise (BulletError exclusivity_message).
Proof.
  intros Hgui Hserver Hothers Hdis. apply connect_gate_passed.
  unfold pybullet_disconnectPhysicsServer, with_client, bind in Hdis.
  destruct (getPhysicsClient_outcome j s) as [Hmiss|w sm Hj Hsm Hprobe|w sm Hj Hsm Hprobe];
    try discriminate.
  destruct (sm =? 0); [discriminate|].
  unfold call_b3DisconnectSharedMemory, get_reg, put_reg, ret in Hdis.
  cbn [reg world calls] in Hdis. injection Hdis as <-.
  cbn [reg clear_slot sPhysicsClientsGUI].
  apply first_index_None_intro. intros k Hk.
  destruct (decide (k = j)) as [->|Hne].
  - rewrite aget_aset_zero. unfold is_gui_entry.
    apply Bool.orb_false_iff. split; apply Z.eqb_neq; congruence.
  - rewrite aget_aset_ne by lia. apply Hothers; assumption.
Qed.

(** X12: [disconnect(id)] returns [None] exactly when [id] is valid; it has
    then probed the stored transport and disconnected it, once each and
    nothing else, zeroed the slot in both tables and lowered
    [sNumPhysicsClients] by one, after which [id] is no longer valid. *)
Theorem disconnect_valid_id physicsClientId s :
  (fst (pybullet_disconnectPhysicsServer physicsClientId s) = PyReturn Py_None
   <-> valid_id physicsClientId s) /\
  (valid_id physicsClientId s ->
   calls (snd (pybullet_disconnectPhysicsServer physicsClientId s))
     = calls s ++ [EvCanSubmit (aget (sPhysicsClients1 (reg s)) physicsClientId) true;
                   EvDisconnect (aget (sPhysicsClients1 (reg s)) physicsClientId)] /\
   reg (snd (pybullet_disconnectPhysicsServer physicsClientId s))
     = clear_slot physicsClientId (-1) (reg s) /\
   ~ valid_id physicsClientId
       (snd (pybullet_disconnectPhysicsServer physicsClientId s))).
Proof.
  unfold valid_id.
  pose proof (disconnect_frees physicsClientId s) as Hfree.
  unfold pybullet_disconnectPhysicsServer, with_client, bind in *.
  destruct (getPhysicsClient_outcome physicsClientId s)
    as [Hmiss|w sm Hrange Hsm Hprobe|w sm Hrange Hsm Hprobe]; cbn [fst snd] in *.
  - split; [split; [discriminate|intros Hne; contradiction]|intros Hne; contradiction].
  - destruct (sm =? 0) eqn:Hz; [lia|].
    unfold call_b3DisconnectSharedMemory, get_reg, put_reg, ret in *.
    cbn [fst snd reg world calls] in *.
    split; [split; [intros _; exact Hsm|reflexivity]|]. intros _.
    rewrite <- app_assoc. repeat split.
    rewrite getPhysicsClient_miss by exact Hfree. cbn [fst]. intros Hne. contradiction.
  - split; [split; [discriminate|intros Hne; contradiction]|intros Hne; contradiction].
Qed.

(** X13: a per-connection call on a broken connection.  When the slot of
    [id] is occupied but its transport no longer accepts commands, every
    entry point that opens with the lookup guard raises [NotConnectedError]
    without running its body, and as a side effect the transport has been
    disconnected and the slot freed, so [sNumPhysicsClients] is one lower. *)
Theorem guarded_call_on_broken_connection physicsClientId body s :
  0 <= physicsClientId < MAX_PHYSICS_CLIENTS ->
  aget (sPhysicsClients1 (reg s)) physicsClientId <> 0 ->
  fst (b3CanSubmitCommand (aget (sPhysicsClients1 (reg s)) physicsClientId) (world s))
    = false ->
  with_client physicsClientId body s
  = (PyRaise not_connected,
     {| reg := clear_slot physicsClientId (-1) (reg s);
        world := b3DisconnectSharedMemory
                   (aget (sPhysicsClients1 (reg s)) physicsClientId)
                   (snd (b3CanSubmitCommand
                           (aget (sPhysicsClients1 (reg s)) physicsClientId) (world s)));
        calls := calls s
                   ++ [EvCanSubmit (aget (sPhysicsClients1 (reg s)) physicsClientId) false;
                       EvDisconnect (aget (sPhysicsClients1 (reg s)) physicsClientId)] |}).
Proof.
  intros Hrange Hsm Hprobe. unfold with_client, bind.
  destruct (getPhysicsClient_outcome physicsClientId s)
    as [Hmiss|w sm _ _ Hprobe'|w sm _ _ Hprobe']; try subst sm.
  - lia.
  - rewrite Hprobe' in Hprobe. discriminate.
  - rewrite Hprobe', <- app_assoc. reflexivity.
Qed.

(** X14: [stepSimulation] on a live connection.  After the lookup it probes
    the transport a second time; if that succeeds it makes one round trip,
    and returns a tuple with one dictionary per island when the status is
    [CMD_STEP_FORWARD_SIMULATION_COMPLETED], and [None] for any other status:
    a step that did not complete is not reported as an error.  If the second
    probe fails it returns [None] without a round trip.  The registry is
    untouched in all three cases. *)
Theorem stepSimulation_live physicsClientId s w w1 ok :
  0 <= physicsClientId < MAX_PHYSICS_CLIENTS ->
  aget (sPhysicsClients1 (reg s)) physicsClientId <> 0 ->
  b3CanSubmitCommand (aget (sPhysicsClients1 (reg s)) physicsClientId) (world s)
    = (true, w) ->
  b3CanSubmitCommand (aget (sPhysicsClients1 (reg s)) physicsClientId) w = (ok, w1) ->
  let sm := aget (sPhysicsClients1 (reg s)) physicsClientId in
  let st := fst (b3SubmitClientCommandAndWaitStatus sm StepSimulationCommand w1) in
  let w2 := snd (b3SubmitClientCommandAndWaitStatus sm StepSimulationCommand w1) in
  pybullet_stepSimulation physicsClientId s =
  if ok then
    (if b3GetStatusType st =? CMD_STEP_FORWARD_SIMULATION_COMPLETED
     then PyReturn (PyTuple (island_dict <$> b3GetStatusForwardDynamicsAnalyticsData st))
     else PyReturn Py_None,
     {| reg := reg s; world := w2;
        calls := calls s ++ [EvCanSubmit sm true; EvCanSubmit sm true;
                             EvSubmit sm StepSimulationCommand (b3GetStatusType st)] |})
  else
    (PyReturn Py_None,
     {| reg := reg s; world := w1;
        calls := calls s ++ [EvCanSubmit sm true; EvCanSubmit sm false] |}).
Proof.
  intros Hrange Hsm Hprobe Hprobe2. cbv zeta.
  unfold pybullet_stepSimulation, with_client, bind.
  destruct (getPhysicsClient_outcome physicsClientId s)
    as [Hmiss|w' sm _ _ Hprobe'|w' sm _ _ Hprobe']; try subst sm.
  - lia.
  - rewrite Hprobe in Hprobe'. injection Hprobe' as <-.
    destruct (aget (sPhysicsClients1 (reg s)) physicsClientId =? 0) eqn:Hz; [lia|].
    unfold call_b3CanSubmitCommand, call_b3SubmitClientCommandAndWaitStatus.
    cbn [reg world calls]. rewrite Hprobe2. destruct ok.
    + cbn [reg world calls].
      destruct (b3SubmitClientCommandAndWaitStatus _ _ w1) as [st w2]. cbn [fst snd].
      rewrite <- !app_assoc.
      destruct (b3GetStatusType st =? CMD_STEP_FORWARD_SIMULATION_COMPLETED); reflexivity.
    + rewrite <- !app_assoc. reflexivity.
  - rewrite Hprobe in Hprobe'. discriminate.
Qed.

(** X15: [syncBodyInfo] and [syncUserData] on a live connection make one
    round trip each and return [None] when its status is the expected
    completion type, and raise [BulletError] otherwise; in both cases the
    connection stays: the registry is untouched and the transport is not
    disconnected (unlike the same exchange inside [connect]). *)
Theorem sync_keeps_connection physicsClientId s w :
  0 <= physicsClientId < MAX_PHYSICS_CLIENTS ->
  aget (sPhysicsClients1 (reg s)) physicsClientId <> 0 ->
  b3CanSubmitCommand (aget (sPhysicsClients1 (reg s)) physicsClientId) (world s)
    = (true, w) ->
  let sm := aget (sPhysicsClients1 (reg s)) physicsClientId in
  let body := b3SubmitClientCommandAndWaitStatus sm SyncBodyInfoCommand w in
  let user := b3SubmitClientCommandAndWaitStatus sm SyncUserDataCommand w in
  pybullet_syncBodyInfo physicsClientId s =
    (if b3GetStatusType (fst body) =? CMD_SYNC_BODY_INFO_COMPLETED
     then PyReturn Py_None
     else PyRaise (BulletError "Error in syncBodyzInfo command."),
     {| reg := reg s; world := snd body;
        calls := calls s ++ [EvCanSubmit sm true;
                             EvSubmit sm SyncBodyInfoCommand (b3GetStatusType (fst body))] |})
  /\
  pybullet_syncUserData physicsClientId s =
    (if b3GetStatusType (fst user) =? CMD_SYNC_USER_DATA_COMPLETED
     then PyReturn Py_None
     else PyRaise (BulletError "Error in syncUserInfo command."),
     {| reg := reg s; world := snd user;
        calls := calls s ++ [EvCanSubmit sm true;
                             EvSubmit sm SyncUserDataCommand (b3GetStatusType (fst user))] |}).
Proof.
  intros Hrange Hsm Hprobe. cbv zeta.
  unfold pybullet_syncBodyInfo, pybullet_syncUserData, with_client, bind.
  destruct (getPhysicsClient_outcome physicsClientId s)
    as [Hmiss|w' sm _ _ Hprobe'|w' sm _ _ Hprobe']; try subst sm.
  - lia.
  - rewrite Hprobe in Hprobe'. injection Hprobe' as <-.
    destruct (aget (sPhysicsClients1 (reg s)) physicsClientId =? 0) eqn:Hz; [lia|].
    unfold call_b3SubmitClientCommandAndWaitStatus. cbn [reg world calls].
    destruct (b3SubmitClientCommandAndWaitStatus _ SyncBodyInfoCommand w) as [st w1].
    destruct (b3SubmitClientCommandAndWaitStatus _ SyncUserDataCommand w) as [st' w1'].
    cbn [fst snd]. rewrite <- !app_assoc.
    split; [destruct (b3GetStatusType st =? _)|destruct (b3GetStatusType st' =? _)];
      reflexivity.
  - rewrite Hprobe in Hprobe'. discriminate.
Qed.

(** One round of the loop of the exit handler. *)
Lemma exit_loop_step i n s :
  exit_loop i (S n) s =
  exit_loop (i + 1) n
    (if aget (sPhysicsClients1 (reg s)) i =? 0 then s
     else {| reg := {| sPhysicsClients1 := aset (sPhysicsClients1 (reg s)) i 0;
                       sPhysicsClientsGUI := sPhysicsClientsGUI (reg s);
                       sNumPhysicsClients := sNumPhysicsClients (reg s) - 1 |};
             world := b3DisconnectSharedMemory
                        (aget (sPhysicsClients1 (reg s)) i) (world s);
             calls := calls s ++ [EvDisconnect (aget (sPhysicsClients1 (reg s)) i)] |}).
Proof.
  cbn [exit_loop]. unfold bind, get_reg.
  destruct (aget (sPhysicsClients1 (reg s)) i =? 0); reflexivity.
Qed.

(** The loop of the exit handler, started at the index where [rest]
    begins. *)
Lemma exit_loop_spec (rest pre : list Z) s :
  sPhysicsClients1 (reg s) = pre ++ rest ->
  let s' := snd (exit_loop (Z.of_nat (length pre)) (length rest) s) in
  sPhysicsClients1 (reg s') = pre ++ replicate (length rest) 0 /\
  sPhysicsClientsGUI (reg s') = sPhysicsClientsGUI (reg s) /\
  sNumPhysicsClients (reg s') = sNumPhysicsClients (reg s) - occupied rest /\
  calls s' = calls s ++ (EvDisconnect <$> filter (fun sm => sm <> 0) rest) /\
  world s' = foldl (fun w sm => b3DisconnectSharedMemory sm w) (world s)
                   (filter (fun sm => sm <> 0) rest).
Proof.
  revert pre s. induction rest as [|x rest IH]; intros pre s Hcl; cbv zeta.
  - simpl. rewrite Hcl, !app_nil_r, occupied_nil. repeat split; lia.
  - assert (aget (sPhysicsClients1 (reg s)) (Z.of_nat (length pre)) = x) as Hget.
    { apply aget_lookup. rewrite Hcl, Nat2Z.id. apply list_lookup_middle. reflexivity. }
    assert (Z.of_nat (length pre) + 1 = Z.of_nat (length (pre ++ [0]))) as Hnext.
    { rewrite length_app. simpl. lia. }
    simpl length. rewrite exit_loop_step, Hget, Hnext.
    rewrite occupied_cons, filter_cons. unfold occ1.
    destruct (decide (x <> 0)) as [Hx|Hx].
    + destruct (x =? 0) eqn:Hz; [lia|].
      match goal with
      | |- context [exit_loop _ _ ?s1] =>
          specialize (IH (pre ++ [0]) s1)
      end.
      cbn [reg world calls sPhysicsClients1 sPhysicsClientsGUI sNumPhysicsClients] in IH.
      destruct IH as (E1 & E2 & E3 & E4 & E5).
      { rewrite Hcl. unfold aset. rewrite Nat2Z.id.
        rewrite insert_app_r_alt by lia. rewrite Nat.sub_diag. simpl.
        rewrite <- app_assoc. reflexivity. }
      rewrite E1, E2, E3, E4, E5. rewrite <- !app_assoc. simpl.
      repeat split; lia.
    + assert (x = 0) as -> by lia. cbn [Z.eqb].
      destruct (IH (pre ++ [0]) s) as (E1 & E2 & E3 & E4 & E5).
      { rewrite Hcl, <- app_assoc. reflexivity. }
      rewrite E1, E2, E3, E4, E5. rewrite <- !app_assoc. simpl.
      repeat split; lia.
Qed.

(** X16: the exit handler.  Run in a reachable state, [b3pybulletExitFunc]
    disconnects every transport that is in the table, each exactly once and
    in slot order, and makes no other C API call; afterwards the whole
    client table is zero and [sNumPhysicsClients] has gone down by the
    number of slots that were occupied (it stays non-negative).  The method
    table is not cleared: it is left exactly as it was. *)
Theorem exit_handler_closes_every_transport s :
  reachable s ->
  sPhysicsClients1 (reg (snd (b3pybulletExitFunc s)))
    = sPhysicsClients1 initial_registry /\
  sPhysicsClientsGUI (reg (snd (b3pybulletExitFunc s))) = sPhysicsClientsGUI (reg s) /\
  sNumPhysicsClients (reg (snd (b3pybulletExitFunc s)))
    = sNumPhysicsClients (reg s) - occupied (sPhysicsClients1 (reg s)) /\
  0 <= sNumPhysicsClients (reg (snd (b3pybulletExitFunc s))) /\
  calls (snd (b3pybulletExitFunc s))
    = calls s ++ (EvDisconnect <$> filter (fun sm => sm <> 0) (sPhysicsClients1 (reg s))) /\
  world (snd (b3pybulletExitFunc s))
    = foldl (fun w sm => b3DisconnectSharedMemory sm w) (world s)
            (filter (fun sm => sm <> 0) (sPhysicsClients1 (reg s))).
Proof.
  intros Hreach. destruct (reachable_inv s Hreach) as [Hlen _ Hcount _].
  unfold b3pybulletExitFunc. rewrite <- Hlen.
  destruct (exit_loop_spec (sPhysicsClients1 (reg s)) [] s eq_refl)
    as (E1 & E2 & E3 & E4 & E5).
  simpl length in *. change (Z.of_nat 0) with 0 in *.
  rewrite E1, E2, E3, E4, E5. rewrite Hlen. repeat split; try reflexivity. lia.
Qed.

(** Decide the tests of the [switch] from known (in)equalities. *)
Ltac decide_labels :=
  repeat match goal with
         | |- context [?x =? ?y] =>
             destruct (Z.eqb_spec x y); [congruence|]
         end.

Lemma select_transport_default a argv :
  args_method a ∉ case_labels -> select_transport a argv = unexpected_argument.
Proof.
  unfold case_labels, select_transport.
  destruct BT_ENABLE_DART, BT_ENABLE_PHYSX, BT_ENABLE_MUJOCO; cbn [app andb];
    intros Hnotin; rewrite !not_elem_of_cons in Hnotin; destruct_and!;
    decide_labels; reflexivity.
Qed.

(** X17: with room in the counter, a [connect] whose method is none of the
    [case] labels compiled into the build raises [BulletError]
    "connectPhysicsServer unexpected argument" before any transport is
    constructed, and changes nothing.  (A method whose label is compiled
    out, such as [eCONNECT_DART] without [BT_ENABLE_DART], is such a
    method when the enumerators are distinct.) *)
Theorem connect_unexpected_argument a s :
  sNumPhysicsClients (reg s) < MAX_PHYSICS_CLIENTS ->
  args_method a ∉ case_labels ->
  pybullet_connectPhysicsServer a s
  = (PyRaise (BulletError "connectPhysicsServer unexpected argument"), s).
Proof.
  intros Hroom Hnotin.
  unfold pybullet_connectPhysicsServer, bind, get_reg, ret.
  destruct (sNumPhysicsClients (reg s) >=? MAX_PHYSICS_CLIENTS) eqn:Hcap; [lia|].
  destruct (args_method a =? eCONNECT_GUI) eqn:Hgui.
  { exfalso. apply Hnotin. apply Z.eqb_eq in Hgui. rewrite Hgui.
    unfold case_labels. apply elem_of_app. left. apply list_elem_of_here. }
  cbn [andb]. rewrite select_transport_default by exact Hnotin. reflexivity.
Qed.

(** What the [switch] does for the three transports a build can lack, when
    the labels are distinct. *)
Lemma select_transport_disabled a argv :
  NoDup case_labels ->
  (args_method a = eCONNECT_UDP -> BT_ENABLE_ENET = false ->
   select_transport a argv
   = ReturnNULL (BulletError "UDP is not enabled in this pybullet build")) /\
  (args_method a = eCONNECT_TCP -> BT_ENABLE_CLSOCKET = false ->
   select_transport a argv
   = ReturnNULL (BulletError "TCP is not enabled in this pybullet build")) /\
  (args_method a = eCONNECT_GRPC -> BT_ENABLE_GRPC = false ->
   select_transport a argv
   = ErrorSetOnly (BulletError "GRPC is not enabled in this pybullet build")).
Proof.
  unfold case_labels, select_transport.
  destruct BT_ENABLE_DART, BT_ENABLE_PHYSX, BT_ENABLE_MUJOCO; cbn [app andb];
    intros Hnd; rewrite !NoDup_cons, !not_elem_of_cons in Hnd; destruct_and!;
    (split; [|split]); intros -> ->; decide_labels;
    first [reflexivity|congruence].
Qed.

(** X18: transports a build lacks (the enumerators being distinct, and with
    room in the counter).  Without [BT_ENABLE_ENET], [connect(UDP)] raises
    [BulletError] "UDP is not enabled in this pybullet build"; without
    [BT_ENABLE_CLSOCKET], [connect(TCP)] raises the like for TCP; without
    [BT_ENABLE_GRPC], [connect(GRPC)] instead returns [-1] while the
    [BulletError] "GRPC is not enabled in this pybullet build" is set.  In
    all three nothing is constructed and nothing changes. *)
Theorem connect_disabled_transport a s :
  NoDup case_labels ->
  sNumPhysicsClients (reg s) < MAX_PHYSICS_CLIENTS ->
  (args_method a = eCONNECT_UDP -> BT_ENABLE_ENET = false ->
   pybullet_connectPhysicsServer a s
   = (PyRaise (BulletError "UDP is not enabled in this pybullet build"), s)) /\
  (args_method a = eCONNECT_TCP -> BT_ENABLE_CLSOCKET = false ->
   pybullet_connectPhysicsServer a s
   = (PyRaise (BulletError "TCP is not enabled in this pybullet build"), s)) /\
  (args_method a = eCONNECT_GRPC -> BT_ENABLE_GRPC = false ->
   pybullet_connectPhysicsServer a s
   = (PyReturnWithErrorSet (PyInt (-1))
        (BulletError "GRPC is not enabled in this pybullet build"), s)).
Proof.
  intros Hnd Hroom.
  destruct (select_transport_disabled a
              (match args_options a with Some o => urdfStrSplit o | None => [] end) Hnd)
    as (Hudp & Htcp & Hgrpc).
  assert (eCONNECT_UDP <> eCONNECT_GUI /\ eCONNECT_TCP <> eCONNECT_GUI /\
          eCONNECT_GRPC <> eCONNECT_GUI) as (Hu & Ht & Hg).
  { revert Hnd. unfold case_labels.
    destruct BT_ENABLE_DART, BT_ENABLE_PHYSX, BT_ENABLE_MUJOCO; cbn [app];
      intros Hnd; rewrite !NoDup_cons, !not_elem_of_cons in Hnd; destruct_and!;
      repeat split; congruence. }
  unfold pybullet_connectPhysicsServer, bind, get_reg, ret.
  destruct (sNumPhysicsClients (reg s) >=? MAX_PHYSICS_CLIENTS) eqn:Hcap; [lia|].
  split; [|split]; intros Hm Hflag.
  - rewrite (Hudp Hm Hflag), Hm. destruct (Z.eqb_spec eCONNECT_UDP eCONNECT_GUI);
      [contradiction|reflexivity].
  - rewrite (Htcp Hm Hflag), Hm. destruct (Z.eqb_spec eCONNECT_TCP eCONNECT_GUI);
      [contradiction|reflexivity].
  - rewrite (Hgrpc Hm Hflag), Hm. destruct (Z.eqb_spec eCONNECT_GRPC eCONNECT_GUI);
      [contradiction|reflexivity].
Qed.

End Extras.

(** ** The sequence helpers *)

Section SequenceProps.

Context {Obj : Type} {py : PythonC_API Obj} {limits : MeshLimits}.

Lemma to_int_small (z : Z) : - 2 ^ 31 <= z < 2 ^ 31 -> to_int z = z.
Proof.
  intros Hz. unfold to_int.
  rewrite Z.mod_small by lia. lia.
Qed.

Lemma to_int_range (z : Z) : - 2 ^ 31 <= to_int z < 2 ^ 31.
Proof.
  unfold to_int.
  pose proof (Z.mod_pos_bound (z + 2 ^ 31) (2 ^ 32) ltac:(lia)). lia.
Qed.

(** Truncation to [int] does not raise a length. *)
Lemma to_int_le (z : Z) : -1 <= z -> to_int z <= z.
Proof.
  intros Hz. unfold to_int.
  pose proof (Z.mod_le (z + 2 ^ 31) (2 ^ 32) ltac:(lia) ltac:(lia)). lia.
Qed.

Lemma getFloatFromSequence_present (seq : Obj) (i : Z) (e : error_indicator) :
  has_item seq i = true ->
  getFloatFromSequence seq i e
  = Done (float_at seq i, if float_error seq i then PythonException else e).
Proof.
  unfold has_item, float_at, float_error, getFloatFromSequence.
  destruct (sequence_item seq i) as [it|]; [|discriminate]. intros _.
  destruct (PyFloat_AsDouble it); reflexivity.
Qed.

Lemma getFloatFromSequence_absent (seq : Obj) (i : Z) (e : error_indicator) :
  has_item seq i = false -> getFloatFromSequence seq i e = OutOfBounds.
Proof.
  unfold has_item, getFloatFromSequence.
  destruct (sequence_item seq i); [discriminate|reflexivity].
Qed.

Lemma getIntFromSequence_present (seq : Obj) (i : Z) (e : error_indicator) :
  has_item seq i = true ->
  exists e', getIntFromSequence seq i e = Done (int_at seq i, e').
Proof.
  unfold has_item, int_at, getIntFromSequence.
  destruct (sequence_item seq i) as [it|]; [|discriminate]. intros _.
  destruct (PyLong_AsLong it); eauto.
Qed.

Lemma has_items_step (seq : Obj) (i : Z) (n : nat) :
  has_items seq i (Z.of_nat (S n))
  = has_item seq i && has_items seq (i + 1) (Z.of_nat n).
Proof.
  unfold has_items. rewrite (seqZ_cons i) by lia. cbn [forallb].
  replace (Z.pred (Z.of_nat (S n))) with (Z.of_nat n) by lia.
  replace (Z.succ i) with (i + 1) by lia. reflexivity.
Qed.

(** The loop that fills the array: it reads past the items, or it stores
    every entry at its index. *)
Lemma fill_vector_spec (seq : Obj) (n : nat) :
  forall (i : Z) (pre post : list double) (e : error_indicator),
    0 <= i -> length pre = Z.to_nat i -> length post = n ->
    fill_vector seq i n (pre ++ post) e
    = if has_items seq i (Z.of_nat n)
      then Done (pre ++ (float_at seq <$> seqZ i (Z.of_nat n)),
                 if existsb (float_error seq) (seqZ i (Z.of_nat n))
                 then PythonException else e)
      else OutOfBounds.
Proof.
  induction n as [|n IH]; intros i pre post e Hi Hpre Hpost.
  - destruct post; [|discriminate]. reflexivity.
  - destruct post as [|x post]; [discriminate|].
    rewrite has_items_step. cbn [fill_vector].
    destruct (has_item seq i) eqn:Hitem; cbn [andb].
    2: { rewrite getFloatFromSequence_absent by exact Hitem. reflexivity. }
    rewrite getFloatFromSequence_present by exact Hitem.
    assert (<[Z.to_nat i := float_at seq i]> (pre ++ x :: post)
            = (pre ++ [float_at seq i]) ++ post) as ->.
    { rewrite <- Hpre, insert_app_r_alt by lia.
      rewrite Nat.sub_diag, <- app_assoc. reflexivity. }
    rewrite IH.
    + destruct (has_items seq (i + 1) (Z.of_nat n)); [|reflexivity].
      rewrite (seqZ_cons i (Z.of_nat (S n))) by lia.
      replace (Z.pred (Z.of_nat (S n))) with (Z.of_nat n) by lia.
      replace (Z.succ i) with (i + 1) by lia.
      cbn [fmap list_fmap existsb]. rewrite <- app_assoc. cbn [app].
      do 2 f_equal.
      destruct (float_error seq i); cbn [orb]; [|reflexivity].
      destruct (existsb _ _); reflexivity.
    + lia.
    + rewrite length_app. cbn [length]. lia.
    + cbn [length] in Hpost. lia.
Qed.

Lemma after_size_nonneg (o : Obj) (N : Z) (e : error_indicator) :
  0 <= N -> to_int (PySequence_Size o) = N ->
  after_size (PySequence_Size o) e = e.
Proof.
  intros HN Hlen. unfold after_size.
  destruct (PySequence_Size o =? -1) eqn:E; [|reflexivity].
  apply Z.eqb_eq in E. rewrite E in Hlen. vm_compute in Hlen. lia.
Qed.

(** [setVectorNd] on a sequence of the expected size. *)
Lemma setVectorNd_sized (N : Z) (asserts : bool) (o seq : Obj)
    (vector : list double) (e : error_indicator) :
  0 <= N ->
  PySequence_Fast o = Some seq ->
  to_int (PySequence_Size o) = N ->
  length vector = Z.to_nat N ->
  setVectorNd N asserts (Some o) vector e
  = if has_items seq 0 N
    then Done (1, float_at seq <$> seqZ 0 N,
               if existsb (float_error seq) (seqZ 0 N) then PythonException else e)
    else OutOfBounds.
Proof.
  intros HN Hfast Hlen Hvec. unfold setVectorNd. rewrite Hfast, Hlen.
  rewrite Z.eqb_refl. cbn [negb andb]. rewrite andb_false_r.
  pose proof (fill_vector_spec seq (Z.to_nat N) 0 [] vector
                (after_size (PySequence_Size o) e)
                ltac:(lia) eq_refl Hvec) as Hfill.
  cbn [app] in Hfill. rewrite Hfill, Z2Nat.id by exact HN.
  rewrite (after_size_nonneg o N) by assumption.
  destruct (has_items seq 0 N); reflexivity.
Qed.

End SequenceProps.

Section ExtractProps.

Context {Obj : Type} {py : PythonC_API Obj} {limits : MeshLimits}.

Lemma entry_values_length (dim : Z) (seq : Obj) (i : Z) :
  length (entry_values dim seq i)
  = if entry_ok dim seq i then Z.to_nat dim else 0%nat.
Proof.
  unfold entry_values, entry_ok, well_formed.
  destruct (PySequence_GetItem seq i) as [it|]; [|reflexivity].
  destruct (PySequence_Fast it) as [s|]; [|reflexivity].
  destruct (_ =? dim); [|reflexivity].
  rewrite length_fmap, length_seqZ. reflexivity.
Qed.

(** What [setVector2d] and [setVector3d] do with entry [i] in the loop. *)
Lemma entry_step (dim : Z) (seq : Obj) (i : Z) (vertex : list double)
    (e : error_indicator) :
  0 <= dim ->
  length vertex = Z.to_nat dim ->
  match entry_status dim seq i with
  | Abort => setVectorNd dim true (PySequence_GetItem seq i) vertex e = Abort
  | OutOfBounds =>
      setVectorNd dim true (PySequence_GetItem seq i) vertex e = OutOfBounds
  | Done b =>
      exists e',
        setVectorNd dim true (PySequence_GetItem seq i) vertex e
        = Done (if b then 1 else 0,
                if b then entry_values dim seq i else vertex, e')
  end.
Proof.
  intros Hdim Hlen.
  unfold entry_status, entry_aborts, entry_ok, entry_reads, entry_values, well_formed.
  destruct (PySequence_GetItem seq i) as [it|].
  2: { rewrite andb_false_r. eexists. reflexivity. }
  destruct (PySequence_Fast it) as [s|] eqn:Hfast.
  2: { rewrite andb_false_r. unfold setVectorNd. rewrite Hfast.
       eexists. reflexivity. }
  destruct (to_int (PySequence_Size it) =? dim) eqn:Hsize.
  - cbn [negb]. rewrite andb_false_r. apply Z.eqb_eq in Hsize.
    rewrite (setVectorNd_sized dim true it s vertex e Hdim Hfast Hsize Hlen).
    destruct (has_items s 0 dim); [|reflexivity].
    eexists. reflexivity.
  - cbn [negb]. rewrite andb_true_r. unfold setVectorNd. rewrite Hfast, Hsize.
    cbn [negb andb]. rewrite andb_true_r.
    destruct (negb NDEBUG); [reflexivity|]. eexists. reflexivity.
Qed.

Lemma store_all_app (pre : list double) (v : list double) :
  forall done rest : list double,
    Z.of_nat (length pre + length done + length v) < 2 ^ 31 ->
    (length v <= length rest)%nat ->
    store_all (pre ++ done ++ rest) (Z.of_nat (length pre))
              (Z.of_nat (length done)) v
    = Some (pre ++ done ++ v ++ drop (length v) rest).
Proof.
  induction v as [|x v IH]; intros done rest Hsmall Hfit.
  - reflexivity.
  - destruct rest as [|r rest]; [cbn [length] in Hfit; lia|].
    cbn [length] in Hsmall, Hfit. cbn [store_all].
    rewrite to_int_small by lia.
    unfold store. rewrite !length_app. cbn [length].
    replace ((0 <=? _) && (_ <? _)) with true
      by (symmetry; apply andb_true_intro; split;
          [apply Z.leb_le | apply Z.ltb_lt]; lia).
    replace (Z.to_nat (Z.of_nat (length pre) + Z.of_nat (length done)))
      with (length (pre ++ done)) by (rewrite length_app; lia).
    rewrite (app_assoc pre done), insert_app_r_alt, Nat.sub_diag by lia.
    cbn [insert list_insert].
    rewrite <- app_assoc.
    replace (done ++ x :: rest) with ((done ++ [x]) ++ rest)
      by (rewrite <- app_assoc; reflexivity).
    replace (Z.of_nat (length done) + 1) with (Z.of_nat (length (done ++ [x])))
      by (rewrite length_app; cbn [length]; lia).
    rewrite IH.
    + cbn [drop app]. rewrite <- !app_assoc. reflexivity.
    + rewrite length_app. cbn [length]. lia.
    + lia.
Qed.

(** A vector that does not fit behind [pre] and [done] is not stored. *)
Lemma store_all_short (pre : list double) (v : list double) :
  forall done rest : list double,
    Z.of_nat (length pre + length done + length v) < 2 ^ 31 ->
    (length rest < length v)%nat ->
    store_all (pre ++ done ++ rest) (Z.of_nat (length pre))
              (Z.of_nat (length done)) v
    = None.
Proof.
  induction v as [|x v IH]; intros done rest Hsmall Hshort.
  - cbn [length] in Hshort. lia.
  - cbn [length] in Hsmall, Hshort. cbn [store_all].
    rewrite to_int_small by lia.
    destruct rest as [|r rest].
    + unfold store. rewrite !length_app. cbn [length].
      replace (_ <? _) with false by (symmetry; apply Z.ltb_ge; lia).
      rewrite andb_false_r. reflexivity.
    + cbn [length] in Hshort.
      unfold store. rewrite !length_app. cbn [length].
      replace ((0 <=? _) && (_ <? _)) with true
        by (symmetry; apply andb_true_intro; split;
            [apply Z.leb_le | apply Z.ltb_lt]; lia).
      replace (Z.to_nat (Z.of_nat (length pre) + Z.of_nat (length done)))
        with (length (pre ++ done)) by (rewrite length_app; lia).
      rewrite (app_assoc pre done), insert_app_r_alt, Nat.sub_diag by lia.
      cbn [insert list_insert].
      rewrite <- app_assoc.
      replace (done ++ x :: rest) with ((done ++ [x]) ++ rest)
        by (rewrite <- app_assoc; reflexivity).
      replace (Z.of_nat (length done) + 1) with (Z.of_nat (length (done ++ [x])))
        by (rewrite length_app; cbn [length]; lia).
      apply IH.
      * rewrite length_app. cbn [length]. lia.
      * lia.
Qed.

Lemma extracted_step (dim : Z) (seq : Obj) (i : Z) (n : nat) :
  extracted dim seq i (Z.of_nat (S n))
  = entry_values dim seq i ++ extracted dim seq (i + 1) (Z.of_nat n).
Proof.
  unfold extracted. rewrite (seqZ_cons i) by lia.
  cbn [fmap list_fmap concat].
  replace (Z.pred (Z.of_nat (S n))) with (Z.of_nat n) by lia.
  replace (Z.succ i) with (i + 1) by lia. reflexivity.
Qed.

Lemma accepted_step (dim : Z) (seq : Obj) (i : Z) (n : nat) :
  accepted dim seq i (Z.of_nat (S n))
  = (if entry_ok dim seq i then 1 else 0) + accepted dim seq (i + 1) (Z.of_nat n).
Proof.
  unfold accepted. rewrite (seqZ_cons i) by lia.
  cbn [List.filter].
  replace (Z.pred (Z.of_nat (S n))) with (Z.of_nat n) by lia.
  replace (Z.succ i) with (i + 1) by lia.
  destruct (entry_ok dim seq i); cbn [length]; lia.
Qed.

Lemma outcome_step (dim : Z) (seq : Obj) (i : Z) (n : nat) :
  entries_outcome dim seq (seqZ i (Z.of_nat (S n)))
  = match entry_status dim seq i with
    | Abort => Abort
    | OutOfBounds => OutOfBounds
    | Done b =>
        match entries_outcome dim seq (seqZ (i + 1) (Z.of_nat n)) with
        | Done c => Done ((if b then 1 else 0) + c)
        | Abort => Abort
        | OutOfBounds => OutOfBounds
        end
    end.
Proof.
  rewrite (seqZ_cons i) by lia. cbn [entries_outcome].
  replace (Z.pred (Z.of_nat (S n))) with (Z.of_nat n) by lia.
  replace (Z.succ i) with (i + 1) by lia. reflexivity.
Qed.

Lemma accepted_bounds (dim : Z) (seq : Obj) (i : Z) (n : nat) :
  0 <= accepted dim seq i (Z.of_nat n) <= Z.of_nat n.
Proof.
  unfold accepted.
  pose proof (List.filter_length_le (entry_ok dim seq) (seqZ i (Z.of_nat n))) as Hle.
  rewrite length_seqZ in Hle. lia.
Qed.

(** When no entry fails, the entries taken are the well-formed ones. *)
Lemma outcome_Done (dim : Z) (seq : Obj) (l : list Z) (c : Z) :
  entries_outcome dim seq l = Done c ->
  c = Z.of_nat (length (List.filter (entry_ok dim seq) l)).
Proof.
  revert c. induction l as [|i l IH]; intros c Hout.
  - injection Hout as <-. reflexivity.
  - cbn [entries_outcome List.filter] in *. unfold entry_status in Hout.
    destruct (entry_aborts dim seq i); [discriminate|].
    destruct (entry_ok dim seq i).
    + destruct (entry_reads dim seq i); [|discriminate].
      destruct (entries_outcome dim seq l) as [| |c']; try discriminate.
      injection Hout as <-. rewrite (IH c' eq_refl). cbn [length]. lia.
    + destruct (entries_outcome dim seq l) as [| |c']; try discriminate.
      injection Hout as <-. rewrite (IH c' eq_refl). lia.
Qed.

(** Without [assert] the only failure is a read outside an item array. *)
Lemma outcome_release (dim : Z) (seq : Obj) (l : list Z) :
  NDEBUG = true ->
  entries_outcome dim seq l
  = if forallb (entry_reads dim seq) l
    then Done (Z.of_nat (length (List.filter (entry_ok dim seq) l)))
    else OutOfBounds.
Proof.
  intros Hrel. induction l as [|i l IH]; [reflexivity|].
  cbn [entries_outcome forallb List.filter]. rewrite IH.
  unfold entry_status, entry_aborts. rewrite Hrel. cbn [negb andb].
  destruct (entry_ok dim seq i) eqn:Hok.
  - destruct (entry_reads dim seq i); cbn [andb]; [|reflexivity].
    destruct (forallb _ l); [|reflexivity].
    cbn [length]. f_equal. lia.
  - assert (entry_reads dim seq i = true) as ->.
    { unfold entry_ok, well_formed in Hok. unfold entry_reads.
      destruct (PySequence_GetItem seq i) as [it|]; [|reflexivity].
      destruct (PySequence_Fast it); [|reflexivity].
      rewrite Hok. reflexivity. }
    cbn [andb]. destruct (forallb _ l); [|reflexivity]. f_equal.
Qed.

(** An entry that fires the [assert] is never passed. *)
Lemma outcome_aborting (dim : Z) (seq : Obj) (l : list Z) (i : Z) :
  In i l -> entry_aborts dim seq i = true ->
  (entries_outcome dim seq l = Abort \/ entries_outcome dim seq l = OutOfBounds).
Proof.
  intros Hin Hab. induction l as [|j l IH]; [contradiction|].
  cbn [entries_outcome].
  destruct Hin as [->|Hin].
  - unfold entry_status. rewrite Hab. left. reflexivity.
  - destruct (entry_status dim seq j) as [| |b]; [left|right|]; try reflexivity.
    destruct (IH Hin) as [->| ->]; [left|right]; reflexivity.
Qed.

(** ... and it aborts the loop when the entries before it hold their
    items. *)
Lemma outcome_aborting_first (dim : Z) (seq : Obj) (l1 l2 : list Z) (i : Z) :
  forallb (entry_reads dim seq) l1 = true ->
  entry_aborts dim seq i = true ->
  entries_outcome dim seq (l1 ++ i :: l2) = Abort.
Proof.
  intros Hreads Hab. induction l1 as [|j l1 IH]; cbn [app entries_outcome].
  - unfold entry_status. rewrite Hab. reflexivity.
  - cbn [forallb] in Hreads. apply andb_prop in Hreads as [Hj Hreads].
    rewrite (IH Hreads). unfold entry_status. rewrite Hj.
    destruct (entry_aborts dim seq j); [reflexivity|].
    destruct (entry_ok dim seq j); reflexivity.
Qed.

(** The dry run: [out] is the null pointer. *)
Lemma extract_loop_dry (dim : Z) (seq : Obj) (n : nat) :
  forall (i numOut : Z) (e : error_indicator),
    0 <= dim -> 0 <= numOut -> numOut + Z.of_nat n < 2 ^ 31 ->
    match entries_outcome dim seq (seqZ i (Z.of_nat n)) with
    | Abort => extract_loop dim seq i n numOut None e = Abort
    | OutOfBounds => extract_loop dim seq i n numOut None e = OutOfBounds
    | Done c =>
        exists e',
          extract_loop dim seq i n numOut None e = Done (numOut + c, None, e')
    end.
Proof.
  induction n as [|n IH]; intros i numOut e Hdim Hout Hsmall.
  - rewrite seqZ_nil by lia. cbn [entries_outcome extract_loop].
    exists e. do 3 f_equal. lia.
  - rewrite outcome_step. cbn [extract_loop].
    pose proof (entry_step dim seq i (replicate (Z.to_nat dim) 0)
                  (match PySequence_GetItem seq i with
                   | Some _ => e | None => PythonException end) Hdim
                  ltac:(apply length_replicate)) as Hstep.
    destruct (entry_status dim seq i) as [| |b].
    + rewrite Hstep. reflexivity.
    + rewrite Hstep. reflexivity.
    + destruct Hstep as [e2 ->]. destruct b.
      * cbn [Z.eqb]. rewrite to_int_small by lia.
        specialize (IH (i + 1) (numOut + 1) e2 Hdim ltac:(lia) ltac:(lia)).
        destruct (entries_outcome _ _ _) as [| |c]; [exact IH|exact IH|].
        destruct IH as [e' ->]. exists e'. do 3 f_equal. lia.
      * cbn [Z.eqb].
        specialize (IH (i + 1) numOut e2 Hdim ltac:(lia) ltac:(lia)).
        destruct (entries_outcome _ _ _) as [| |c]; [exact IH|exact IH|].
        destruct IH as [e' ->]. exists e'. do 3 f_equal.
Qed.

(** The fill run, on a buffer that is large enough. *)
Lemma extract_loop_fill (dim : Z) (seq : Obj) (n : nat) :
  forall (i numOut : Z) (pre rest : list double) (e : error_indicator),
    0 < dim -> 0 <= numOut ->
    Z.of_nat (length pre) = numOut * dim ->
    (numOut + Z.of_nat n) * dim < 2 ^ 31 ->
    (length (extracted dim seq i (Z.of_nat n)) <= length rest)%nat ->
    match entries_outcome dim seq (seqZ i (Z.of_nat n)) with
    | Abort => extract_loop dim seq i n numOut (Some (pre ++ rest)) e = Abort
    | OutOfBounds =>
        extract_loop dim seq i n numOut (Some (pre ++ rest)) e = OutOfBounds
    | Done c =>
        exists e',
          extract_loop dim seq i n numOut (Some (pre ++ rest)) e
          = Done (numOut + c,
                  Some (pre ++ extracted dim seq i (Z.of_nat n)
                        ++ drop (length (extracted dim seq i (Z.of_nat n))) rest),
                  e')
    end.
Proof.
  induction n as [|n IH];
    intros i numOut pre rest e Hdim Hout Hpre Hsmall Hfit.
  - unfold extracted. rewrite seqZ_nil by lia.
    cbn [entries_outcome extract_loop].
    exists e. cbn. do 3 f_equal. lia.
  - rewrite outcome_step. rewrite extracted_step in *.
    rewrite length_app in *.
    pose proof (entry_values_length dim seq i) as Hlen.
    cbn [extract_loop].
    pose proof (entry_step dim seq i (replicate (Z.to_nat dim) 0)
                  (match PySequence_GetItem seq i with
                   | Some _ => e | None => PythonException end) ltac:(lia)
                  ltac:(apply length_replicate)) as Hstep.
    destruct (entry_status dim seq i) as [| |b] eqn:Hstatus.
    + rewrite Hstep. reflexivity.
    + rewrite Hstep. reflexivity.
    + destruct Hstep as [e2 ->].
      assert (entry_ok dim seq i = b) as Hok.
      { unfold entry_status in Hstatus.
        destruct (entry_aborts dim seq i); [discriminate|].
        destruct (entry_ok dim seq i).
        - destruct (entry_reads dim seq i); [|discriminate].
          injection Hstatus as <-. reflexivity.
        - injection Hstatus as <-. reflexivity. }
      rewrite Hok in Hlen. destruct b.
      * cbn [Z.eqb].
        rewrite (to_int_small (numOut * dim)) by nia.
        rewrite (to_int_small (numOut + 1)) by nia.
        rewrite <- Hpre.
        pose proof (store_all_app pre (entry_values dim seq i) [] rest) as Hst.
        cbn [app length] in Hst. change (Z.of_nat 0) with 0 in Hst.
        rewrite Hst by (rewrite ?Hlen; nia). clear Hst.
        rewrite (app_assoc pre).
        assert (Z.of_nat (length (pre ++ entry_values dim seq i))
                = (numOut + 1) * dim) as Hpre'
          by (rewrite length_app, Hlen; nia).
        assert ((numOut + 1 + Z.of_nat n) * dim < 2 ^ 31) as Hsmall'
          by (replace (numOut + 1 + Z.of_nat n)
                with (numOut + Z.of_nat (S n)) by lia; assumption).
        assert (length (extracted dim seq (i + 1) (Z.of_nat n))
                <= length (drop (length (entry_values dim seq i)) rest))%nat
          as Hfit' by (rewrite length_drop; lia).
        specialize (IH (i + 1) (numOut + 1)
                      (pre ++ entry_values dim seq i)
                      (drop (length (entry_values dim seq i)) rest) e2
                      Hdim ltac:(lia) Hpre' Hsmall' Hfit').
        destruct (entries_outcome _ _ _) as [| |c]; [exact IH|exact IH|].
        destruct IH as [e' ->].
        exists e'. rewrite drop_drop, <- !app_assoc.
        do 3 f_equal. lia.
      * cbn [Z.eqb].
        destruct (entry_values dim seq i); [|discriminate].
        cbn [app length drop Nat.add] in *.
        assert ((numOut + Z.of_nat n) * dim < 2 ^ 31) as Hsmall' by nia.
        specialize (IH (i + 1) numOut pre rest e2 Hdim Hout Hpre Hsmall' Hfit).
        destruct (entries_outcome _ _ _) as [| |c]; [exact IH|exact IH|].
        destruct IH as [e' ->]. exists e'. do 3 f_equal.
Qed.

Lemma seqZ_to_nat (i n : Z) : seqZ i (Z.of_nat (Z.to_nat n)) = seqZ i n.
Proof.
  destruct (Z.le_gt_cases 0 n).
  - rewrite Z2Nat.id by assumption. reflexivity.
  - replace (Z.to_nat n) with 0%nat by lia. rewrite !seqZ_nil by lia. reflexivity.
Qed.

Lemma extracted_to_nat (dim : Z) (seq : Obj) (i n : Z) :
  extracted dim seq i (Z.of_nat (Z.to_nat n)) = extracted dim seq i n.
Proof. unfold extracted. rewrite seqZ_to_nat. reflexivity. Qed.

Lemma accepted_to_nat (dim : Z) (seq : Obj) (i n : Z) :
  accepted dim seq i (Z.of_nat (Z.to_nat n)) = accepted dim seq i n.
Proof. unfold accepted. rewrite seqZ_to_nat. reflexivity. Qed.

Lemma extracted_length (dim : Z) (seq : Obj) (n : nat) :
  forall i : Z,
    0 <= dim ->
    Z.of_nat (length (extracted dim seq i (Z.of_nat n)))
    = accepted dim seq i (Z.of_nat n) * dim.
Proof.
  induction n as [|n IH]; intros i Hdim.
  - unfold extracted, accepted. rewrite seqZ_nil by lia. reflexivity.
  - rewrite extracted_step, accepted_step, length_app, Nat2Z.inj_add, IH
      by assumption.
    rewrite entry_values_length.
    destruct (entry_ok dim seq i); lia.
Qed.

(** A buffer too short for the entries taken is overrun. *)
Lemma extract_loop_short (dim : Z) (seq : Obj) (n : nat) :
  forall (i numOut c : Z) (pre rest : list double) (e : error_indicator),
    0 < dim -> 0 <= numOut ->
    Z.of_nat (length pre) = numOut * dim ->
    (numOut + Z.of_nat n) * dim < 2 ^ 31 ->
    entries_outcome dim seq (seqZ i (Z.of_nat n)) = Done c ->
    Z.of_nat (length rest) < c * dim ->
    extract_loop dim seq i n numOut (Some (pre ++ rest)) e = OutOfBounds.
Proof.
  induction n as [|n IH];
    intros i numOut c pre rest e Hdim Hout Hpre Hsmall Hdone Hshort.
  - rewrite seqZ_nil in Hdone by lia. injection Hdone as <-. lia.
  - rewrite outcome_step in Hdone.
    pose proof (entry_values_length dim seq i) as Hlen.
    cbn [extract_loop].
    pose proof (entry_step dim seq i (replicate (Z.to_nat dim) 0)
                  (match PySequence_GetItem seq i with
                   | Some _ => e | None => PythonException end) ltac:(lia)
                  ltac:(apply length_replicate)) as Hstep.
    destruct (entry_status dim seq i) as [| |b] eqn:Hstatus; try discriminate.
    destruct Hstep as [e2 ->].
    assert (entry_ok dim seq i = b) as Hok.
    { unfold entry_status in Hstatus.
      destruct (entry_aborts dim seq i); [discriminate|].
      destruct (entry_ok dim seq i).
      - destruct (entry_reads dim seq i); [|discriminate].
        injection Hstatus as <-. reflexivity.
      - injection Hstatus as <-. reflexivity. }
    rewrite Hok in Hlen.
    destruct (entries_outcome dim seq (seqZ (i + 1) (Z.of_nat n))) as [| |c']
      eqn:Hrest; try discriminate.
    injection Hdone as <-.
    assert ((numOut + Z.of_nat n) * dim < 2 ^ 31) as Hsmall0 by nia.
    destruct b.
    + cbn [Z.eqb].
      rewrite (to_int_small (numOut * dim)) by nia.
      rewrite (to_int_small (numOut + 1)) by nia.
      rewrite <- Hpre.
      destruct (decide (length rest < length (entry_values dim seq i))%nat)
        as [Hnow|Hlater].
      * pose proof (store_all_short pre (entry_values dim seq i) [] rest) as Hst.
        cbn [app length] in Hst. change (Z.of_nat 0) with 0 in Hst.
        rewrite Hst by (rewrite ?Hlen; nia). reflexivity.
      * pose proof (store_all_app pre (entry_values dim seq i) [] rest) as Hst.
        cbn [app length] in Hst. change (Z.of_nat 0) with 0 in Hst.
        rewrite Hst by (rewrite ?Hlen; nia). clear Hst.
        rewrite (app_assoc pre).
        assert (Z.of_nat (length (pre ++ entry_values dim seq i))
                = (numOut + 1) * dim) as Hpre'
          by (rewrite length_app, Hlen; nia).
        assert ((numOut + 1 + Z.of_nat n) * dim < 2 ^ 31) as Hsmall'
          by (replace (numOut + 1 + Z.of_nat n)
                with (numOut + Z.of_nat (S n)) by lia; assumption).
        assert (Z.of_nat (length (drop (length (entry_values dim seq i)) rest))
                < c' * dim) as Hshort'
          by (rewrite length_drop, Hlen; nia).
        exact (IH (i + 1) (numOut + 1) c' _ _ e2 Hdim ltac:(lia) Hpre' Hsmall'
                 Hrest Hshort').
    + cbn [Z.eqb].
      assert (Z.of_nat (length rest) < c' * dim) as Hshort' by lia.
      exact (IH (i + 1) numOut c' pre rest e2 Hdim Hout Hpre Hsmall0 Hrest Hshort').
Qed.

Lemma indices_loop_dry (seq : Obj) (n : nat) :
  forall (i numOut : Z) (e : error_indicator),
    0 <= numOut -> numOut + Z.of_nat n < 2 ^ 31 ->
    (forall k, i <= k < i + Z.of_nat n -> has_item seq k = true) ->
    exists e',
      indices_loop seq i n numOut None e = Done (numOut + Z.of_nat n, None, e').
Proof.
  induction n as [|n IH]; intros i numOut e Hout Hsmall Hitems.
  - exists e. cbn [indices_loop]. do 3 f_equal. lia.
  - cbn [indices_loop].
    destruct (getIntFromSequence_present seq i e (Hitems i ltac:(lia)))
      as [e1 ->].
    rewrite to_int_small by lia.
    destruct (IH (i + 1) (numOut + 1) e1 ltac:(lia) ltac:(lia)) as [e' ->].
    { intros k Hk. apply Hitems. lia. }
    exists e'. do 3 f_equal. lia.
Qed.

Lemma indices_loop_fill (seq : Obj) (n : nat) :
  forall (i numOut : Z) (pre rest : list Z) (e : error_indicator),
    0 <= numOut -> numOut + Z.of_nat n < 2 ^ 31 ->
    Z.of_nat (length pre) = numOut ->
    (n <= length rest)%nat ->
    (forall k, i <= k < i + Z.of_nat n -> has_item seq k = true) ->
    exists e',
      indices_loop seq i n numOut (Some (pre ++ rest)) e
      = Done (numOut + Z.of_nat n,
              Some (pre ++ (int_at seq <$> seqZ i (Z.of_nat n)) ++ drop n rest),
              e').
Proof.
  induction n as [|n IH]; intros i numOut pre rest e Hout Hsmall Hpre Hfit Hitems.
  - exists e. cbn [indices_loop]. rewrite seqZ_nil by lia.
    cbn [fmap list_fmap app drop]. do 3 f_equal. lia.
  - destruct rest as [|r rest]; [cbn [length] in Hfit; lia|].
    cbn [length] in Hfit. cbn [indices_loop].
    destruct (getIntFromSequence_present seq i e (Hitems i ltac:(lia)))
      as [e1 ->].
    unfold store. rewrite length_app. cbn [length].
    replace ((0 <=? _) && (_ <? _)) with true
      by (symmetry; apply andb_true_intro; split;
          [apply Z.leb_le | apply Z.ltb_lt]; lia).
    rewrite to_int_small by lia.
    replace (Z.to_nat numOut) with (length pre) by lia.
    rewrite insert_app_r_alt, Nat.sub_diag by lia.
    cbn [insert list_insert].
    replace (pre ++ int_at seq i :: rest)
      with ((pre ++ [int_at seq i]) ++ rest)
      by (rewrite <- app_assoc; reflexivity).
    destruct (IH (i + 1) (numOut + 1) (pre ++ [int_at seq i]) rest e1)
      as [e' ->].
    + lia.
    + lia.
    + rewrite length_app. cbn [length]. lia.
    + lia.
    + intros k Hk. apply Hitems. lia.
    + exists e'. rewrite (seqZ_cons i) by lia.
      replace (Z.pred (Z.of_nat (S n))) with (Z.of_nat n) by lia.
      replace (Z.succ i) with (i + 1) by lia.
      cbn [fmap list_fmap drop app]. rewrite <- !app_assoc.
      do 3 f_equal. lia.
Qed.

(** Within its size, the object [PySequence_Fast] returned holds items. *)
Lemma fast_copy_has_items (o seq : Obj) (k : Z) :
  PySequence_Fast o = Some seq ->
  0 <= k < to_int (PySequence_Size seq) ->
  has_item seq k = true.
Proof.
  intros Hfast Hk. unfold has_item, sequence_item.
  pose proof (PySequence_Size_lower seq) as Hlower.
  pose proof (to_int_le (PySequence_Size seq) Hlower) as Hle.
  pose proof (PySequence_Fast_items o seq k Hfast ltac:(lia)) as Hitem.
  destruct (if PyList_Check seq then PyList_GET_ITEM seq k
            else PyTuple_GET_ITEM seq k); [reflexivity|contradiction].
Qed.


(** X20: given an argument that is not a sequence of [N] entries (a null
    pointer, an object that is no sequence, a sequence of another length),
    [setVector2d], [setVector3d] and [setVector4d] return 0 and leave the
    array as it was, in a build without [assert] (for [setVector4d] in any
    build); for an object that is not null they also clear the Python error
    indicator, whatever it held. *)
Theorem setVector_rejects_silently (N : Z) (asserts : bool)
    (obVec : option Obj) (vector : list double) (e : error_indicator) :
  well_formed N obVec = false ->
  NDEBUG = true \/ asserts = false ->
  setVectorNd N asserts obVec vector e
  = Done (0, vector, match obVec with Some _ => NoException | None => e end).
Proof.
  intros Hwf Hassert. unfold setVectorNd, well_formed in *.
  destruct obVec as [o|]; [|reflexivity].
  destruct (PySequence_Fast o) as [seq|]; [|reflexivity].
  rewrite Hwf.
  replace (asserts && negb NDEBUG) with false
    by (destruct Hassert as [-> | ->]; [rewrite andb_false_r|]; reflexivity).
  reflexivity.
Qed.


(** X23: in a build that keeps [assert], [extractVertices] and [extractUVs]
    do not return when some entry of the sequence is itself a sequence of
    another length than [dim]: such an entry is not skipped.  The [assert]
    aborts the process, unless an entry before it that is taken is shorter
    than its size, in which case the call has read past its items before. *)
Theorem extract_debug_aborts (dim : Z) (message : string) (o seq it s : Obj)
    (i : Z) (e : error_indicator) :
  NDEBUG = false ->
  0 <= dim ->
  PySequence_Fast o = Some seq ->
  to_int (PySequence_Size seq) <= B3_MAX_NUM_VERTICES ->
  0 <= i < to_int (PySequence_Size seq) ->
  PySequence_GetItem seq i = Some it ->
  PySequence_Fast it = Some s ->
  to_int (PySequence_Size it) <> dim ->
  (extract_vectors dim message (Some o) None e = Abort \/
   extract_vectors dim message (Some o) None e = OutOfBounds) /\
  (forallb (entry_reads dim seq) (seqZ 0 i) = true ->
   extract_vectors dim message (Some o) None e = Abort).
Proof.
  intros Hdebug Hdim Hfast Hsrc Hi Hitem Hitfast Hlen.
  unfold extract_vectors. rewrite Hfast.
  replace (_ >? _) with false by (symmetry; rewrite Z.gtb_ltb; apply Z.ltb_ge; lia).
  pose proof (to_int_range (PySequence_Size seq)) as Hrange.
  set (numSrc := to_int (PySequence_Size seq)) in *.
  pose proof (extract_loop_dry dim seq (Z.to_nat numSrc) 0 0
                (after_size (PySequence_Size seq) e)
                Hdim ltac:(lia) ltac:(lia)) as Hdry.
  rewrite seqZ_to_nat in Hdry.
  assert (entry_aborts dim seq i = true) as Hab.
  { unfold entry_aborts. rewrite Hdebug, Hitem, Hitfast. cbn [negb andb].
    apply negb_true_iff, Z.eqb_neq. assumption. }
  split.
  - destruct (outcome_aborting dim seq (seqZ 0 numSrc) i) as [Hout|Hout].
    + apply list_elem_of_In, elem_of_seqZ. lia.
    + exact Hab.
    + rewrite Hout in Hdry. left. exact Hdry.
    + rewrite Hout in Hdry. right. exact Hdry.
  - intros Hreads.
    assert (seqZ 0 numSrc
            = seqZ 0 i ++ i :: seqZ (Z.succ i) (Z.pred (numSrc - i))) as Hsplit.
    { replace numSrc with (i + (numSrc - i)) at 1 by lia.
      rewrite seqZ_app, (seqZ_cons (0 + i)) by lia. reflexivity. }
    rewrite Hsplit, (outcome_aborting_first dim seq _ _ _ Hreads Hab) in Hdry.
    exact Hdry.
Qed.


(** X25: a sequence with more entries than the limit is refused by
    [extractVertices], [extractUVs] and [extractIndices] before any entry
    is read: they return 0, write nothing to the buffer and set
    [BulletError]; the [maxNum...] argument plays no part, the limit is
    always [B3_MAX_NUM_VERTICES], resp. [B3_MAX_NUM_INDICES]. *)
Theorem extract_over_limit (o seq : Obj) (maxNum : Z) (e : error_indicator) :
  PySequence_Fast o = Some seq ->
  (B3_MAX_NUM_VERTICES < to_int (PySequence_Size seq) ->
   forall vertices,
     extractVertices (Some o) vertices maxNum e
     = Done (0, vertices,
             Raised (BulletError "Number of vertices exceeds the maximum.")) /\
     extractUVs (Some o) vertices maxNum e
     = Done (0, vertices,
             Raised (BulletError "Number of uvs exceeds the maximum."))) /\
  (B3_MAX_NUM_INDICES < to_int (PySequence_Size seq) ->
   forall indices,
     extractIndices (Some o) indices maxNum e
     = Done (0, indices,
             Raised (BulletError "Number of indices exceeds the maximum."))).
Proof.
  intros Hfast.
  unfold extractVertices, extractUVs, extract_vectors, extractIndices.
  rewrite Hfast.
  split; [intros Hover vertices | intros Hover indices];
    replace (_ >? _) with true
      by (symmetry; rewrite Z.gtb_ltb; apply Z.ltb_lt; exact Hover);
    [split|]; reflexivity.
Qed.

(** X26: [extractVertices] and [extractUVs] never check the size of the
    buffer they fill.  In a build without [assert], on a sequence within the
    limit whose taken entries hold their items, a buffer with fewer than
    [dim] doubles per taken entry is overrun: the call writes outside it,
    whatever [maxNumVertices] was passed. *)
Theorem extract_overruns_short_buffer (dim : Z) (message : string)
    (o seq : Obj) (buf : list double) (e : error_indicator) :
  NDEBUG = true ->
  0 < dim -> dim * B3_MAX_NUM_VERTICES < 2 ^ 31 ->
  PySequence_Fast o = Some seq ->
  to_int (PySequence_Size seq) <= B3_MAX_NUM_VERTICES ->
  forallb (entry_reads dim seq) (seqZ 0 (to_int (PySequence_Size seq))) = true ->
  Z.of_nat (length buf) < accepted dim seq 0 (to_int (PySequence_Size seq)) * dim ->
  extract_vectors dim message (Some o) (Some buf) e = OutOfBounds.
Proof.
  intros Hrel Hdim Hlimit Hfast Hsrc Hreads Hshort. unfold extract_vectors.
  rewrite Hfast.
  replace (_ >? _) with false by (symmetry; rewrite Z.gtb_ltb; apply Z.ltb_ge; lia).
  set (numSrc := to_int (PySequence_Size seq)) in *.
  apply (extract_loop_short dim seq (Z.to_nat numSrc) 0 0
           (accepted dim seq 0 numSrc) [] buf).
  - exact Hdim.
  - lia.
  - reflexivity.
  - nia.
  - rewrite seqZ_to_nat, (outcome_release dim seq _ Hrel), Hreads. reflexivity.
  - exact Hshort.
Qed.

End ExtractProps.

(** ** The two passes of the callers *)

Section TwoPasses.

Context {Obj : Type} (py1 py2 : PythonC_API Obj) {limits : MeshLimits}.

Lemma same_has_items (seq : Obj) (l : list Z) :
  same_sequences py1 py2 ->
  forallb (@has_item Obj py1 seq) l = forallb (@has_item Obj py2 seq) l.
Proof.
  intros Hsame. induction l as [|k l IH]; [reflexivity|].
  cbn [forallb]. rewrite IH, (same_items _ _ Hsame). reflexivity.
Qed.

Lemma same_entry_status (dim : Z) (seq : Obj) (i : Z) :
  same_sequences py1 py2 ->
  @entry_status Obj py1 limits dim seq i = @entry_status Obj py2 limits dim seq i.
Proof.
  intros Hsame.
  unfold entry_status, entry_aborts, entry_ok, entry_reads, well_formed, has_items.
  rewrite (same_GetItem _ _ Hsame).
  destruct (@PySequence_GetItem Obj py2 seq i) as [it|]; [|reflexivity].
  rewrite (same_Fast _ _ Hsame), (same_Size _ _ Hsame).
  destruct (@PySequence_Fast Obj py2 it) as [s|]; [|reflexivity].
  rewrite (same_has_items s _ Hsame). reflexivity.
Qed.

Lemma same_outcome (dim : Z) (seq : Obj) (l : list Z) :
  same_sequences py1 py2 ->
  @entries_outcome Obj py1 limits dim seq l
  = @entries_outcome Obj py2 limits dim seq l.
Proof.
  intros Hsame. induction l as [|i l IH]; [reflexivity|].
  cbn [entries_outcome]. rewrite IH, (same_entry_status dim seq i Hsame).
  reflexivity.
Qed.


End TwoPasses.


(** ** The claims on the scripted world *)

Import Example.

(** A table of full length without a zero entry is full. *)
Lemma registry_full_Forall (r : Registry) :
  length (sPhysicsClients1 r) = Z.to_nat MAX_PHYSICS_CLIENTS ->
  Forall (fun sm => sm <> 0) (sPhysicsClients1 r) ->
  registry_full r.
Proof.
  intros Hlen Hall i Hi.
  destruct (lookup_lt_is_Some_2 (sPhysicsClients1 r) (Z.to_nat i)) as [x Hx].
  { rewrite Hlen. unfold MAX_PHYSICS_CLIENTS in *. lia. }
  rewrite (aget_lookup _ _ _ Hx). exact (proj1 (Forall_lookup _ _) Hall _ _ Hx).
Qed.

Lemma filled_reachable : reachable filled.
Proof. apply reachable_run_calls, reachable_init. Qed.

Lemma filled_full : registry_full (reg filled).
Proof.
  apply registry_full_Forall.
  - vm_compute. reflexivity.
  - apply (bool_decide_unpack _). vm_compute. exact I.
Qed.

(** C1, evaluated: on a fresh process, a [connect(DIRECT)] whose
    sync-body-info round trip is answered with a status other than
    [CMD_SYNC_BODY_INFO_COMPLETED] returns [-1], disconnects the transport
    and leaves both tables zeroed, but leaves [sNumPhysicsClients] at [2],
    not at [0]; the same happens when the sync-user-data round trip is the
    one that fails. *)
Theorem handshake_failure_count_not_restored :
  (run_call connect_direct (initial_system (scripted [5]))
   = (PyReturn (PyInt (-1)),
      {| reg := {| sPhysicsClients1 := sPhysicsClients1 initial_registry;
                   sPhysicsClientsGUI := sPhysicsClientsGUI initial_registry;
                   sNumPhysicsClients := 2 |};
         world := {| next_handle := 1001; closed := [1000]; script := [] |};
         calls := [EvConnect b3ConnectPhysicsDirect 1000; EvCanSubmit 1000 true;
                   EvSubmit 1000 SyncBodyInfoCommand 5; EvDisconnect 1000] |})) /\
  (run_call connect_direct
     (initial_system (scripted [CMD_SYNC_BODY_INFO_COMPLETED; 5]))
   = (PyReturn (PyInt (-1)),
      {| reg := {| sPhysicsClients1 := sPhysicsClients1 initial_registry;
                   sPhysicsClientsGUI := sPhysicsClientsGUI initial_registry;
                   sNumPhysicsClients := 2 |};
         world := {| next_handle := 1001; closed := [1000]; script := [] |};
         calls := [EvConnect b3ConnectPhysicsDirect 1000; EvCanSubmit 1000 true;
                   EvSubmit 1000 SyncBodyInfoCommand CMD_SYNC_BODY_INFO_COMPLETED;
                   EvSubmit 1000 SyncUserDataCommand 5; EvDisconnect 1000] |})) /\
  sNumPhysicsClients (reg (initial_system (scripted [5]))) = 0.
Proof. repeat split; vm_compute; reflexivity. Qed.

(** C2, evaluated: on a fresh process, [connect(GUI)] returns id 0 and the
    [connect(GUI_SERVER)] that follows is not refused: it returns id 1, and
    then both connections are open at once, one recorded as [eCONNECT_GUI]
    and one as [eCONNECT_GUI_SERVER]. *)
Theorem gui_server_accepted_while_gui_open :
  fst gui_then_gui_server = [PyReturn (PyInt 0); PyReturn (PyInt 1)] /\
  aget (sPhysicsClientsGUI (reg (snd gui_then_gui_server))) 0 = eCONNECT_GUI /\
  aget (sPhysicsClientsGUI (reg (snd gui_then_gui_server))) 1 = eCONNECT_GUI_SERVER /\
  fst (run_call (IsConnected 0) (snd gui_then_gui_server)) = PyReturn (PyInt 1) /\
  fst (run_call (IsConnected 1) (snd gui_then_gui_server)) = PyReturn (PyInt 1).
Proof. repeat split; vm_compute; reflexivity. Qed.

(** C3, the claim refuted: with client 0 open, the first [disconnect(0)]
    returns [None] and frees the slot; the second one, on the freed id,
    raises [NotConnectedError], so the caller does not see the same thing
    from the second call as from the first. *)
Lemma disconnect_freed_id_raises :
  fst (run_call (Disconnect 0) connected) = PyReturn Py_None /\
  aget (sPhysicsClients1 (reg disconnected)) 0 = 0 /\
  fst (run_call (Disconnect 0) disconnected) = PyRaise not_connected /\
  fst (run_call (Disconnect 0) disconnected)
    <> fst (run_call (Disconnect 0) connected).
Proof. repeat split; try (vm_compute; reflexivity). vm_compute. discriminate. Qed.

(** C6, the claim refuted: after a successful [disconnect(0)], the
    per-connection calls [isConnected(0)] and [getConnectionInfo(0)] do not
    fail with [NotConnectedError]; they return normally. *)
Lemma introspection_after_disconnect_returns :
  run_call (Disconnect 0) connected = (PyReturn Py_None, disconnected) /\
  fst (run_call (IsConnected 0) disconnected) = PyReturn (PyInt 0) /\
  fst (run_call (IsConnected 0) disconnected) <> PyRaise not_connected /\
  fst (run_call (GetConnectionInfo 0) disconnected)
    = PyReturn (PyDict [("isConnected"%string, PyInt 0);
                        ("connectionMethod"%string, PyInt 0)]).
Proof. repeat split; try (vm_compute; reflexivity). vm_compute. discriminate. Qed.

(** C5, the claim refuted: with all 1024 slots occupied, the next [connect]
    hands no id to the caller, not even the invalid id [-1] that its other
    failure paths return: it ends in [return NULL] with [BulletError] set. *)
Lemma connect_at_capacity_returns_no_id :
  registry_full (reg filled) /\
  fst (run_call connect_direct filled) = PyRaise (BulletError capacity_message) /\
  fst (run_call connect_direct filled) <> PyReturn (PyInt (-1)) /\
  (forall v, fst (run_call connect_direct filled) <> PyReturn v).
Proof.
  assert (fst (run_call connect_direct filled)
          = PyRaise (BulletError capacity_message)) as Hraise
    by (vm_compute; reflexivity).
  split; [exact filled_full|]. split; [exact Hraise|].
  rewrite Hraise. split; [discriminate|]. intros v. discriminate.
Qed.

(** C10, the claim refuted: [isConnected] and [getConnectionInfo] are not
    total over the integers.  Called with [2 ^ 31], which does not fit the
    C [int] of the ["i"] argument, they do not report not-connected: the
    argument parser fails and they end in [OverflowError]. *)
Lemma introspection_overflow_raises :
  fst (run_call (IsConnected (2 ^ 31)) connected) = PyRaise PyExc_OverflowError /\
  fst (run_call (GetConnectionInfo (2 ^ 31)) connected)
    = PyRaise PyExc_OverflowError /\
  fst (run_call (IsConnected (2 ^ 31)) connected) <> PyReturn (PyInt 0).
Proof. repeat split; try (vm_compute; reflexivity). vm_compute. discriminate. Qed.

(** *** Instances of the theorems *)

Lemma getPhysicsClient_resolves_witness :
  fst (getPhysicsClient 0 server_lost) = 0 /\
  sNumPhysicsClients (reg (snd (getPhysicsClient 0 server_lost)))
    = sNumPhysicsClients (reg server_lost) - 1.
Proof.
  destruct (proj1 (proj2 (proj2 (getPhysicsClient_resolves 0 server_lost))))
    as (Hnull & _ & _ & _ & _ & _ & Hcount).
  - vm_compute. split; [discriminate|reflexivity].
  - vm_compute. discriminate.
  - vm_compute. reflexivity.
  - split; [exact Hnull|exact Hcount].
Defined.

Lemma connect_handshake_trace_witness :
  exists c sm,
    sm <> 0 /\
    calls connected = calls (initial_system fresh) ++
      [EvConnect c sm; EvCanSubmit sm true;
       EvSubmit sm SyncBodyInfoCommand CMD_SYNC_BODY_INFO_COMPLETED;
       EvSubmit sm SyncUserDataCommand CMD_SYNC_USER_DATA_COMPLETED] /\
    aget (sPhysicsClients1 (reg connected)) 0 = sm.
Proof.
  apply (connect_handshake_trace (ByKey eCONNECT_DIRECT None None)
           (initial_system fresh) 0 connected).
  - vm_compute. reflexivity.
  - lia.
Defined.

(** With clients 0 and 2 open and slot 1 freed by [disconnect(1)], the next
    [connect] returns id 1. *)
Lemma connect_returns_smallest_free_witness :
  (1 < MAX_PHYSICS_CLIENTS /\
   aget (sPhysicsClients1 (reg middle_freed)) 1 = 0 /\
   forall j, 0 <= j < 1 -> aget (sPhysicsClients1 (reg middle_freed)) j <> 0) /\
  (reg middle_freed = initial_registry -> 1 = 0) /\
  (forall j s0 s1,
     pybullet_disconnectPhysicsServer j s0 = (PyReturn Py_None, s1) ->
     reg middle_freed = reg s1 -> 1 <= j).
Proof.
  apply (connect_returns_smallest_free (ByKey eCONNECT_DIRECT None None)
           middle_freed 1 (snd (run_call connect_direct middle_freed))).
  - vm_compute. reflexivity.
  - lia.
Defined.

Lemma introspection_total_witness :
  fst (pybullet_isConnected (-1) connected) = PyReturn (PyInt 0) /\
  fst (pybullet_getConnectionInfo (-1) connected)
    = PyReturn (PyDict [("isConnected"%string, PyInt 0);
                        ("connectionMethod"%string, PyInt 0)]) /\
  fst (pybullet_stepSimulation (-1) connected) = PyRaise not_connected.
Proof.
  assert (INT_MIN <= -1 <= INT_MAX) as Hint by (vm_compute; split; discriminate).
  apply (proj2 (introspection_total (-1) connected Hint)). left. lia.
Defined.

Lemma after_disconnect_not_connected_witness :
  pybullet_stepSimulation 0 disconnected = (PyRaise not_connected, disconnected) /\
  pybullet_isConnected 0 disconnected = (PyReturn (PyInt 0), disconnected).
Proof.
  destruct (after_disconnect_not_connected 0 connected disconnected disconnected)
    as (_ & _ & Hstep & _ & _ & _ & Hconn & _).
  - vm_compute. reflexivity.
  - reflexivity.
  - split; [exact Hstep|exact Hconn].
Defined.

Lemma valid_ids_bounded_witness :
  Z.of_nat (length [0; 1]) <= MAX_PHYSICS_CLIENTS /\
  occupied (sPhysicsClients1 (reg two_clients)) <= MAX_PHYSICS_CLIENTS /\
  MAX_PHYSICS_CLIENTS = 1024.
Proof.
  apply (valid_ids_bounded two_clients [0; 1]).
  - apply reachable_run_calls, reachable_init.
  - apply (bool_decide_unpack _). vm_compute. exact I.
  - intros i Hi. apply list_elem_of_In in Hi.
    destruct Hi as [<-|[<-|[]]]; vm_compute; discriminate.
Defined.

Lemma connect_capacity_exceeded_witness :
  pybullet_connectPhysicsServer (ByKey eCONNECT_DIRECT None None) filled
    = (PyRaise (BulletError capacity_message), filled).
Proof.
  apply (connect_capacity_exceeded _ filled).
  - exact filled_reachable.
  - exact filled_full.
Defined.

(** The exit handler closes both clients of [two_clients] and zeroes the
    client table. *)
Lemma exit_closes_all :
  sPhysicsClients1 (reg (snd (b3pybulletExitFunc two_clients)))
    = sPhysicsClients1 initial_registry /\
  sNumPhysicsClients (reg (snd (b3pybulletExitFunc two_clients))) = 0 /\
  closed (world (snd (b3pybulletExitFunc two_clients))) = [1001; 1000].
Proof. repeat split; vm_compute; reflexivity. Qed.

(** *** Instances of the further properties *)

Lemma connected_reachable : reachable connected.
Proof. apply (reachable_call connect_direct), reachable_init. Qed.

Lemma reachable_registry_invariant_witness :
  length (sPhysicsClients1 (reg connected)) = 1024%nat /\
  length (sPhysicsClientsGUI (reg connected)) = 1024%nat /\
  0 <= occupied (sPhysicsClients1 (reg connected)) <= sNumPhysicsClients (reg connected) /\
  (forall i, 0 <= i < MAX_PHYSICS_CLIENTS ->
     aget (sPhysicsClients1 (reg connected)) i = 0 ->
     aget (sPhysicsClientsGUI (reg connected)) i = 0).
Proof.
  apply (reachable_registry_invariant connected).
  apply (reachable_call connect_direct), reachable_init.
Defined.

(** Every entry of a concrete array passes a test that [forallb] passes. *)
Lemma aget_forallb (q : Z -> bool) (a : list Z) k :
  forallb q a = true -> 0 <= k -> (Z.to_nat k < length a)%nat -> q (aget a k) = true.
Proof.
  intros Hall Hk Hlt. destruct (lookup_lt_is_Some_2 a (Z.to_nat k) Hlt) as [x Hx].
  rewrite (aget_lookup _ _ _ Hx).
  apply (proj1 (forallb_forall q a) Hall). apply list_elem_of_In.
  apply list_elem_of_lookup. eauto.
Qed.

Lemma counter_surplus_never_shrinks_witness :
  sNumPhysicsClients (reg (snd (run_call connect_direct (initial_system (scripted [5])))))
    - occupied (sPhysicsClients1
                  (reg (snd (run_call connect_direct (initial_system (scripted [5]))))))
  = sNumPhysicsClients (reg (initial_system (scripted [5])))
    - occupied (sPhysicsClients1 (reg (initial_system (scripted [5]))))
  \/
  (sNumPhysicsClients (reg (snd (run_call connect_direct (initial_system (scripted [5])))))
     - occupied (sPhysicsClients1
                   (reg (snd (run_call connect_direct (initial_system (scripted [5]))))))
   = sNumPhysicsClients (reg (initial_system (scripted [5])))
     - occupied (sPhysicsClients1 (reg (initial_system (scripted [5])))) + 2 /\
   (exists a, connect_direct = Connect a) /\
   fst (run_call connect_direct (initial_system (scripted [5]))) = PyReturn (PyInt (-1))).
Proof.
  apply (counter_surplus_never_shrinks connect_direct (initial_system (scripted [5]))).
  apply reachable_init.
Defined.

Lemma connect_failure_keeps_tables_witness :
  sPhysicsClients1
    (reg (snd (pybullet_connectPhysicsServer (ByKey eCONNECT_DIRECT None None)
                 (initial_system (scripted [5])))))
    = sPhysicsClients1 (reg (initial_system (scripted [5]))) /\
  sPhysicsClientsGUI
    (reg (snd (pybullet_connectPhysicsServer (ByKey eCONNECT_DIRECT None None)
                 (initial_system (scripted [5])))))
    = sPhysicsClientsGUI (reg (initial_system (scripted [5]))).
Proof.
  apply (connect_failure_keeps_tables (ByKey eCONNECT_DIRECT None None)
           (initial_system (scripted [5])) (PyReturn (PyInt (-1)))).
  - apply reachable_init.
  - vm_compute. reflexivity.
  - intros i Hi Heq. injection Heq as Heq. lia.
Defined.

Lemma connect_success_frame_witness :
  aget (sPhysicsClients1 (reg connected)) 0 <> 0 /\
  aget (sPhysicsClientsGUI (reg connected)) 0 = eCONNECT_DIRECT /\
  sNumPhysicsClients (reg connected) = sNumPhysicsClients (reg (initial_system fresh)) + 1 /\
  (forall j, 0 <= j -> j <> 0 ->
     aget (sPhysicsClients1 (reg connected)) j
       = aget (sPhysicsClients1 (reg (initial_system fresh))) j /\
     aget (sPhysicsClientsGUI (reg connected)) j
       = aget (sPhysicsClientsGUI (reg (initial_system fresh))) j).
Proof.
  apply (connect_success_frame (ByKey eCONNECT_DIRECT None None) (initial_system fresh)
           0 connected).
  - apply reachable_init.
  - vm_compute. reflexivity.
  - lia.
Defined.

Lemma connect_never_leaks_witness :
  (calls connected = calls (initial_system fresh) /\
   reg connected = reg (initial_system fresh) /\
   world connected = world (initial_system fresh)) \/
  (exists c, calls connected = calls (initial_system fresh) ++ [EvConnect c 0] /\
             reg connected = reg (initial_system fresh) /\
             PyReturn (PyInt 0) = PyReturn (PyInt (-1))) \/
  (exists c sm mid, sm <> 0 /\
     calls connected
       = calls (initial_system fresh) ++ (EvConnect c sm :: mid ++ [EvDisconnect sm]) /\
     PyReturn (PyInt 0) = PyReturn (PyInt (-1))) \/
  (exists c sm mid i, sm <> 0 /\ 0 <= i < MAX_PHYSICS_CLIENTS /\
     calls connected = calls (initial_system fresh) ++ (EvConnect c sm :: mid) /\
     (EvDisconnect sm ∉ mid) /\
     PyReturn (PyInt 0) = PyReturn (PyInt i) /\
     aget (sPhysicsClients1 (reg connected)) i = sm).
Proof.
  apply (connect_never_leaks (ByKey eCONNECT_DIRECT None None) (initial_system fresh)).
  - apply reachable_init.
  - vm_compute. reflexivity.
Defined.

Lemma connect_then_getConnectionInfo_witness :
  fst (pybullet_getConnectionInfo 0 connected)
    = PyReturn (PyDict [("isConnected"%string, PyInt 1);
                        ("connectionMethod"%string, PyInt eCONNECT_DIRECT)]) /\
  fst (pybullet_isConnected 0 connected) = PyReturn (PyInt 1) /\
  reg (snd (pybullet_getConnectionInfo 0 connected)) = reg connected /\
  reg (snd (pybullet_isConnected 0 connected)) = reg connected.
Proof.
  apply (connect_then_getConnectionInfo (ByKey eCONNECT_DIRECT None None)
           (initial_system fresh) 0 connected).
  - apply reachable_init.
  - vm_compute. reflexivity.
  - lia.
  - vm_compute. reflexivity.
  - vm_compute. reflexivity.
Defined.

Lemma connect_then_disconnect_witness :
  fst (pybullet_disconnectPhysicsServer 0 connected) = PyReturn Py_None /\
  reg (snd (pybullet_disconnectPhysicsServer 0 connected)) = reg (initial_system fresh).
Proof.
  apply (connect_then_disconnect (ByKey eCONNECT_DIRECT None None)
           (initial_system fresh) 0 connected).
  - apply reachable_init.
  - vm_compute. reflexivity.
  - lia.
  - vm_compute. reflexivity.
Defined.

Lemma gui_request_refused_iff_witness :
  pybullet_connectPhysicsServer (ByKey eCONNECT_GUI None None)
    (snd (run_call connect_gui (initial_system fresh)))
  = (PyRaise (BulletError exclusivity_message),
     snd (run_call connect_gui (initial_system fresh))).
Proof.
  destruct (gui_request_refused_iff (ByKey eCONNECT_GUI None None)
              (snd (run_call connect_gui (initial_system fresh)))) as [_ Hback].
  - apply (reachable_call connect_gui), reachable_init.
  - vm_compute. reflexivity.
  - reflexivity.
  - apply Hback. exists 0. split; [unfold MAX_PHYSICS_CLIENTS; lia|].
    left. vm_compute. reflexivity.
Defined.

Lemma other_slots_untouched_witness :
  aget (sPhysicsClients1 (reg (snd (run_call (Disconnect 0) two_clients)))) 1
    = aget (sPhysicsClients1 (reg two_clients)) 1 /\
  aget (sPhysicsClientsGUI (reg (snd (run_call (Disconnect 0) two_clients)))) 1
    = aget (sPhysicsClientsGUI (reg two_clients)) 1.
Proof.
  apply (other_slots_untouched (Disconnect 0) two_clients 0 1).
  - reflexivity.
  - lia.
  - lia.
Defined.

Lemma gui_request_after_disconnect_witness :
  fst (pybullet_connectPhysicsServer (ByKey eCONNECT_GUI None None)
         (snd (pybullet_disconnectPhysicsServer 0
                 (snd (run_call connect_gui (initial_system fresh))))))
  <> PyRaise (BulletError exclusivity_message).
Proof.
  apply (gui_request_after_disconnect (ByKey eCONNECT_GUI None None)
           (snd (run_call connect_gui (initial_system fresh))) 0).
  - vm_compute. discriminate.
  - vm_compute. discriminate.
  - intros k Hk Hne.
    rewrite <- (aget_aset_ne _ 0 k 0) by lia.
    apply Bool.negb_true_iff.
    apply (aget_forallb (fun x => negb (is_gui_entry x))); [|lia|].
    + vm_compute. reflexivity.
    + rewrite length_aset.
      replace (length _) with 1024%nat by (vm_compute; reflexivity).
      unfold MAX_PHYSICS_CLIENTS in Hk. lia.
  - vm_compute. reflexivity.
Defined.

Lemma disconnect_valid_id_witness :
  calls (snd (pybullet_disconnectPhysicsServer 0 connected))
    = calls connected ++ [EvCanSubmit (aget (sPhysicsClients1 (reg connected)) 0) true;
                          EvDisconnect (aget (sPhysicsClients1 (reg connected)) 0)] /\
  reg (snd (pybullet_disconnectPhysicsServer 0 connected))
    = clear_slot 0 (-1) (reg connected) /\
  ~ valid_id 0 (snd (pybullet_disconnectPhysicsServer 0 connected)).
Proof.
  apply (proj2 (disconnect_valid_id 0 connected)).
  vm_compute. discriminate.
Defined.

Lemma guarded_call_on_broken_connection_witness :
  with_client 0 (fun _ => ret (PyReturn Py_None)) server_lost
  = (PyRaise not_connected,
     {| reg := clear_slot 0 (-1) (reg server_lost);
        world := b3DisconnectSharedMemory
                   (aget (sPhysicsClients1 (reg server_lost)) 0)
                   (snd (b3CanSubmitCommand
                           (aget (sPhysicsClients1 (reg server_lost)) 0)
                           (world server_lost)));
        calls := calls server_lost
                   ++ [EvCanSubmit (aget (sPhysicsClients1 (reg server_lost)) 0) false;
                       EvDisconnect (aget (sPhysicsClients1 (reg server_lost)) 0)] |}).
Proof.
  apply (guarded_call_on_broken_connection 0 (fun _ => ret (PyReturn Py_None)) server_lost).
  - unfold MAX_PHYSICS_CLIENTS. lia.
  - vm_compute. discriminate.
  - vm_compute. reflexivity.
Defined.

Lemma stepSimulation_live_witness :
  fst (pybullet_stepSimulation 0 connected) = PyReturn (PyTuple []) /\
  reg (snd (pybullet_stepSimulation 0 connected)) = reg connected.
Proof.
  rewrite (stepSimulation_live 0 connected (world connected) (world connected) true).
  - vm_compute. split; reflexivity.
  - unfold MAX_PHYSICS_CLIENTS. lia.
  - vm_compute. discriminate.
  - vm_compute. reflexivity.
  - vm_compute. reflexivity.
Defined.

Lemma sync_keeps_connection_witness :
  fst (pybullet_syncBodyInfo 0 (set_world (scripted [5]) connected))
    = PyRaise (BulletError "Error in syncBodyzInfo command.") /\
  reg (snd (pybullet_syncBodyInfo 0 (set_world (scripted [5]) connected))) = reg connected.
Proof.
  rewrite (proj1 (sync_keeps_connection 0 (set_world (scripted [5]) connected)
                    (scripted [5])
                    ltac:(unfold MAX_PHYSICS_CLIENTS; lia)
                    ltac:(vm_compute; discriminate)
                    ltac:(vm_compute; reflexivity))).
  vm_compute. split; reflexivity.
Defined.

Lemma exit_handler_closes_every_transport_witness :
  sPhysicsClients1 (reg (snd (b3pybulletExitFunc two_clients)))
    = sPhysicsClients1 initial_registry /\
  sPhysicsClientsGUI (reg (snd (b3pybulletExitFunc two_clients)))
    = sPhysicsClientsGUI (reg two_clients) /\
  sNumPhysicsClients (reg (snd (b3pybulletExitFunc two_clients)))
    = sNumPhysicsClients (reg two_clients) - occupied (sPhysicsClients1 (reg two_clients)) /\
  0 <= sNumPhysicsClients (reg (snd (b3pybulletExitFunc two_clients))) /\
  calls (snd (b3pybulletExitFunc two_clients))
    = calls two_clients
        ++ (EvDisconnect <$> filter (fun sm => sm <> 0) (sPhysicsClients1 (reg two_clients))) /\
  world (snd (b3pybulletExitFunc two_clients))
    = foldl (fun w sm => b3DisconnectSharedMemory sm w) (world two_clients)
            (filter (fun sm => sm <> 0) (sPhysicsClients1 (reg two_clients))).
Proof.
  apply (exit_handler_closes_every_transport two_clients).
  apply reachable_run_calls, reachable_init.
Defined.

Lemma connect_unexpected_argument_witness :
  pybullet_connectPhysicsServer (ByKey 99 None None) connected
  = (PyRaise (BulletError "connectPhysicsServer unexpected argument"), connected).
Proof.
  apply (connect_unexpected_argument (ByKey 99 None None) connected).
  - vm_compute. reflexivity.
  - apply (bool_decide_unpack _). vm_compute. exact I.
Defined.

Lemma connect_disabled_transport_witness :
  pybullet_connectPhysicsServer (ByHost eCONNECT_UDP (Some "host"%string) (Some 7) None)
    connected
  = (PyRaise (BulletError "UDP is not enabled in this pybullet build"), connected).
Proof.
  apply (proj1 (connect_disabled_transport
                  (ByHost eCONNECT_UDP (Some "host"%string) (Some 7) None) connected
                  ltac:(apply (bool_decide_unpack _); vm_compute; exact I)
                  ltac:(vm_compute; reflexivity))).
  - reflexivity.
  - reflexivity.
Defined.

(** ** The sequence helpers on sample objects *)

Import ExampleSeq.


Lemma setVector_rejects_silently_witness :
  setVector4d (Some (VTuple [VFloat 1; VFloat 2])) [9; 9; 9; 9] PythonException
  = Done (0, [9; 9; 9; 9], NoException).
Proof.
  apply (setVector_rejects_silently 4 false
           (Some (VTuple [VFloat 1; VFloat 2])) [9; 9; 9; 9] PythonException).
  - reflexivity.
  - left. reflexivity.
Defined.



Lemma extract_debug_aborts_witness :
  @extractVertices pyval python debug_limits (Some vertices3) None 4 NoException
  = Abort.
Proof.
  apply (@extract_debug_aborts pyval python debug_limits 3
           "Number of vertices exceeds the maximum."
           vertices3 vertices3 (VTuple [VFloat 4; VFloat 5])
           (VTuple [VFloat 4; VFloat 5]) 1 NoException).
  - reflexivity.
  - lia.
  - reflexivity.
  - vm_compute. discriminate.
  - vm_compute. split; [discriminate | reflexivity].
  - reflexivity.
  - reflexivity.
  - vm_compute. discriminate.
  - vm_compute. reflexivity.
Defined.


Lemma extract_over_limit_witness :
  extractVertices (Some too_many) None 100 NoException
  = Done (0, None,
          Raised (BulletError "Number of vertices exceeds the maximum.")) /\
  extractIndices (Some too_many) (Some [7]) 100 NoException
  = Done (0, Some [7],
          Raised (BulletError "Number of indices exceeds the maximum.")).
Proof.
  assert (PySequence_Fast too_many = Some too_many) as Hfast by reflexivity.
  destruct (extract_over_limit too_many too_many 100 NoException Hfast)
    as [Hvertices Hindices].
  split.
  - apply Hvertices. vm_compute. reflexivity.
  - apply Hindices. vm_compute. reflexivity.
Defined.

(** Two entries are taken, the buffer has room for one. *)
Lemma extract_overruns_short_buffer_witness :
  extractVertices (Some vertices3) (Some (replicate 3 0)) 100 NoException
  = OutOfBounds.
Proof.
  apply (extract_overruns_short_buffer 3
           "Number of vertices exceeds the maximum."
           vertices3 vertices3 (replicate 3 0) NoException).
  - reflexivity.
  - lia.
  - vm_compute. reflexivity.
  - reflexivity.
  - vm_compute. discriminate.
  - vm_compute. reflexivity.
  - vm_compute. reflexivity.
Defined.
